(** * GPG key manager: a shallow embedding of [gpg_key_manager_core.py]

    The program is a sequence of calls to [gpg] and [git], a few HTTP
    requests, console prompts and one JSON file.  The embedding keeps that
    shape: every method of [GPGKeyManager] is a computation in a state and
    exception monad over a world made of

    - the log of external interactions performed so far,
    - git's global configuration (a finite map),
    - the configuration directory [~/.gpgkeymanager] and its JSON file,

    and an environment of oracles answering what the code cannot decide:
    what [gpg] prints or whether it starts at all, what the user types and
    whether the alarm goes off first, what GitHub replies, what the clock
    shows.

    What the model leaves out:

    - console output ([print]) and the [logging] calls, which influence
      neither control flow nor the persisted state;
    - time: [time.sleep] and the countdown loop of [connect_github] are one
      event in the log, the 30 seconds of the alarm are an oracle;
    - the text of the JSON file: the file is what [json.load] makes of it, a
      document or a malformed text, and [json.dump] writes a text that
      loads as the value dumped;
    - failures of the file system other than a missing file or directory
      and a directory that is not empty;
    - the temporary batch file of [create_gpg_key], of which only the name
      handed to [gpg] appears.

    The command line ([GPG-KeyManager.py]) and the file handling of the
    script logger ([src/utils/logger.py]) follow the manager. *)

From Stdlib Require Import ZArith Ascii String.
From stdpp Require Import gmap strings list fin_maps.

Local Set Warnings "-register-all".
Local Open Scope string_scope.

(** ** Python string methods

    Strings are sequences of characters with code points below 256; case
    mapping and white space follow Python on the ASCII range, which is what
    [gpg] and [git] print in the formats parsed here. *)
Module PyStr.

Definition code (c : ascii) : N := N_of_ascii c.

(** [str.isspace] on one character. *)
Definition is_space (c : ascii) : bool :=
  let n := code c in
  ((9 <=? n) && (n <=? 13) || (28 <=? n) && (n <=? 32))%N.

Fixpoint mem_char (c : ascii) (chars : string) : bool :=
  match chars with
  | EmptyString => false
  | String d rest => if Ascii.eqb c d then true else mem_char c rest
  end.

Fixpoint lstrip_by (p : ascii -> bool) (s : string) : string :=
  match s with
  | EmptyString => EmptyString
  | String c rest => if p c then lstrip_by p rest else s
  end.

Definition rstrip_by (p : ascii -> bool) (s : string) : string :=
  String.rev (lstrip_by p (String.rev s)).

Definition strip_by (p : ascii -> bool) (s : string) : string :=
  rstrip_by p (lstrip_by p s).

(** [s.strip()] *)
Definition strip (s : string) : string := strip_by is_space s.

(** [s.strip(chars)] *)
Definition strip_chars (chars s : string) : string :=
  strip_by (fun c => mem_char c chars) s.

(** [s.startswith(p)] *)
Definition startswith (p s : string) : bool := String.prefix p s.

(** [s.split(sep)] for a non-empty [sep] (every call site passes a literal).
    [skip] counts the characters of a separator occurrence still to be
    dropped, [cur] is the current piece, reversed. *)
Fixpoint split_go (sep : string) (skip : nat) (cur s : string) : list string :=
  match s with
  | EmptyString => [String.rev cur]
  | String c rest =>
      match skip with
      | S k => split_go sep k cur rest
      | O =>
          if String.prefix sep s
          then String.rev cur :: split_go sep (String.length sep - 1) EmptyString rest
          else split_go sep 0 (String c cur) rest
      end
  end.

Definition split (sep s : string) : list string := split_go sep 0 EmptyString s.

(** [s.split()]: pieces between runs of white space, none of them empty. *)
Fixpoint split_ws_go (cur : option string) (s : string) : list string :=
  match s with
  | EmptyString => option_list (String.rev <$> cur)
  | String c rest =>
      if is_space c
      then option_list (String.rev <$> cur) ++ split_ws_go None rest
      else split_ws_go (Some (String c (default EmptyString cur))) rest
  end.

Definition split_ws (s : string) : list string := split_ws_go None s.

(** Line boundaries of [str.splitlines] below code point 256. *)
Definition is_linebreak (c : ascii) : bool :=
  let n := code c in
  ((10 <=? n) && (n <=? 13) || (28 <=? n) && (n <=? 30) || (n =? 133))%N.

(** [s.splitlines()]: ["\r\n"] counts once and a final line break opens no
    empty last line. *)
Fixpoint splitlines_go (cur s : string) : list string :=
  match s with
  | EmptyString =>
      match cur with
      | EmptyString => []
      | _ => [String.rev cur]
      end
  | String c rest =>
      if is_linebreak c then
        match rest with
        | String d rest' =>
            if Ascii.eqb c "013" && Ascii.eqb d "010"
            then String.rev cur :: splitlines_go EmptyString rest'
            else String.rev cur :: splitlines_go EmptyString rest
        | EmptyString => [String.rev cur]
        end
      else splitlines_go (String c cur) rest
  end.

Definition splitlines (s : string) : list string := splitlines_go EmptyString s.

(** [sep.join(parts)] *)
Fixpoint join (sep : string) (parts : list string) : string :=
  match parts with
  | [] => EmptyString
  | [p] => p
  | p :: rest => p +:+ sep +:+ join sep rest
  end.

(** [s.replace(old, new)] for a non-empty [old]. *)
Definition replace (old new s : string) : string := join new (split old s).

Definition upper_char (c : ascii) : ascii :=
  let n := code c in
  if ((97 <=? n) && (n <=? 122))%N then ascii_of_N (n - 32) else c.

Definition lower_char (c : ascii) : ascii :=
  let n := code c in
  if ((65 <=? n) && (n <=? 90))%N then ascii_of_N (n + 32) else c.

Fixpoint map_chars (f : ascii -> ascii) (s : string) : string :=
  match s with
  | EmptyString => EmptyString
  | String c rest => String (f c) (map_chars f rest)
  end.

(** [s.upper()] and [s.lower()] *)
Definition upper (s : string) : string := map_chars upper_char s.
Definition lower (s : string) : string := map_chars lower_char s.

(** [s[:n]] *)
Definition take (n : nat) (s : string) : string := String.substring 0 n s.

(** [needle in s] *)
Fixpoint contains (needle s : string) : bool :=
  String.prefix needle s ||
  match s with
  | EmptyString => false
  | String _ rest => contains needle rest
  end.

(** The characters of a string, as Python iterates over it. *)
Fixpoint chars (s : string) : list string :=
  match s with
  | EmptyString => []
  | String c rest => String c EmptyString :: chars rest
  end.

(** Truthiness of a string: non-empty. *)
Definition nonempty (s : string) : bool :=
  match s with
  | EmptyString => false
  | _ => true
  end.

End PyStr.


(** ** Python values

    One universe of values serves for what [json.load] returns, for the
    dictionaries the code builds ([status], [config], key details) and for
    the bodies GitHub sends.  Dictionaries are finite maps: Python compares
    them by content, not by insertion order.  Numbers are integers; floating
    point literals are outside the model. *)
Inductive json : Type :=
  | JNull
  | JBool (b : bool)
  | JNum (z : Z)
  | JStr (s : string)
  | JArr (l : list json)
  | JObj (m : gmap string json).

(** [bool(v)] *)
Definition truthy (v : json) : bool :=
  match v with
  | JNull => false
  | JBool b => b
  | JNum z => negb (z =? 0)%Z
  | JStr s => PyStr.nonempty s
  | JArr l => match l with [] => false | _ => true end
  | JObj m => negb (bool_decide (m = ∅))
  end.

(** Truthiness of an [Optional[str]]. *)
Definition truthy_opt (o : option string) : bool :=
  match o with
  | Some s => PyStr.nonempty s
  | None => false
  end.

(** ** Exceptions *)
Inductive exn : Type :=
  | CalledProcessError (cmd : list string) (returncode : Z) (stderr : string)
  | OSError (msg : string)
  | ValueError (msg : string)
  | JSONDecodeError (msg : string)
  | RuntimeError (msg : string)
  | TimeoutError
  | EOFError
  | IndexError (msg : string)
  | KeyError (key : string)
  | AttributeError (msg : string)
  | TypeError (msg : string)
  | RequestException (msg : string).

(** [str(e)].  The rendering of [CalledProcessError] leaves out the quoting
    Python applies to the command. *)
Definition exn_str (e : exn) : string :=
  match e with
  | CalledProcessError cmd _ _ =>
      "Command '" +:+ PyStr.join " " cmd +:+ "' returned non-zero exit status."
  | OSError msg | ValueError msg | JSONDecodeError msg | RuntimeError msg
  | IndexError msg | AttributeError msg | TypeError msg
  | RequestException msg => msg
  | TimeoutError | EOFError => ""
  | KeyError key => "'" +:+ key +:+ "'"
  end.

Definition is_CalledProcessError (e : exn) : bool :=
  match e with CalledProcessError _ _ _ => true | _ => false end.

(** [TimeoutError] is a subclass of [OSError]. *)
Definition is_OSError (e : exn) : bool :=
  match e with OSError _ | TimeoutError => true | _ => false end.

(** [json.JSONDecodeError] is a subclass of [ValueError]. *)
Definition is_ValueError (e : exn) : bool :=
  match e with ValueError _ | JSONDecodeError _ => true | _ => false end.

Definition is_TimeoutError (e : exn) : bool :=
  match e with TimeoutError => true | _ => false end.

Definition is_RequestException (e : exn) : bool :=
  match e with RequestException _ => true | _ => false end.

Inductive outcome (A : Type) : Type :=
  | Ret (a : A)
  | Raise (e : exn).
Arguments Ret {A} a.
Arguments Raise {A} e.

(** ** The world *)

Inductive HttpMethod := GET | POST.

Record HttpRequest := {
  req_method : HttpMethod;
  req_url : string;
  req_headers : list (string * string);
  req_json : option json
}.

(** A response as the code reads it: [status_code], [text], and the value
    of [response.json()] when the body parses. *)
Record HttpResponse := {
  status_code : Z;
  text : string;
  json_body : option json
}.

Inductive HttpResult :=
  | Responded (r : HttpResponse)
  | RequestFailed (msg : string).

(** What [subprocess.run] meets: the child ran and exited, or it could not
    be started ([FileNotFoundError] and the other [OSError]s). *)
Inductive ProcResult :=
  | Exited (returncode : Z) (out err : string)
  | LaunchError (msg : string).

Record CompletedProcess := {
  returncode : Z;
  stdout : string;
  stderr : string
}.

Inductive Event :=
  | EvRun (argv : list string)
  | EvInput
  | EvHttp (req : HttpRequest)
  | EvSleep (seconds : nat).

(** What [json.load] makes of the file's text. *)
Inductive FileContent :=
  | Malformed
  | Doc (v : json).

(** The directory [CONFIG_DIR]: [CONFIG_FILE] if present, and whether
    anything else lives in the directory. *)
Record ConfigDir := {
  config_file : option FileContent;
  other_entries : bool
}.

Record State := {
  log : list Event;
  git_global : gmap string string;
  store : option ConfigDir
}.

(** The oracles.  Each one sees the log so far, so that answers may change
    from one call to the next. *)
Record Env := {
  gpg_tool : list Event -> list string -> ProcResult;
  git_spawn : list Event -> option string;
  stdin_line : list Event -> option string;
  alarm_fires : list Event -> bool;
  http : list Event -> HttpRequest -> HttpResult;
  now_iso : list Event -> string
}.

Definition record_event (ev : Event) (st : State) : State :=
  {| log := log st ++ [ev]; git_global := git_global st; store := store st |}.

Definition set_git (g : gmap string string) (st : State) : State :=
  {| log := log st; git_global := g; store := store st |}.

Definition set_store (d : option ConfigDir) (st : State) : State :=
  {| log := log st; git_global := git_global st; store := d |}.

(** ** The monad *)
Definition M (A : Type) : Type := State -> outcome A * State.

#[export] Instance M_ret : MRet M := fun A a st => (Ret a, st).

Definition bind {A B} (m : M A) (f : A -> M B) : M B := fun st =>
  match m st with
  | (Ret a, st') => f a st'
  | (Raise e, st') => (Raise e, st')
  end.

#[export] Instance M_bind : MBind M := fun A B f m => bind m f.

Notation "'let*' x ':=' m 'in' k" := (bind m (fun x => k))
  (at level 10, x pattern, m at level 100, k at level 200).

Definition raise {A} (e : exn) : M A := fun st => (Raise e, st).

(** [try: body except <classes caught>: handler].  [handler e = None] lets
    the exception through. *)
Definition try_except {A} (body : M A) (handler : exn -> option (M A)) : M A :=
  fun st =>
    match body st with
    | (Ret a, st') => (Ret a, st')
    | (Raise e, st') =>
        match handler e with
        | Some h => h st'
        | None => (Raise e, st')
        end
    end.

(** A pure step that may raise. *)
Definition lift {A} (o : outcome A) : M A := fun st => (o, st).

Definition outcome_bind {A B} (o : outcome A) (f : A -> outcome B) : outcome B :=
  match o with
  | Ret a => f a
  | Raise e => Raise e
  end.

Notation "'let+' x ':=' o 'in' k" := (outcome_bind o (fun x => k))
  (at level 10, x pattern, o at level 100, k at level 200).

(** [l[i]] *)
Definition index {A} (l : list A) (i : nat) : outcome A :=
  match l !! i with
  | Some a => Ret a
  | None => Raise (IndexError "list index out of range")
  end.

(** [l[-1]] on the result of a [split], which is never empty. *)
Definition last_piece (l : list string) : string := List.last l EmptyString.

(** [l[0]] on the result of a [split]. *)
Definition first_piece (l : list string) : string := List.hd EmptyString l.

(** ** git

    git is modelled by the global scope of its configuration, one value per
    key; [--get] without a scope reads that scope (no repository-local or
    system override).  Exit codes are those of [git config]: 5 for unsetting
    a key that is not set, 1 for getting one. *)
Inductive GitCmd :=
  | GitUnset (key : string)
  | GitGet (key : string)
  | GitSet (key value : string)
  | GitOther.

Definition parse_git (args : list string) : GitCmd :=
  match args with
  | [a; b; c; d] =>
      if String.eqb a "config" && String.eqb b "--global" then
        if String.eqb c "--unset" then GitUnset d
        else if String.eqb c "--get" then GitGet d
        else GitSet c d
      else GitOther
  | [a; b; c] =>
      if String.eqb a "config" && String.eqb b "--get" then GitGet c else GitOther
  | _ => GitOther
  end.

Definition newline : string := String "010" EmptyString.

Definition git_exec (args : list string) (st : State) : ProcResult * State :=
  match parse_git args with
  | GitUnset k =>
      match git_global st !! k with
      | Some _ => (Exited 0 "" "", set_git (delete k (git_global st)) st)
      | None => (Exited 5 "" "", st)
      end
  | GitGet k =>
      match git_global st !! k with
      | Some v => (Exited 0 (v +:+ newline) "", st)
      | None => (Exited 1 "" "", st)
      end
  | GitSet k v => (Exited 0 "" "", set_git (<[k := v]> (git_global st)) st)
  | GitOther => (Exited 129 "" "usage: git config [<options>]", st)
  end.

Section Program.

Variable env : Env.

(** ** Primitives *)

(** Starting a child process and waiting for it. *)
Definition run_tool (argv : list string) (st : State) : ProcResult * State :=
  let st1 := record_event (EvRun argv) st in
  match argv with
  | prog :: args =>
      if String.eqb prog "gpg" then (gpg_tool env (log st) args, st1)
      else if String.eqb prog "git" then
        match git_spawn env (log st) with
        | Some msg => (LaunchError msg, st1)
        | None => git_exec args st1
        end
      else (LaunchError "No such file or directory", st1)
  | [] => (LaunchError "No such file or directory", st1)
  end.

(** [subprocess.run(argv, capture_output=True, text=True, check=check)] *)
Definition subprocess_run (argv : list string) (check : bool) : M CompletedProcess :=
  fun st =>
    match run_tool argv st with
    | (LaunchError msg, st') => (Raise (OSError msg), st')
    | (Exited rc out err, st') =>
        if check && negb (rc =? 0)%Z
        then (Raise (CalledProcessError argv rc err), st')
        else (Ret {| returncode := rc; stdout := out; stderr := err |}, st')
    end.

(** [input()] *)
Definition input : M string := fun st =>
  match stdin_line env (log st) with
  | Some line => (Ret line, record_event EvInput st)
  | None => (Raise EOFError, record_event EvInput st)
  end.

(** [signal.alarm(30); input(); signal.alarm(0)] with a handler raising
    [TimeoutError]: the oracle says whether the alarm goes off before the
    line is complete. *)
Definition input_with_alarm : M string := fun st =>
  if alarm_fires env (log st)
  then (Raise TimeoutError, record_event EvInput st)
  else input st.

Definition requests_send (req : HttpRequest) : M HttpResponse := fun st =>
  match http env (log st) req with
  | Responded r => (Ret r, record_event (EvHttp req) st)
  | RequestFailed msg => (Raise (RequestException msg), record_event (EvHttp req) st)
  end.

(** [requests.get(url, headers=headers)] *)
Definition requests_get (url : string) (headers : list (string * string)) : M HttpResponse :=
  requests_send {| req_method := GET; req_url := url; req_headers := headers; req_json := None |}.

(** [requests.post(url, headers=headers, json=data)] *)
Definition requests_post (url : string) (headers : list (string * string)) (data : json)
  : M HttpResponse :=
  requests_send {| req_method := POST; req_url := url; req_headers := headers;
                   req_json := Some data |}.

(** [response.json()] *)
Definition response_json (r : HttpResponse) : outcome json :=
  match json_body r with
  | Some v => Ret v
  | None => Raise (JSONDecodeError "Expecting value")
  end.

(** [time.sleep(n)], and the countdown loop of [connect_github], which
    sleeps one second at a time until [n] seconds have passed. *)
Definition sleep (n : nat) : M unit := fun st => (Ret tt, record_event (EvSleep n) st).

(** [datetime.now().isoformat()] *)
Definition isoformat_now : M string := fun st => (Ret (now_iso env (log st)), st).

(** *** The configuration directory and file *)

(** [CONFIG_DIR.mkdir(parents=True, exist_ok=True)] *)
Definition CONFIG_DIR_mkdir : M unit := fun st =>
  match store st with
  | Some _ => (Ret tt, st)
  | None => (Ret tt, set_store (Some {| config_file := None; other_entries := false |}) st)
  end.

(** [CONFIG_DIR.exists()] *)
Definition CONFIG_DIR_exists : M bool := fun st =>
  (Ret (bool_decide (is_Some (store st))), st).

(** [CONFIG_FILE.exists()] *)
Definition CONFIG_FILE_exists : M bool := fun st =>
  (Ret (bool_decide (is_Some (store st ≫= config_file))), st).

(** [CONFIG_FILE.unlink()] *)
Definition CONFIG_FILE_unlink : M unit := fun st =>
  match store st with
  | Some d =>
      match config_file d with
      | Some _ =>
          (Ret tt, set_store (Some {| config_file := None; other_entries := other_entries d |}) st)
      | None => (Raise (OSError "No such file or directory"), st)
      end
  | None => (Raise (OSError "No such file or directory"), st)
  end.

(** [CONFIG_DIR.rmdir()] *)
Definition CONFIG_DIR_rmdir : M unit := fun st =>
  match store st with
  | Some d =>
      match config_file d, other_entries d with
      | None, false => (Ret tt, set_store None st)
      | _, _ => (Raise (OSError "Directory not empty"), st)
      end
  | None => (Raise (OSError "No such file or directory"), st)
  end.

(** [with open(CONFIG_FILE, 'r') as f: return json.load(f)] *)
Definition read_config_file : M json := fun st =>
  match store st ≫= config_file with
  | Some (Doc v) => (Ret v, st)
  | Some Malformed => (Raise (JSONDecodeError "Expecting value"), st)
  | None => (Raise (OSError "No such file or directory"), st)
  end.

(** [with open(CONFIG_FILE, 'w') as f: json.dump(config, f, indent=2)].
    The file afterwards holds a text that [json.load] reads back as
    [config]. *)
Definition write_config_file (config : json) : M unit := fun st =>
  match store st with
  | Some d =>
      (Ret tt, set_store (Some {| config_file := Some (Doc config);
                                  other_entries := other_entries d |}) st)
  | None => (Raise (OSError "No such file or directory"), st)
  end.

(** *** Dictionary access *)

(** [d.get(key, dflt)] *)
Definition py_get (d : json) (key : string) (dflt : json) : outcome json :=
  match d with
  | JObj m => Ret (default dflt (m !! key))
  | _ => Raise (AttributeError "object has no attribute 'get'")
  end.

(** [d[key] = v] *)
Definition py_setitem (d : json) (key : string) (v : json) : outcome json :=
  match d with
  | JObj m => Ret (JObj (<[key := v]> m))
  | JArr _ => Raise (TypeError "list indices must be integers or slices, not str")
  | _ => Raise (TypeError "object does not support item assignment")
  end.

(** [d[key]] on a dictionary *)
Definition getitem {A} (m : gmap string A) (key : string) : outcome A :=
  match m !! key with
  | Some v => Ret v
  | None => Raise (KeyError key)
  end.

(** What a [for] loop or [any] iterates over. *)
Definition py_iter (v : json) : outcome (list json) :=
  match v with
  | JArr l => Ret l
  | JObj m => Ret ((fun kv => JStr kv.1) <$> map_to_list m)
  | JStr s => Ret (JStr <$> PyStr.chars s)
  | _ => Raise (TypeError "object is not iterable")
  end.

(** ** [GPGKeyManager] *)

(** [check_gpg_installed] *)
Definition check_gpg_installed : M bool :=
  try_except
    (subprocess_run ["gpg"; "--version"] true;; mret true)
    (fun e => if is_CalledProcessError e then Some (mret false) else None).

(** The loop shared by [verify_github_key] and [connect_to_github]: the
    first line starting with the fingerprint label gives the fingerprint. *)
Fixpoint scan_key_fingerprint (lines : list string) : outcome string :=
  match lines with
  | [] => Ret ""
  | line :: rest =>
      if PyStr.startswith "      Key fingerprint = " line
      then let+ piece := index (PyStr.split "=" line) 1 in Ret (PyStr.strip piece)
      else scan_key_fingerprint rest
  end.

(** [verify_github_key] *)
Definition verify_github_key (key_id : string) : M (gmap string json) :=
  try_except
    (let* result := subprocess_run ["gpg"; "--armor"; "--export"; key_id] true in
     let public_key := stdout result in
     let* fingerprint_result := subprocess_run ["gpg"; "--fingerprint"; key_id] true in
     let fingerprint_lines := PyStr.split newline (stdout fingerprint_result) in
     let* fingerprint := lift (scan_key_fingerprint fingerprint_lines) in
     mret (<["public_key" := JStr public_key]>
           (<["fingerprint" := JStr fingerprint]>
           (<["github_configured" := JBool false]> ∅))))
    (fun e =>
       if is_CalledProcessError e
       then Some (mret (<["public_key" := JStr ""]>
                        (<["fingerprint" := JStr ""]>
                        (<["github_configured" := JBool false]> ∅))))
       else None).

(** *** The configuration store *)

(** [load_config] *)
Definition load_config : M json :=
  try_except
    (CONFIG_DIR_mkdir;;
     let* present := CONFIG_FILE_exists in
     if negb present then mret (JObj ∅) else read_config_file)
    (fun e => Some (mret (JObj ∅))).

(** [save_config] *)
Definition save_config (config : json) : M unit :=
  try_except
    (CONFIG_DIR_mkdir;;
     write_config_file config)
    (fun e => Some (raise (RuntimeError ("Failed to save configuration: " +:+ exn_str e)))).

(** [update_key_config] *)
Definition update_key_config (key_id name comment expire : string)
    (git_configured github_configured : bool) : M unit :=
  let config : gmap string json :=
    <["gpg_installed" := JBool true]>
    (<["key_configured" := JBool true]>
    (<["git_configured" := JBool git_configured]>
    (<["gpg_key_id" := JStr key_id]>
    (<["github_key_added" := JBool github_configured]> ∅)))) in
  save_config (JObj config).

Definition git_unset (key : string) : M CompletedProcess :=
  subprocess_run ["git"; "config"; "--global"; "--unset"; key] false.

(** [clear_config] *)
Definition clear_config : M unit :=
  try_except
    (git_unset "user.signingkey";;
     git_unset "commit.gpgsign";;
     git_unset "tag.gpgsign";;
     let* dir_present := CONFIG_DIR_exists in
     (if dir_present then
        let* file_present := CONFIG_FILE_exists in
        (if file_present then CONFIG_FILE_unlink else mret tt : M unit);;
        try_except CONFIG_DIR_rmdir
          (fun e => if is_OSError e then Some (mret tt) else None)
      else mret tt : M unit);;
     update_key_config "" "" "" "" false false)
    (fun e => Some (raise (RuntimeError ("Failed to clear configuration: " +:+ exn_str e)))).


(** *** Reading the key listing *)

(** The loop of [get_gpg_key_id]: the id of the first [sec] line that has a
    second column. *)
Fixpoint first_secret_key_id (lines : list string) : option string :=
  match lines with
  | [] => None
  | line :: rest =>
      if PyStr.startswith "sec" line then
        match PyStr.split_ws line with
        | _ :: second :: _ =>
            let key_id := PyStr.strip_chars "[]" second in
            Some (last_piece (PyStr.split "/" key_id))
        | _ => first_secret_key_id rest
        end
      else first_secret_key_id rest
  end.

(** [get_gpg_key_id] *)
Definition get_gpg_key_id : M (option string) :=
  try_except
    (let* result := subprocess_run ["gpg"; "--list-secret-keys"; "--keyid-format=long"] true in
     mret (first_secret_key_id (PyStr.split newline (stdout result))))
    (fun e => if is_CalledProcessError e then Some (mret None) else None).

(** One iteration of the loop of [get_gpg_key_details] on [(details,
    key_found)]. *)
Definition key_details_step (key_id : string) (acc : gmap string json * bool)
    (line : string) : outcome (gmap string json * bool) :=
  let '(details, key_found) := acc in
  if PyStr.startswith "sec" line then
    let key_parts := PyStr.split_ws line in
    if bool_decide (1 < length key_parts) then
      let+ second := index key_parts 1 in
      let current_key := PyStr.strip_chars "[]" second in
      let current_key_id := last_piece (PyStr.split "/" current_key) in
      if String.eqb key_id current_key_id then
        let details := <["primary_key" := JStr current_key_id]> details in
        let details :=
          <["primary_type" := JStr (first_piece (PyStr.split "/" second))]> details in
        let+ size := index key_parts 2 in
        let details := <["primary_size" := JStr size]> details in
        let+ created := index key_parts 3 in
        Ret (<["primary_created" := JStr created]> details, true)
      else Ret (details, key_found)
    else Ret (details, key_found)
  else if key_found && PyStr.startswith "uid" line then
    let+ after := index (PyStr.split "uid" line) 1 in
    let uid_parts := PyStr.strip after in
    let owner_parts := PyStr.strip (last_piece (PyStr.split "]" uid_parts)) in
    let name_parts := PyStr.strip (first_piece (PyStr.split "<" owner_parts)) in
    Ret (<["owner" := JStr name_parts]> details, key_found)
  else if key_found && PyStr.startswith "ssb" line then
    let subkey_parts := PyStr.split_ws line in
    if bool_decide (2 < length subkey_parts) then
      let+ second := index subkey_parts 1 in
      let details :=
        <["subkey_type" := JStr (first_piece (PyStr.split "/" second))]> details in
      let+ size := index subkey_parts 2 in
      let details := <["subkey_size" := JStr size]> details in
      if bool_decide (3 < length subkey_parts) then
        let+ created := index subkey_parts 3 in
        Ret (<["subkey_created" := JStr created]> details, key_found)
      else Ret (details, key_found)
    else Ret (details, key_found)
  else Ret (details, key_found).

Fixpoint key_details_loop (key_id : string) (acc : gmap string json * bool)
    (lines : list string) : outcome (gmap string json * bool) :=
  match lines with
  | [] => Ret acc
  | line :: rest =>
      let+ acc' := key_details_step key_id acc line in
      key_details_loop key_id acc' rest
  end.

(** [get_gpg_key_details] *)
Definition get_gpg_key_details (key_id : string) : M (gmap string json) :=
  try_except
    (let* key_info := subprocess_run ["gpg"; "--list-secret-keys"; "--keyid-format=long"] true in
     let* r := lift (key_details_loop key_id (∅, false) (PyStr.split newline (stdout key_info))) in
     mret r.1)
    (fun e => if is_CalledProcessError e then Some (mret ∅) else None).

(** *** Status *)

Fixpoint concat_strs (items : list json) : outcome string :=
  match items with
  | [] => Ret ""
  | JStr piece :: rest => let+ tail := concat_strs rest in Ret (piece +:+ tail)
  | _ :: _ => Raise (TypeError "sequence item: expected str instance")
  end.

(** ["".join(v)]: a string is joined character by character. *)
Definition join_empty (v : json) : outcome string :=
  let+ items := py_iter v in concat_strs items.

Definition git_get (key : string) : M CompletedProcess :=
  subprocess_run ["git"; "config"; "--get"; key] true.

(** [check_gpg_status], "Check git configuration" *)
Definition status_git_check (key_id : string) (status : gmap string json)
  : M (gmap string json) :=
  try_except
    (let* result := git_get "user.signingkey" in
     let signing_key := PyStr.strip (stdout result) in
     if String.eqb signing_key key_id
     then mret (<["git_configured" := JBool true]> status)
     else mret status)
    (fun e => if is_CalledProcessError e then Some (mret status) else None).

(** [check_gpg_status], "Check GitHub configuration": the [try] block *)
Definition github_probe (key_id : string) (status : gmap string json)
  : M (gmap string json) :=
  let* github_key_details := verify_github_key key_id in
  let* public_key := lift (getitem github_key_details "public_key") in
  let* joined := lift (join_empty public_key) in
  let status := <["public_key" := JStr (newline +:+ joined)]> status in
  mret (<["github_configured" := JBool (truthy (JObj github_key_details))]> status).

(** [check_gpg_status], "Check GitHub configuration" *)
Definition status_github_check (key_id : string) (status : gmap string json)
  : M (gmap string json) :=
  try_except
    (github_probe key_id status)
    (fun e =>
       Some (mret (<["github_configured" := JBool false]>
                   (<["public_key" := JObj ∅]> status)))).

(** [check_gpg_status], "Load config to get the latest status" *)
Definition status_load_cached (status : gmap string json) : M (gmap string json) :=
  let* config := load_config in
  let* added := lift (py_get config "github_key_added" (JBool false)) in
  let* updated := lift (py_get config "last_config_update" JNull) in
  mret (<["last_update" := updated]> (<["github_key_added" := added]> status)).

(** The dictionary returned by the outermost handler of [check_gpg_status]. *)
Definition status_error (e : exn) : gmap string json :=
  <["error" := JStr (exn_str e)]>
  (<["gpg_installed" := JBool false]>
  (<["key_configured" := JBool false]>
  (<["git_configured" := JBool false]>
  (<["github_configured" := JBool false]>
  (<["key_details" := JObj ∅]>
  (<["github_key_added" := JBool false]>
  (<["last_update" := JNull]> ∅))))))).

(** [check_gpg_status] up to the GitHub check: the status to return when
    no key is examined, the key id and the status built so far otherwise. *)
Definition status_until_github
  : M (gmap string json + string * gmap string json) :=
  let* installed := check_gpg_installed in
  let status : gmap string json := <["gpg_installed" := JBool installed]> ∅ in
  if installed then
    let* key_id := get_gpg_key_id in
    match key_id with
    | Some key_id =>
        if PyStr.nonempty key_id then
          let status := <["key_configured" := JBool true]> status in
          let* key_details := get_gpg_key_details key_id in
          let status := <["key_details" := JObj key_details]> status in
          let* status := status_git_check key_id status in
          mret (inr (key_id, status))
        else mret (inl status)
    | None => mret (inl status)
    end
  else mret (inl status).

(** [check_gpg_status] *)
Definition check_gpg_status : M (gmap string json) :=
  try_except
    (let* reached := status_until_github in
     match reached with
     | inl status => mret status
     | inr (key_id, status) =>
         let* status := status_github_check key_id status in
         status_load_cached status
     end)
    (fun e => Some (mret (status_error e))).

(** *** Deleting a key *)

(** The loop of [delete_gpg_key]: column 10 of the first [fpr:] line. *)
Fixpoint first_fpr_field (lines : list string) : outcome (option string) :=
  match lines with
  | [] => Ret None
  | line :: rest =>
      if PyStr.startswith "fpr:" line
      then let+ field := index (PyStr.split ":" line) 9 in Ret (Some field)
      else first_fpr_field rest
  end.

Definition delete_command (fingerprint : string) : list string :=
  ["gpg"; "--batch"; "--yes"; "--delete-secret-and-public-key"; fingerprint].

(** The two [except] clauses of [delete_gpg_key]: what is raised in place
    of [e]. *)
Definition deletion_error (e : exn) : exn :=
  match e with
  | CalledProcessError _ _ err => RuntimeError ("Failed to delete GPG key: " +:+ err)
  | _ => RuntimeError ("Failed to delete GPG key: " +:+ exn_str e)
  end.

(** [delete_gpg_key], "Clear git configuration" and "Clear our
    configuration" *)
Definition clear_after_deletion : M unit :=
  git_unset "user.signingkey";;
  git_unset "user.email";;
  git_unset "user.name";;
  clear_config.

(** [delete_gpg_key] *)
Definition delete_gpg_key (key_id : string) : M bool :=
  try_except
    (let* key_info := subprocess_run ["gpg"; "--list-keys"; "--with-colons"; key_id] true in
     let* fingerprint := lift (first_fpr_field (PyStr.split newline (stdout key_info))) in
     if negb (truthy_opt fingerprint) then
       raise (ValueError ("Could not find fingerprint for key " +:+ key_id))
     else
       subprocess_run (delete_command (default "" fingerprint)) true;;
       clear_after_deletion;;
       mret true)
    (fun e => Some (raise (deletion_error e))).

(** [configure_git] *)
Definition configure_git (key_id : string) : M bool :=
  try_except
    (subprocess_run ["git"; "config"; "--global"; "user.signingkey"; key_id] true;;
     subprocess_run ["git"; "config"; "--global"; "commit.gpgsign"; "true"] true;;
     mret true)
    (fun e => if is_CalledProcessError e then Some (mret false) else None).

(** *** Listing keys *)

(** Truthiness of [current_key], which is [None] or a dictionary. *)
Definition truthy_dict (d : option (gmap string string)) : bool :=
  match d with
  | Some m => negb (bool_decide (m = ∅))
  | None => false
  end.

Definition append_current (current_key : option (gmap string string))
    (keys : list (gmap string string)) : list (gmap string string) :=
  match current_key with
  | Some m => if truthy_dict current_key then keys ++ [m] else keys
  | None => keys
  end.

(** One iteration of the parsing loop of [list_gpg_keys] on
    [(current_key, keys)]. *)
Definition list_keys_step
    (acc : option (gmap string string) * list (gmap string string)) (line : string)
  : outcome (option (gmap string string) * list (gmap string string)) :=
  let '(current_key, keys) := acc in
  if negb (PyStr.nonempty line) then Ret acc
  else
    let parts := PyStr.split ":" line in
    if String.eqb (first_piece parts) "sec" then
      let keys := append_current current_key keys in
      let+ key_id := index parts 4 in
      let+ created := index parts 5 in
      let+ expires := index parts 6 in
      Ret (Some (<["type" := "secret"]>
                 (<["key_id" := key_id]>
                 (<["created" := created]>
                 (<["expires" := expires]>
                 (<["uid" := ""]>
                 (<["status" := ""]> ∅)))))), keys)
    else if String.eqb (first_piece parts) "uid" then
      match current_key with
      | Some m =>
          if truthy_dict current_key then
            let+ uid := index parts 9 in
            let+ flag := index parts 1 in
            Ret (Some (<["status" := flag]> (<["uid" := uid]> m)), keys)
          else Ret acc
      | None => Ret acc
      end
    else Ret acc.

Fixpoint list_keys_loop
    (acc : option (gmap string string) * list (gmap string string)) (lines : list string)
  : outcome (option (gmap string string) * list (gmap string string)) :=
  match lines with
  | [] => Ret acc
  | line :: rest =>
      let+ acc' := list_keys_step acc line in
      list_keys_loop acc' rest
  end.

(** The subscripts [key[field]] evaluated while a key is printed. *)
Fixpoint read_fields (key : gmap string string) (fields : list string) : outcome unit :=
  match fields with
  | [] => Ret tt
  | field :: rest => let+ _ := getitem key field in read_fields key rest
  end.

(** The printing loop of [list_gpg_keys]: per key, one query of git. *)
Fixpoint report_keys (keys : list (gmap string string)) : M unit :=
  match keys with
  | [] => mret tt
  | key :: rest =>
      lift (read_fields key ["key_id"; "type"; "created"; "expires"; "uid"; "status"]);;
      try_except
        (let* result := git_get "user.signingkey" in
         let git_signing_key := PyStr.strip (stdout result) in
         let* _ := lift (getitem key "key_id") in
         mret tt)
        (fun e => if is_CalledProcessError e then Some (mret tt) else None);;
      report_keys rest
  end.

(** [list_gpg_keys].  The result is what the Python function returns:
    [None] stands for Python's [None]. *)
Definition list_gpg_keys : M (option (list (gmap string string))) :=
  try_except
    (let* result := subprocess_run ["gpg"; "--list-secret-keys"; "--with-colons"] true in
     let lines := PyStr.split newline (stdout result) in
     let* parsed := lift (list_keys_loop (None, []) lines) in
     let keys := append_current parsed.1 parsed.2 in
     match keys with
     | [] => mret None
     | _ :: _ => report_keys keys;; mret None
     end)
    (fun e => if is_CalledProcessError e then Some (raise e) else None).

(** *** Configuring git interactively *)

Definition digit_value (c : ascii) : option Z :=
  let n := PyStr.code c in
  if ((48 <=? n) && (n <=? 57))%N then Some (Z.of_N n - 48)%Z else None.

(** Digits with single underscores between them. *)
Fixpoint digits_value (after_digit : bool) (acc : Z) (s : string) : option Z :=
  match s with
  | EmptyString => if after_digit then Some acc else None
  | String c rest =>
      match digit_value c with
      | Some d => digits_value true (acc * 10 + d)%Z rest
      | None =>
          if Ascii.eqb c "_" && after_digit then digits_value false acc rest else None
      end
  end.

(** [int(s)] *)
Definition py_int (s : string) : outcome Z :=
  let body := PyStr.strip s in
  let parsed :=
    match body with
    | String "-" rest => Z.opp <$> digits_value false 0 rest
    | String "+" rest => digits_value false 0 rest
    | _ => digits_value false 0 body
    end in
  match parsed with
  | Some z => Ret z
  | None => Raise (ValueError "invalid literal for int() with base 10")
  end.

Fixpoint show_keys (keys : list (gmap string string)) : outcome unit :=
  match keys with
  | [] => Ret tt
  | key :: rest =>
      let+ _ := read_fields key ["uid"; "key_id"; "type"; "length"; "created"; "expires"] in
      show_keys rest
  end.

(** The three assignments and the save that end [git_config]. *)
Definition mark_github_configured : M unit :=
  let* config := load_config in
  let* config := lift (py_setitem config "github_configured" (JBool true)) in
  let* now := isoformat_now in
  let* config := lift (py_setitem config "last_config_update" (JStr now)) in
  save_config config.

(** [git_config] *)
Definition git_config : M bool :=
  try_except
    (let* keys := list_gpg_keys in
     match keys with
     | None | Some [] => mret false
     | Some keys =>
         lift (show_keys keys);;
         try_except
           (let* line := input in
            let* choice := lift (py_int (PyStr.strip line)) in
            if (choice =? 0)%Z then mret false
            else if negb ((1 <=? choice)%Z && (choice <=? Z.of_nat (length keys))%Z)
            then mret false
            else
              let* selected_key := lift (index keys (Z.to_nat (choice - 1))) in
              let* key_id := lift (getitem selected_key "key_id") in
              let* configured := configure_git key_id in
              if configured then
                lift (read_fields selected_key ["uid"; "key_id"]);;
                mark_github_configured;;
                mret true
              else mret false)
           (fun e => if is_ValueError e then Some (mret false) else None)
     end)
    (fun e => Some (mret false)).

(** *** GitHub *)

Definition gpg_keys_url : string := "https://api.github.com/user/gpg_keys".

(** [key.get('fingerprint', '').upper()] *)
Definition fingerprint_upper (key : json) : outcome string :=
  let+ value := py_get key "fingerprint" (JStr "") in
  match value with
  | JStr s => Ret (PyStr.upper s)
  | _ => Raise (AttributeError "object has no attribute 'upper'")
  end.

(** [any(key.get('fingerprint', '').upper() == fingerprint.upper()
         for key in existing_keys)] on the items of [existing_keys] *)
Fixpoint any_fingerprint (items : list json) (fingerprint : string) : outcome bool :=
  match items with
  | [] => Ret false
  | key :: rest =>
      let+ upper := fingerprint_upper key in
      if String.eqb upper (PyStr.upper fingerprint) then Ret true
      else any_fingerprint rest fingerprint
  end.

Definition key_exists_in (existing_keys : json) (fingerprint : string) : outcome bool :=
  let+ items := py_iter existing_keys in any_fingerprint items fingerprint.

(** [connect_to_github], "Check if token has read permissions": [inl b]
    when the block returns [b], the response otherwise. *)
Definition validate_token (headers : list (string * string)) : M (bool + HttpResponse) :=
  try_except
    (let* response := requests_get gpg_keys_url headers in
     if (status_code response =? 401)%Z then mret (inl false)
     else if (status_code response =? 403)%Z then mret (inl false)
     else mret (inr response))
    (fun e => if is_RequestException e then Some (mret (inl false)) else None).

(** [connect_to_github], "Check if we have write permissions" *)
Definition upload_and_verify (headers : list (string * string))
    (public_key fingerprint : string) : M bool :=
  try_except
    (let data := JObj (<["armored_public_key" := JStr public_key]> ∅) in
     let* response := requests_post gpg_keys_url headers data in
     if (status_code response =? 403)%Z then mret false
     else if negb (status_code response =? 201)%Z then mret false
     else
       sleep 5;;
       let* response := requests_get gpg_keys_url headers in
       let* existing_keys := lift (response_json response) in
       let* key_exists := lift (key_exists_in existing_keys fingerprint) in
       if key_exists then mret true else mret false)
    (fun e => if is_RequestException e then Some (mret false) else None).

(** [connect_to_github] *)
Definition connect_to_github (key_id : string) : M bool :=
  try_except
    (let* key_details := get_gpg_key_details key_id in
     if negb (truthy (JObj key_details)) then mret false
     else
       let* result := subprocess_run ["gpg"; "--armor"; "--export"; key_id] true in
       let public_key := PyStr.strip (stdout result) in
       let* fingerprint_result := subprocess_run ["gpg"; "--fingerprint"; key_id] true in
       let fingerprint_lines := PyStr.split newline (stdout fingerprint_result) in
       let* fingerprint := lift (scan_key_fingerprint fingerprint_lines) in
       let* pat := input in
       let headers := [("Authorization", "token " +:+ pat);
                       ("Accept", "application/vnd.github+json")] in
       let* checked := validate_token headers in
       match checked with
       | inl answer => mret answer
       | inr response =>
           let* existing_keys := lift (response_json response) in
           let* key_exists := lift (key_exists_in existing_keys fingerprint) in
           if key_exists then mret true
           else upload_and_verify headers public_key fingerprint
       end)
    (fun e => Some (mret false)).

(** The loop of [connect_github] over the colon listing, on
    [(fingerprint, uid_name)]. *)
Fixpoint scan_fpr_uid (acc : string * string) (lines : list string)
  : outcome (string * string) :=
  match lines with
  | [] => Ret acc
  | line :: rest =>
      if PyStr.startswith "fpr:" line then
        let+ field := index (PyStr.split ":" line) 9 in
        scan_fpr_uid (field, acc.2) rest
      else if PyStr.startswith "uid:" line then
        let uid_parts := PyStr.split ":" line in
        if bool_decide (10 ≤ length uid_parts)%nat then
          let+ field := index uid_parts 9 in
          scan_fpr_uid (acc.1, field) rest
        else scan_fpr_uid acc rest
      else scan_fpr_uid acc rest
  end.

(** [connect_github], "Retrieve GitHub username from git config or prompt":
    [None] when the block makes the function return [False]. *)
Definition find_github_username : M (option string) :=
  let* github_username :=
    try_except
      (let* result := git_get "github.user" in mret (PyStr.strip (stdout result)))
      (fun e => if is_CalledProcessError e then Some (mret "") else None) in
  let* github_username :=
    if negb (PyStr.nonempty github_username) then
      try_except
        (let* result := git_get "user.name" in mret (PyStr.strip (stdout result)))
        (fun e => if is_CalledProcessError e then Some (mret github_username) else None)
    else mret github_username in
  if negb (PyStr.nonempty github_username) then
    let* line := input in
    let github_username := PyStr.strip line in
    if negb (PyStr.nonempty github_username) then mret None
    else mret (Some github_username)
  else mret (Some github_username).

(** [connect_github], "Step 3": the armored key and the key id without
    spaces and slashes, or [None] when the export exits with an error. *)
Definition export_for_github (key_id : string) : M (option (string * string)) :=
  try_except
    (let* export_result :=
       subprocess_run ["gpg"; "--armor"; "--export"; "--no-tty"; "--batch"; key_id] true in
     let public_key := PyStr.strip (stdout export_result) in
     let key_id_hex := PyStr.replace "/" "" (PyStr.replace " " "" key_id) in
     mret (Some (public_key, key_id_hex)))
    (fun e => if is_CalledProcessError e then Some (mret None) else None).

(** The "Update configuration" block of [connect_github]. *)
Definition record_github_key : M unit :=
  let* config := load_config in
  let* config := lift (py_setitem config "github_key_added" (JBool true)) in
  let* config := lift (py_setitem config "github_configured" (JBool true)) in
  let* now := isoformat_now in
  let* config := lift (py_setitem config "last_config_update" (JStr now)) in
  save_config config.

(** Whether the loop over [existing_keys] meets a key with this id. *)
Fixpoint find_key_id (items : list json) (key_id_hex : string) : outcome bool :=
  match items with
  | [] => Ret false
  | gpg_key :: rest =>
      let+ value := py_get gpg_key "key_id" JNull in
      match value with
      | JStr s => if String.eqb s key_id_hex then Ret true else find_key_id rest key_id_hex
      | _ => find_key_id rest key_id_hex
      end
  end.

(** [needle in v] *)
Definition py_contains (needle : string) (v : json) : outcome bool :=
  match v with
  | JStr s => Ret (PyStr.contains needle s)
  | JArr l =>
      Ret (existsb (fun item => match item with
                                | JStr s => String.eqb s needle
                                | _ => false
                                end) l)
  | JObj m => Ret (bool_decide (is_Some (m !! needle)))
  | _ => Raise (TypeError "argument is not iterable")
  end.

(** Everything [connect_github] has gathered when it reaches the
    confirmation prompt. *)
Record Prepared := {
  prep_headers : list (string * string);
  prep_username : string;
  prep_public_key : string;
  prep_key_id_hex : string
}.

(** [connect_github] up to the confirmation prompt: [None] when the
    function returns [False] before it. *)
Definition connect_github_prepare : M (option Prepared) :=
  let* line := input in
  let token := PyStr.strip line in
  if negb (PyStr.nonempty token) then mret None
  else
    let headers := [("Accept", "application/vnd.github+json");
                    ("Authorization", "token " +:+ token)] in
    let* key_id := get_gpg_key_id in
    if negb (truthy_opt key_id) then mret None
    else
      let key_id := default "" key_id in
      let* result := subprocess_run ["gpg"; "--with-colons"; "--fingerprint"; key_id] true in
      let lines := PyStr.splitlines (stdout result) in
      let* scanned := lift (scan_fpr_uid ("", "Unknown") lines) in
      let* github_username := find_github_username in
      match github_username with
      | None => mret None
      | Some github_username =>
          let* exported := export_for_github key_id in
          match exported with
          | None => mret None
          | Some (public_key, key_id_hex) =>
              sleep 5;;
              mret (Some {| prep_headers := headers; prep_username := github_username;
                            prep_public_key := public_key; prep_key_id_hex := key_id_hex |})
          end
      end.

(** [connect_github], the branch taken on the answer [y]. *)
Definition verify_or_add (p : Prepared) : M bool :=
  let* response :=
    requests_get ("https://api.github.com/users/" +:+ prep_username p +:+ "/gpg_keys")
                 (prep_headers p) in
  let* already :=
    if (status_code response =? 200)%Z then
      let* existing_keys := lift (response_json response) in
      let* items := lift (py_iter existing_keys) in
      lift (find_key_id items (prep_key_id_hex p))
    else mret false in
  if already then record_github_key;; mret true
  else
    let title := "GPG Key " +:+ PyStr.take 8 (prep_key_id_hex p) +:+ " - " +:+ prep_username p in
    let* add_key_response :=
      requests_post gpg_keys_url (prep_headers p)
        (JObj (<["armored_public_key" := JStr (prep_public_key p)]>
              (<["title" := JStr title]> ∅))) in
    if (status_code add_key_response =? 201)%Z then record_github_key;; mret true
    else
      let* body := lift (response_json add_key_response) in
      let* error_msg := lift (py_get body "message" (JStr "Unknown error")) in
      lift (py_contains "read:gpg_key" error_msg);;
      mret false.

(** [connect_github], "Get user input with timeout" *)
Definition confirm_and_connect (p : Prepared) : M bool :=
  try_except
    (let* line := input_with_alarm in
     let user_input := PyStr.lower line in
     if String.eqb user_input "y" then verify_or_add p
     else if String.eqb user_input "n" then mret false
     else mret false)
    (fun e => if is_TimeoutError e then Some (mret false) else None).

(** The two [except] clauses of [connect_github]: what is raised in place
    of [e]. *)
Definition connection_error (e : exn) : exn :=
  match e with
  | CalledProcessError _ _ err => RuntimeError ("Failed to connect to GitHub: " +:+ err)
  | _ => RuntimeError ("Failed to connect to GitHub: " +:+ exn_str e)
  end.

(** [connect_github] *)
Definition connect_github : M bool :=
  try_except
    (let* prepared := connect_github_prepare in
     match prepared with
     | None => mret false
     | Some p => confirm_and_connect p
     end)
    (fun e => Some (raise (connection_error e))).

(** ** The command line: [main] on [--connect-github]

    [args.key_id] is [None] without [-k].  A call of [sys.exit(n)] is the
    result [n]: [SystemExit] is no [Exception] and passes the handler. *)
Definition main_connect_github (key_id_arg : option string) : M Z :=
  try_except
    (let* installed := check_gpg_installed in
     if negb installed then mret 1%Z
     else
       let* chosen :=
         if negb (truthy_opt key_id_arg) then
           list_gpg_keys;;
           let* line := input in
           let key_id := PyStr.strip line in
           if negb (PyStr.nonempty key_id) then mret (inl 1%Z) else mret (inr key_id)
         else mret (inr (default "" key_id_arg)) in
       match chosen with
       | inl code => mret code
       | inr key_id =>
           connect_to_github key_id;;
           mret 0%Z
       end)
    (fun e => Some (mret 1%Z)).

End Program.

(** ** Vocabulary of the statements *)

(** What [load_config] reads out of a store. *)
Definition stored_record (s : option ConfigDir) : json :=
  match s ≫= config_file with
  | Some (Doc v) => v
  | Some Malformed | None => JObj ∅
  end.

Definition empty_dir : ConfigDir := {| config_file := None; other_entries := false |}.

(** The state after [CONFIG_DIR.mkdir(parents=True, exist_ok=True)]. *)
Definition ensure_dir (st : State) : State :=
  match store st with
  | Some _ => st
  | None => set_store (Some empty_dir) st
  end.

(** The state after [config] has been written to [CONFIG_FILE]. *)
Definition with_config (config : json) (st : State) : State :=
  set_store (Some {| config_file := Some (Doc config);
                     other_entries := match store st with
                                      | Some d => other_entries d
                                      | None => false
                                      end |}) st.

(** The record [update_key_config('', '', '', '', False, False)] saves. *)
Definition unconfigured : gmap string json :=
  <["gpg_installed" := JBool true]>
  (<["key_configured" := JBool true]>
  (<["git_configured" := JBool false]>
  (<["gpg_key_id" := JStr ""]>
  (<["github_key_added" := JBool false]> ∅)))).

Definition unset_event (key : string) : Event :=
  EvRun ["git"; "config"; "--global"; "--unset"; key].

(** The state [clear_config] ends in when it returns. *)
Definition cleared (st : State) : State :=
  {| log := log st ++ [unset_event "user.signingkey"; unset_event "commit.gpgsign";
                       unset_event "tag.gpgsign"];
     git_global := delete "tag.gpgsign" (delete "commit.gpgsign"
                     (delete "user.signingkey" (git_global st)));
     store := Some {| config_file := Some (Doc (JObj unconfigured));
                      other_entries := match store st with
                                       | Some d => other_entries d
                                       | None => false
                                       end |} |}.

(** The state [delete_gpg_key] ends in when it returns, from the state
    in which the key has just been deleted. *)
Definition forgotten (st : State) : State :=
  cleared
    {| log := log st ++ [unset_event "user.signingkey"; unset_event "user.email";
                         unset_event "user.name"];
       git_global := delete "user.name" (delete "user.email"
                       (delete "user.signingkey" (git_global st)));
       store := store st |}.

(** A flag of the status snapshot that is [False] or not there. *)
Definition flag_off (status : gmap string json) (flag : string) : Prop :=
  status !! flag = None ∨ status !! flag = Some (JBool false).

(** The dictionaries [verify_github_key] returns. *)
Definition verification_dict (d : gmap string json) : Prop :=
  ∃ public_key fingerprint,
    d = <["public_key" := JStr public_key]>
        (<["fingerprint" := JStr fingerprint]>
        (<["github_configured" := JBool false]> ∅)).


Definition listing_command (key_id : string) : list string :=
  ["gpg"; "--list-keys"; "--with-colons"; key_id].

(** *** Frames *)

(** A computation that, from every state and whatever its outcome, leaves
    the final state related to the initial one. *)
Definition keeps {A} (R : State -> State -> Prop) (m : M A) : Prop :=
  ∀ st, R st (m st).2.

(** Neither the configuration store nor git's configuration differ. *)
Definition untouched (st st' : State) : Prop :=
  store st' = store st ∧ git_global st' = git_global st.

(** Only events satisfying [P] are added to the log. *)
Definition adds_only (P : Event -> Prop) (st st' : State) : Prop :=
  ∃ evs, log st' = (log st ++ evs)%list ∧ Forall P evs.



(** ** Concrete worlds

    One key pair, Jane's, as [gpg] lists it; the environments below differ
    in what fails and in what the user and GitHub answer. *)
Definition jane_key : string := "ABCDEF0123456789".

Definition jane_fingerprint : string := "0123456789ABCDEF0123456789ABCDEF01234567".

Definition jane_colon_listing : string :=
  "sec:u:4096:1:ABCDEF0123456789:1750204800:::u:::scESC:::+:::23::0:" +:+ newline +:+
  "fpr:::::::::0123456789ABCDEF0123456789ABCDEF01234567:" +:+ newline +:+
  "uid:u::::1750204800::5A1B::Jane Doe <jane@example.com>::::::::::0:" +:+ newline +:+
  "ssb:u:4096:1:1111111111111111:1750204800::::::e:::+:::23:" +:+ newline.

Definition jane_long_listing : string :=
  "sec   rsa4096/ABCDEF0123456789 2025-06-18 [SC]" +:+ newline +:+
  "      0123456789ABCDEF0123456789ABCDEF01234567" +:+ newline +:+
  "uid                 [ultimate] Jane Doe <jane@example.com>" +:+ newline +:+
  "ssb   rsa4096/1111111111111111 2025-06-18 [E]" +:+ newline.

Definition jane_fingerprint_listing : string :=
  "pub   rsa4096 2025-06-18 [SC]" +:+ newline +:+
  "      Key fingerprint = 0123456789ABCDEF0123456789ABCDEF01234567" +:+ newline +:+
  "uid           [ultimate] Jane Doe <jane@example.com>" +:+ newline.

Definition jane_armored : string :=
  "-----BEGIN PGP PUBLIC KEY BLOCK-----" +:+ newline +:+ "mQINBGhS" +:+ newline +:+
  "-----END PGP PUBLIC KEY BLOCK-----" +:+ newline.

Definition has_arg (arg : string) (args : list string) : bool :=
  existsb (String.eqb arg) args.

(** A working [gpg] holding Jane's key. *)
Definition jane_gpg (hist : list Event) (args : list string) : ProcResult :=
  if has_arg "--version" args then Exited 0 "gpg (GnuPG) 2.4.4" ""
  else if has_arg "--list-secret-keys" args then
    Exited 0 (if has_arg "--with-colons" args then jane_colon_listing
              else jane_long_listing) ""
  else if has_arg "--list-keys" args then Exited 0 jane_colon_listing ""
  else if has_arg "--export" args then Exited 0 jane_armored ""
  else if has_arg "--with-colons" args then Exited 0 jane_colon_listing ""
  else if has_arg "--fingerprint" args then Exited 0 jane_fingerprint_listing ""
  else if has_arg "--delete-secret-and-public-key" args then Exited 0 "" ""
  else Exited 2 "" "gpg: invalid option".

Definition offline (hist : list Event) (req : HttpRequest) : HttpResult :=
  RequestFailed "Connection refused".

Definition jane_env : Env := {|
  gpg_tool := jane_gpg;
  git_spawn := fun _ => None;
  stdin_line := fun _ => Some "1";
  alarm_fires := fun _ => false;
  http := offline;
  now_iso := fun _ => "2025-06-18T12:00:00.000000"
|}.

(** Nothing configured yet, nothing stored. *)
Definition fresh_state : State := {| log := []; git_global := ∅; store := None |}.

(** Git signs with Jane's key and the store remembers it. *)
Definition jane_config : gmap string json :=
  <["gpg_key_id" := JStr jane_key]>
  (<["git_configured" := JBool true]>
  (<["github_key_added" := JBool true]>
  (<["last_config_update" := JStr "2025-06-18T12:00:00.000000"]> ∅))).

Definition configured_state : State := {|
  log := [];
  git_global := <["user.signingkey" := jane_key]>
                (<["commit.gpgsign" := "true"]>
                (<["user.name" := "Jane Doe"]> ∅));
  store := Some {| config_file := Some (Doc (JObj jane_config)); other_entries := false |}
|}.

(** [gpg] is not installed. *)
Definition no_gpg_env : Env := {|
  gpg_tool := fun _ _ => LaunchError "[Errno 2] No such file or directory: 'gpg'";
  git_spawn := fun _ => None;
  stdin_line := fun _ => None;
  alarm_fires := fun _ => false;
  http := offline;
  now_iso := fun _ => "2025-06-18T12:00:00.000000"
|}.

(** [gpg] runs and has no key. *)
Definition no_keys_env : Env := {|
  gpg_tool := fun _ args =>
    if has_arg "--version" args then Exited 0 "gpg (GnuPG) 2.4.4" "" else Exited 0 "" "";
  git_spawn := fun _ => None;
  stdin_line := fun _ => None;
  alarm_fires := fun _ => false;
  http := offline;
  now_iso := fun _ => "2025-06-18T12:00:00.000000"
|}.

(** [gpg] lists Jane's key, but the export cannot be started. *)
Definition broken_export_env : Env := {|
  gpg_tool := fun hist args =>
    if has_arg "--export" args then LaunchError "[Errno 11] Resource temporarily unavailable"
    else jane_gpg hist args;
  git_spawn := fun _ => None;
  stdin_line := fun _ => None;
  alarm_fires := fun _ => false;
  http := offline;
  now_iso := fun _ => "2025-06-18T12:00:00.000000"
|}.

(** GitHub as it answers a token with both scopes: no key registered until
    one is posted, [201] on the post, the key listed afterwards. *)
Definition posted (hist : list Event) : bool :=
  existsb (fun ev => match ev with
                     | EvHttp req => match req_method req with POST => true | GET => false end
                     | _ => false
                     end) hist.

Definition github_key : json :=
  JObj (<["key_id" := JStr jane_key]>
       (<["fingerprint" := JStr "0123456789abcdef0123456789abcdef01234567"]> ∅)).

Definition accepting_github (hist : list Event) (req : HttpRequest) : HttpResult :=
  match req_method req with
  | POST => Responded {| status_code := 201; text := "{}"; json_body := Some github_key |}
  | GET =>
      if posted hist
      then Responded {| status_code := 200; text := "[{}]";
                        json_body := Some (JArr [github_key]) |}
      else Responded {| status_code := 200; text := "[]"; json_body := Some (JArr []) |}
  end.

(** The user pastes a token, then confirms with [y]. *)
Definition token_then_yes (hist : list Event) : option string :=
  if existsb (fun ev => match ev with EvInput => true | _ => false end) hist
  then Some "y" else Some "ghp_0123456789".

Definition upload_env : Env := {|
  gpg_tool := jane_gpg;
  git_spawn := fun _ => None;
  stdin_line := token_then_yes;
  alarm_fires := fun _ => false;
  http := accepting_github;
  now_iso := fun _ => "2025-06-18T12:00:00.000000"
|}.

(** The user pastes a token and then leaves the prompt unanswered. *)
Definition timeout_env : Env := {|
  gpg_tool := jane_gpg;
  git_spawn := fun _ => None;
  stdin_line := fun _ => Some "ghp_0123456789";
  alarm_fires := fun _ => true;
  http := accepting_github;
  now_iso := fun _ => "2025-06-18T12:00:00.000000"
|}.

Definition upload_request : HttpRequest := {|
  req_method := POST;
  req_url := gpg_keys_url;
  req_headers := [("Authorization", "token ghp_0123456789");
                  ("Accept", "application/vnd.github+json")];
  req_json := Some (JObj (<["armored_public_key" := JStr (PyStr.strip jane_armored)]> ∅))
|}.

(** *** States reached in these worlds *)

(** Where the command line ends after [--connect-github -k ABCDEF0123456789]
    with a token GitHub accepts. *)
Definition cli_final_state : State :=
  Eval vm_compute in (main_connect_github upload_env (Some jane_key) fresh_state).2.

(** Where [connect_github] stands when it asks for confirmation. *)
Definition timeout_prepared : Prepared :=
  Eval vm_compute in
    match (connect_github_prepare timeout_env configured_state).1 with
    | Ret (Some p) => p
    | _ => {| prep_headers := []; prep_username := ""; prep_public_key := "";
              prep_key_id_hex := "" |}
    end.

Definition timeout_prompt_state : State :=
  Eval vm_compute in (connect_github_prepare timeout_env configured_state).2.

(** Where [check_gpg_status] stands when it turns to GitHub. *)
Definition status_before_github (env : Env) : gmap string json :=
  match (status_until_github env configured_state).1 with
  | Ret (inr (_, status)) => status
  | _ => ∅
  end.

Definition jane_status : gmap string json :=
  Eval vm_compute in status_before_github jane_env.

Definition broken_status : gmap string json :=
  Eval vm_compute in status_before_github broken_export_env.

Definition state_before_github : State :=
  Eval vm_compute in (status_until_github jane_env configured_state).2.

Definition jane_verification : gmap string json :=
  <["public_key" := JStr jane_armored]>
  (<["fingerprint" := JStr jane_fingerprint]>
  (<["github_configured" := JBool false]> ∅)).

Definition state_after_verification : State :=
  Eval vm_compute in (verify_github_key jane_env jane_key state_before_github).2.

Definition state_after_broken_export : State :=
  Eval vm_compute in (github_probe broken_export_env jane_key broken_status
                        state_before_github).2.


(** What [check_gpg_status] returns when the export cannot be started. *)
Definition broken_snapshot : gmap string json :=
  Eval vm_compute in
    match (check_gpg_status broken_export_env configured_state).1 with
    | Ret snapshot => snapshot
    | Raise _ => ∅
    end.

Definition broken_final_state : State :=
  Eval vm_compute in (check_gpg_status broken_export_env configured_state).2.


(** * The rest of [GPGKeyManager] and of the command line *)

Section Creation.

Variable env : Env.

(** ** [create_gpg_key]

    The batch file is a temporary file outside the world; [temp_name] is the
    name [tempfile] gave it, which [gpg] receives as its last argument. *)

Definition generate_command (temp_name : string) : list string :=
  ["gpg"; "--batch"; "--pinentry-mode"; "loopback"; "--gen-key"; temp_name].

Definition secret_listing_command : list string :=
  ["gpg"; "--list-secret-keys"; "--with-colons"].

(** The statements of the [try] block up to the assignment of [result]. *)
Definition generate_and_list (temp_name : string) : M CompletedProcess :=
  subprocess_run env (generate_command temp_name) true;;
  subprocess_run env secret_listing_command true.

(** "Parse the output to find the newest key": column 5 of the first
    [sec:] line that has one; the loop goes on after a shorter line. *)
Fixpoint newest_key_id (lines : list string) : option string :=
  match lines with
  | [] => None
  | line :: rest =>
      if PyStr.startswith "sec:" line then
        match PyStr.split ":" line !! 4%nat with
        | Some key_id => Some key_id
        | None => newest_key_id rest
        end
      else newest_key_id rest
  end.

(** "Configure git with the new key" and "Update configuration" *)
Definition adopt_key (key_id email : string) : M (option string) :=
  let* configured := configure_git env key_id in
  if configured then
    let* config := load_config in
    let* config := lift (py_setitem config "gpg_key_id" (JStr key_id)) in
    let* config := lift (py_setitem config "git_configured" (JBool true)) in
    let* config := lift (py_setitem config "git_email" (JStr email)) in
    let* updated := isoformat_now env in
    let* config := lift (py_setitem config "last_config_update" (JStr updated)) in
    let* created := isoformat_now env in
    let* config := lift (py_setitem config "key_creation_time" (JStr created)) in
    save_config config;;
    mret (Some key_id)
  else mret None.

(** The [try] block from the assignment of [result] on. *)
Definition create_from_listing (result : CompletedProcess) (email : string)
  : M (option string) :=
  let lines := PyStr.splitlines (stdout result) in
  let key_id := newest_key_id lines in
  if negb (truthy_opt key_id) then mret None
  else adopt_key (default "" key_id) email.

(** *** The handler [except Exception] of [create_gpg_key]

    It lists the keys of [result], marks the one git signs with, prints
    them, may ask for one to configure, and returns the list. *)

Definition truthy_record (d : option (gmap string json)) : bool :=
  match d with
  | Some m => negb (bool_decide (m = ∅))
  | None => false
  end.

Definition append_record (current_key : option (gmap string json))
    (keys : list (gmap string json)) : list (gmap string json) :=
  match current_key with
  | Some m => if truthy_record current_key then (keys ++ [m])%list else keys
  | None => keys
  end.

(** One iteration of the parsing loop on [(current_key, keys)]. *)
Definition handler_step
    (acc : option (gmap string json) * list (gmap string json)) (line : string)
  : outcome (option (gmap string json) * list (gmap string json)) :=
  let '(current_key, keys) := acc in
  if PyStr.startswith "sec:" line then
    let keys := append_record current_key keys in
    let parts := PyStr.split ":" line in
    let+ type := index parts 1 in
    let+ key_id := index parts 4 in
    let+ created := index parts 5 in
    let+ expires := index parts 6 in
    Ret (Some (<["configured" := JBool false]>
               (<["uid" := JStr ""]>
               (<["expires" := JStr expires]>
               (<["created" := JStr created]>
               (<["key_id" := JStr key_id]>
               (<["type" := JStr type]> ∅)))))), keys)
  else if PyStr.startswith "uid:" line && truthy_record current_key then
    let+ uid := index (PyStr.split ":" line) 9 in
    Ret ((<["uid" := JStr uid]>) <$> current_key, keys)
  else if PyStr.startswith "ssb:" line && truthy_record current_key then
    let subkey_parts := PyStr.split ":" line in
    let+ subkey_type := index subkey_parts 1 in
    let+ subkey_id := index subkey_parts 4 in
    let+ subkey_size := index subkey_parts 2 in
    let record :=
      (fun m => <["subkey_size" := JStr subkey_size]>
                (<["subkey_id" := JStr subkey_id]>
                (<["subkey_type" := JStr subkey_type]> m))) <$> current_key in
    if bool_decide (3 < length subkey_parts) then
      let+ subkey_created := index subkey_parts 3 in
      Ret ((<["subkey_created" := JStr subkey_created]>) <$> record, keys)
    else Ret (record, keys)
  else Ret acc.

Fixpoint handler_loop
    (acc : option (gmap string json) * list (gmap string json)) (lines : list string)
  : outcome (option (gmap string json) * list (gmap string json)) :=
  match lines with
  | [] => Ret acc
  | line :: rest =>
      let+ acc' := handler_step acc line in
      handler_loop acc' rest
  end.

(** The loop of "Check git configuration for each key" on the keys still to
    come, [seen] being those already passed: the key git signs with is
    marked and given git's e-mail address.  When that query exits with an
    error the exception ends the loop, and what was assigned stays. *)
Fixpoint mark_signing_key (git_key : string) (seen todo : list (gmap string json))
  : M (list (gmap string json)) :=
  match todo with
  | [] => mret seen
  | key :: rest =>
      let* key_id := lift (getitem key "key_id") in
      if match key_id with JStr s => String.eqb s git_key | _ => false end then
        let marked := <["configured" := JBool true]> key in
        let* answer :=
          try_except
            (let* result := git_get env "user.email" in
             mret (Some (PyStr.strip (stdout result))))
            (fun e => if is_CalledProcessError e then Some (mret None) else None) in
        match answer with
        | Some git_email =>
            mark_signing_key git_key
              (seen ++ [<["git_email" := JStr git_email]> marked])%list rest
        | None => mret (seen ++ marked :: rest)%list
        end
      else mark_signing_key git_key (seen ++ [key])%list rest
  end.

(** "Check git configuration for each key" *)
Definition mark_configured (keys : list (gmap string json))
  : M (list (gmap string json)) :=
  let* answer :=
    try_except
      (let* result := git_get env "user.signingkey" in
       mret (Some (PyStr.strip (stdout result))))
      (fun e => if is_CalledProcessError e then Some (mret None) else None) in
  match answer with
  | Some git_key => mark_signing_key git_key [] keys
  | None => mret keys
  end.

Fixpoint read_values (key : gmap string json) (fields : list string) : outcome unit :=
  match fields with
  | [] => Ret tt
  | field :: rest => let+ _ := getitem key field in read_values key rest
  end.

(** The subscripts evaluated while one key is printed. *)
Definition print_key (key : gmap string json) : outcome unit :=
  let+ configured := getitem key "configured" in
  let+ _ := read_values key
              ["uid"; "key_id"; "type"; "subkey_size"; "created"; "expires"; "configured"] in
  if truthy configured then read_values key ["git_email"] else Ret tt.

Fixpoint print_keys (keys : list (gmap string json)) : outcome unit :=
  match keys with
  | [] => Ret tt
  | key :: rest => let+ _ := print_key key in print_keys rest
  end.

(** [any(key['configured'] for key in keys)] *)
Fixpoint any_configured (keys : list (gmap string json)) : outcome bool :=
  match keys with
  | [] => Ret false
  | key :: rest =>
      let+ configured := getitem key "configured" in
      if truthy configured then Ret true else any_configured rest
  end.

(** [s.isdigit()] on the ASCII range *)
Definition is_digit_string (s : string) : bool :=
  PyStr.nonempty s &&
  forallb (fun c => bool_decide (is_Some (digit_value c))) (list_ascii_of_string s).

(** "If no keys are configured, prompt user" *)
Definition offer_configuration (keys : list (gmap string json)) : M unit :=
  let* any := lift (any_configured keys) in
  if negb any && match keys with [] => false | _ => true end then
    let* line := input env in
    let choice := PyStr.strip line in
    if is_digit_string choice then
      let* number := lift (py_int choice) in
      if ((1 <=? number)%Z && (number <=? Z.of_nat (length keys))%Z) then
        let* selected_key := lift (index keys (Z.to_nat (number - 1))) in
        let* key_id := lift (getitem selected_key "key_id") in
        match key_id with
        | JStr key_id => configure_git env key_id;; mret tt
        | _ => raise (TypeError "expected str, bytes or os.PathLike object")
        end
      else mret tt
    else mret tt
  else mret tt.

Definition list_after_failure (result : CompletedProcess)
  : M (list (gmap string json)) :=
  let* parsed := lift (handler_loop (None, []) (PyStr.splitlines (stdout result))) in
  let keys := append_record parsed.1 parsed.2 in
  let* keys := mark_configured keys in
  lift (print_keys keys);;
  offer_configuration keys;;
  mret keys.

(** What a call of [create_gpg_key] ends with.  The handler reads the
    local [result]; when the exception came before [result] was assigned,
    the handler itself fails with [UnboundLocalError]. *)
Inductive Created :=
  | KeyId (key_id : option string)
  | KeyList (keys : list (gmap string json)).

Inductive CreateExit :=
  | Returned (value : Created)
  | Raised (e : exn)
  | RaisedUnbound.

(** [create_gpg_key].  Of the four [except] clauses the last two repeat the
    classes of the first two and are never chosen. *)
Definition create_gpg_key (temp_name name email comment expire : string)
  : State -> CreateExit * State := fun st =>
  match generate_and_list temp_name st with
  | (Raise e, st1) =>
      if is_CalledProcessError e then (Returned (KeyId None), st1)
      else (RaisedUnbound, st1)
  | (Ret result, st1) =>
      match create_from_listing result email st1 with
      | (Ret key_id, st2) => (Returned (KeyId key_id), st2)
      | (Raise e, st2) =>
          if is_CalledProcessError e then (Returned (KeyId None), st2)
          else
            match list_after_failure result st2 with
            | (Ret keys, st3) => (Returned (KeyList keys), st3)
            | (Raise e', st3) => (Raised e', st3)
            end
      end
  end.

End Creation.

(** ** The command line: [main]

    The parsed arguments; an option without value is [None], a flag not
    given is [false].  Exit codes are results, as in [main_connect_github]. *)
Record Args := {
  arg_verbose_help : bool;
  arg_create_key : bool;
  arg_name : option string;
  arg_email : option string;
  arg_comment : option string;
  arg_expire : option string;
  arg_list_keys : bool;
  arg_delete_key : bool;
  arg_git_config : bool;
  arg_status_check : bool;
  arg_connect_github : bool;
  arg_clear_config : bool;
  arg_key_id : option string
}.

Section CommandLine.

Variable env : Env.

(** [value or input(prompt)] *)
Definition or_input (value : option string) : M string :=
  if truthy_opt value then mret (default "" value) else input env.

(** [args.key_id], or the id typed after the listing; [inl 1] for
    [sys.exit(1)] on an empty answer. *)
Definition choose_key_id (key_id_arg : option string) : M (Z + string) :=
  if negb (truthy_opt key_id_arg) then
    list_gpg_keys env;;
    let* line := input env in
    let key_id := PyStr.strip line in
    if negb (PyStr.nonempty key_id) then mret (inl 1%Z) else mret (inr key_id)
  else mret (inr (default "" key_id_arg)).

(** The branch [args.create_key].  Whatever [create_gpg_key] returns is
    only printed; an exception of any kind reaches the handler of [main]. *)
Definition main_create_key (temp_name : string) (args : Args) : M Z :=
  let* name := or_input (arg_name args) in
  let* email := or_input (arg_email args) in
  let* comment := or_input (arg_comment args) in
  let* expire := or_input (arg_expire args) in
  fun st =>
    match create_gpg_key env temp_name name email comment expire st with
    | (Returned _, st') => (Ret 0%Z, st')
    | (Raised e, st') => (Raise e, st')
    | (RaisedUnbound, st') =>
        (Raise (RuntimeError "cannot access local variable 'result'"), st')
    end.

(** The branch [args.git_config] *)
Definition main_git_config (args : Args) : M Z :=
  let* chosen := choose_key_id (arg_key_id args) in
  match chosen with
  | inl code => mret code
  | inr key_id =>
      let* configured := configure_git env key_id in
      if configured then
        let* status := check_gpg_status env in
        (if truthy (JObj status) then
           let* key_details := lift (py_get (JObj status) "key_details" (JObj ∅)) in
           let* _ := lift (py_get key_details "public_key" (JStr "")) in
           mret tt
         else mret tt : M unit);;
        mret 0%Z
      else mret 0%Z
  end.

(** The branch [args.status_check] *)
Definition main_status_check : M Z :=
  let* status := check_gpg_status env in
  let* key_details := lift (py_get (JObj status) "key_details" (JObj ∅)) in
  let* _ := lift (match key_details with
                  | JObj _ => Ret tt
                  | _ => Raise (AttributeError "object has no attribute 'items'")
                  end) in
  mret 0%Z.

(** [main] *)
Definition main (temp_name : string) (args : Args) : M Z :=
  if arg_verbose_help args then mret 0%Z
  else
    try_except
      (let* installed := check_gpg_installed env in
       if negb installed then mret 1%Z
       else if arg_create_key args then main_create_key temp_name args
       else if arg_list_keys args then list_gpg_keys env;; mret 0%Z
       else if arg_delete_key args then
         if negb (truthy_opt (arg_key_id args)) then mret 1%Z
         else delete_gpg_key env (default "" (arg_key_id args));; mret 0%Z
       else if arg_git_config args then main_git_config args
       else if arg_status_check args then main_status_check
       else if arg_connect_github args then
         let* chosen := choose_key_id (arg_key_id args) in
         match chosen with
         | inl code => mret code
         | inr key_id => connect_to_github env key_id;; mret 0%Z
         end
       else if arg_clear_config args then clear_config env;; mret 0%Z
       else mret 1%Z)
      (fun e => Some (mret 1%Z)).

End CommandLine.

(** No flag and no option given. *)
Definition no_args : Args := {|
  arg_verbose_help := false; arg_create_key := false; arg_name := None;
  arg_email := None; arg_comment := None; arg_expire := None;
  arg_list_keys := false; arg_delete_key := false; arg_git_config := false;
  arg_status_check := false; arg_connect_github := false; arg_clear_config := false;
  arg_key_id := None
|}.

(** ** Vocabulary of the further statements *)

Definition set_event (key value : string) : Event :=
  EvRun ["git"; "config"; "--global"; key; value].

(** The state [configure_git key_id] ends in when both commands ran. *)
Definition signing_with (key_id : string) (st : State) : State :=
  {| log := log st ++ [set_event "user.signingkey" key_id;
                       set_event "commit.gpgsign" "true"];
     git_global := <["commit.gpgsign" := "true"]>
                   (<["user.signingkey" := key_id]> (git_global st));
     store := store st |}.



(** Jane's configured state after [configure_git] with her key again, and
    after [clear_config] from there. *)
Definition jane_resigned_state : State :=
  Eval vm_compute in (configure_git jane_env jane_key configured_state).2.

Definition jane_cleared_state : State :=
  Eval vm_compute in (clear_config jane_env jane_resigned_state).2.

(** The key id a [sec] line of the long listing carries, as the loops of
    [get_gpg_key_id] and [get_gpg_key_details] read it: the second column
    without brackets, after the last slash. *)
Definition sec_line_id (line : string) : option string :=
  if PyStr.startswith "sec" line then
    match PyStr.split_ws line with
    | _ :: second :: _ =>
        Some (last_piece (PyStr.split "/" (PyStr.strip_chars "[]" second)))
    | _ => None
    end
  else None.

(** The ids of the secret keys in the output of
    [gpg --list-secret-keys --keyid-format=long]. *)
Definition listed_secret_ids (out : string) : list string :=
  omap sec_line_id (PyStr.split newline out).

Definition long_listing_command : list string :=
  ["gpg"; "--list-secret-keys"; "--keyid-format=long"].


(** What [get_gpg_key_details] reads about Jane's key. *)
Definition jane_details_found : gmap string json :=
  Eval vm_compute in
    match key_details_loop jane_key (∅, false) (PyStr.split newline jane_long_listing) with
    | Ret (details, _) => details
    | Raise _ => ∅
    end.

(** Nothing is written: git's configuration is the same, and so is the
    configuration directory, unless it did not exist and has been created
    empty. *)
Definition reads_only (st st' : State) : Prop :=
  git_global st' = git_global st ∧
  (store st' = store st ∨ (store st = None ∧ store st' = Some empty_dir)).

Definition is_git_run (ev : Event) : bool :=
  match ev with
  | EvRun (prog :: _) => String.eqb prog "git"
  | _ => false
  end.

Definition is_http (ev : Event) : bool :=
  match ev with
  | EvHttp _ => true
  | _ => false
  end.

Definition not_http (ev : Event) : Prop := is_http ev = false.

(** Nothing has been written and nothing sent to GitHub. *)
Definition quiet (st st' : State) : Prop :=
  untouched st st' ∧ adds_only not_http st st'.

(** The record [connect_github] saves over [record] once the key is on
    GitHub. *)
Definition github_recorded (now : string) (record : gmap string json) : gmap string json :=
  <["last_config_update" := JStr now]>
  (<["github_configured" := JBool true]>
  (<["github_key_added" := JBool true]> record)).


(** [requests.get] of the list of the token owner's keys. *)
Definition listing_request (headers : list (string * string)) : HttpRequest :=
  {| req_method := GET; req_url := gpg_keys_url; req_headers := headers; req_json := None |}.


Definition is_post (ev : Event) : bool :=
  match ev with
  | EvHttp req => match req_method req with POST => true | GET => false end
  | _ => false
  end.

Definition not_post (ev : Event) : Prop := is_post ev = false.

(** GitHub turns the token down: the request for the list of keys fails,
    or is answered with 401 or 403. *)
Definition token_rejected (answer : HttpResult) : Prop :=
  match answer with
  | Responded r => status_code r = 401%Z ∨ status_code r = 403%Z
  | RequestFailed _ => True
  end.

(** The record [create_gpg_key] saves over [record] for a new key. *)
Definition created_record (key_id email updated created : string)
    (record : gmap string json) : gmap string json :=
  <["key_creation_time" := JStr created]>
  (<["last_config_update" := JStr updated]>
  (<["git_email" := JStr email]>
  (<["git_configured" := JBool true]>
  (<["gpg_key_id" := JStr key_id]> record)))).

(** A [gpg] that generates keys, and holds Jane's afterwards. *)
Definition creating_env : Env := {|
  gpg_tool := fun hist args =>
    if has_arg "--gen-key" args then Exited 0 "" "gpg: key ABCDEF0123456789 marked as ultimately trusted"
    else jane_gpg hist args;
  git_spawn := fun _ => None;
  stdin_line := fun _ => None;
  alarm_fires := fun _ => false;
  http := offline;
  now_iso := fun _ => "2025-06-18T12:00:00.000000"
|}.

Definition batch_file : string := "/tmp/tmpk3v9x2ab".

(** Where the creation of Jane's key ends. *)
Definition jane_created_state : State :=
  Eval vm_compute in
    (create_gpg_key creating_env batch_file "Jane Doe" "jane@example.com" "" "1y"
       fresh_state).2.

(** What the status snapshot holds under [key_details], or would default
    to, is a dictionary. *)
Definition details_dict (status : gmap string json) : Prop :=
  ∃ details, default (JObj ∅) (status !! "key_details") = JObj details.

(** The command lines used below. *)
Definition delete_args (key_id : option string) : Args := {|
  arg_verbose_help := false; arg_create_key := false; arg_name := None;
  arg_email := None; arg_comment := None; arg_expire := None;
  arg_list_keys := false; arg_delete_key := true; arg_git_config := false;
  arg_status_check := false; arg_connect_github := false; arg_clear_config := false;
  arg_key_id := key_id
|}.

Definition git_config_args (key_id : option string) : Args := {|
  arg_verbose_help := false; arg_create_key := false; arg_name := None;
  arg_email := None; arg_comment := None; arg_expire := None;
  arg_list_keys := false; arg_delete_key := false; arg_git_config := true;
  arg_status_check := false; arg_connect_github := false; arg_clear_config := false;
  arg_key_id := key_id
|}.

Definition status_check_args : Args := {|
  arg_verbose_help := false; arg_create_key := false; arg_name := None;
  arg_email := None; arg_comment := None; arg_expire := None;
  arg_list_keys := false; arg_delete_key := false; arg_git_config := false;
  arg_status_check := true; arg_connect_github := false; arg_clear_config := false;
  arg_key_id := None
|}.

Definition create_args (name email comment expire : option string) : Args := {|
  arg_verbose_help := false; arg_create_key := true; arg_name := name;
  arg_email := email; arg_comment := comment; arg_expire := expire;
  arg_list_keys := false; arg_delete_key := false; arg_git_config := false;
  arg_status_check := false; arg_connect_github := false; arg_clear_config := false;
  arg_key_id := None
|}.

(** The configuration directory is the same, or was missing and has been
    created empty. *)
Definition store_read (st st' : State) : Prop :=
  store st' = store st ∨ (store st = None ∧ store st' = Some empty_dir).

Definition same_store (st st' : State) : Prop := store st' = store st.

(** gpg generates keys, but git cannot be started. *)
Definition no_git_creating_env : Env := {|
  gpg_tool := gpg_tool creating_env;
  git_spawn := fun _ => Some "[Errno 2] No such file or directory: 'git'";
  stdin_line := fun _ => None;
  alarm_fires := fun _ => false;
  http := offline;
  now_iso := fun _ => "2025-06-18T12:00:00.000000"
|}.

Definition no_git_created_state : State :=
  Eval vm_compute in
    (create_gpg_key no_git_creating_env batch_file "Jane Doe" "jane@example.com" "" "1y"
       configured_state).2.

(** What the code makes of [git config --get key]: the value without
    surrounding white space, empty when the key is not set. *)
Definition git_value (st : State) (key : string) : string :=
  PyStr.strip (default "" (git_global st !! key)).

Definition get_event (key : string) : Event :=
  EvRun ["git"; "config"; "--get"; key].

(** * The script logger

    [ScriptLogger] of [src/utils/logger.py], as far as it manages its files.
    Contents are byte strings.  [Path.with_suffix] gives the backups of one
    log file the names [<stem>.<i>.log], different for different [i] and
    from the name of the log file, so the files are kept by role: the log
    file, and the backups by their number.  [rename] replaces its target,
    as on POSIX. *)
Module Logger.

Record Files := {
  current : option string;
  backups : gmap Z string
}.

Inductive Stream := StderrStream | FileStream.

(** [self._log_handle], when it is not [None] *)
Record Handle := {
  stream : Stream;
  closed : bool
}.

Record ScriptLogger := {
  log_file : bool;
  max_log_size : Z;
  max_backups : Z;
  _log_handle : option Handle;
  files : Files
}.

(** [st_size] *)
Definition size (content : string) : Z := Z.of_nat (String.length content).

(** One pass of "Rotate existing backups": backup [i], if it exists, is
    renamed to backup [i + 1]. *)
Definition rotate_backup (i : Z) (b : gmap Z string) : gmap Z string :=
  match b !! i with
  | Some content => <[(i + 1)%Z := content]> (delete i b)
  | None => b
  end.

(** [for i in range(n, 0, -1)] *)
Fixpoint rotate_backups (n : nat) (b : gmap Z string) : gmap Z string :=
  match n with
  | O => b
  | S k => rotate_backups k (rotate_backup (Z.of_nat (S k)) b)
  end.

(** [_rotate_logs] *)
Definition _rotate_logs (self : ScriptLogger) : ScriptLogger :=
  match (if log_file self then current (files self) else None) with
  | None => self
  | Some content =>
      let handle :=
        match _log_handle self with
        | Some h => Some {| stream := stream h; closed := true |}
        | None => None
        end in
      let b := delete (max_backups self) (backups (files self)) in
      let b := rotate_backups (Z.to_nat (max_backups self - 1)) b in
      {| log_file := log_file self;
         max_log_size := max_log_size self;
         max_backups := max_backups self;
         _log_handle := handle;
         files := {| current := None; backups := <[1%Z := content]> b |} |}
  end.

(** [_setup_logging].  The parent directory is outside the model;
    [open(..., 'a')] creates the log file when it is not there. *)
Definition _setup_logging (self : ScriptLogger) : ScriptLogger :=
  if negb (log_file self) then
    {| log_file := log_file self;
       max_log_size := max_log_size self;
       max_backups := max_backups self;
       _log_handle := Some {| stream := StderrStream; closed := false |};
       files := files self |}
  else
    let self :=
      match current (files self) with
      | Some content =>
          if (max_log_size self <? size content)%Z then _rotate_logs self else self
      | None => self
      end in
    {| log_file := log_file self;
       max_log_size := max_log_size self;
       max_backups := max_backups self;
       _log_handle := Some {| stream := FileStream; closed := false |};
       files := {| current := Some (default "" (current (files self)));
                   backups := backups (files self) |} |}.

End Logger.

(** A logger that finds a log of five bytes, over its limit of four, and
    backups 1 to 3 and 7. *)
Definition sample_logger : Logger.ScriptLogger := {|
  Logger.log_file := true;
  Logger.max_log_size := 4;
  Logger.max_backups := 3;
  Logger._log_handle := None;
  Logger.files := {|
    Logger.current := Some "entry";
    Logger.backups := <[1%Z := "a"]> (<[2%Z := "b"]> (<[3%Z := "c"]> (<[7%Z := "kept"]> ∅)))
  |}
|}.

(** * Properties *)

(** ** String methods on the formats parsed *)

Example split_colons : PyStr.split ":" "fpr:::::::::ABCD:" =
  ["fpr"; ""; ""; ""; ""; ""; ""; ""; ""; "ABCD"; ""].
Proof. reflexivity. Qed.

Example split_multichar : PyStr.split "uid" "uid  [ultimate] Jane <j@x.org>uid" =
  [""; "  [ultimate] Jane <j@x.org>"; ""].
Proof. reflexivity. Qed.

Example split_ws_sec : PyStr.split_ws "sec   rsa4096/ABCDEF0123456789 2025-06-18 [SC]" =
  ["sec"; "rsa4096/ABCDEF0123456789"; "2025-06-18"; "[SC]"].
Proof. reflexivity. Qed.

Example splitlines_crlf : PyStr.splitlines ("a" +:+ String "013" (String "010" "b") +:+ String "010" "") =
  ["a"; "b"].
Proof. reflexivity. Qed.

Example strip_brackets : PyStr.strip_chars "[]" "[[SC]]" = "SC".
Proof. reflexivity. Qed.

Example replace_slash : PyStr.replace "/" "" "rsa/AB/CD" = "rsaABCD".
Proof. reflexivity. Qed.

Example int_of_choice :
  py_int " 12 " = Ret 12%Z ∧ py_int "1_0" = Ret 10%Z ∧ py_int "-3" = Ret (-3)%Z ∧
  py_int "1__0" = Raise (ValueError "invalid literal for int() with base 10").
Proof. repeat split. Qed.

(** ** The parsers on Jane's listings *)

Example jane_key_id_found :
  first_secret_key_id (PyStr.split newline jane_long_listing) = Some jane_key.
Proof. reflexivity. Qed.

Example jane_fingerprint_resolved :
  first_fpr_field (PyStr.split newline jane_colon_listing) = Ret (Some jane_fingerprint).
Proof. reflexivity. Qed.

Example jane_fingerprint_scanned :
  scan_key_fingerprint (PyStr.split newline jane_fingerprint_listing) = Ret jane_fingerprint.
Proof. reflexivity. Qed.

Example jane_fpr_and_uid :
  scan_fpr_uid ("", "Unknown") (PyStr.splitlines jane_colon_listing)
    = Ret (jane_fingerprint, "Jane Doe <jane@example.com>").
Proof. reflexivity. Qed.

Example jane_details :
  ∃ details st',
    get_gpg_key_details jane_env jane_key fresh_state = (Ret details, st') ∧
    details !! "primary_key" = Some (JStr jane_key) ∧
    details !! "primary_type" = Some (JStr "rsa4096") ∧
    details !! "owner" = Some (JStr "Jane Doe").
Proof. do 2 eexists. repeat split; vm_compute; reflexivity. Qed.

Example jane_listed :
  list_keys_loop (None, []) (PyStr.split newline jane_colon_listing)
    = Ret (Some (<["type" := "secret"]>
                 (<["key_id" := jane_key]>
                 (<["created" := "1750204800"]>
                 (<["expires" := ""]>
                 (<["uid" := "Jane Doe <jane@example.com>"]>
                 (<["status" := "u"]> ∅)))))), []).
Proof. vm_compute. reflexivity. Qed.

(** ** The configuration store *)

Lemma load_config_eq st :
  load_config st = (Ret (stored_record (store st)), ensure_dir st).
Proof.
  unfold load_config, try_except, mbind, M_bind, bind, CONFIG_DIR_mkdir,
    CONFIG_FILE_exists, read_config_file, stored_record, ensure_dir.
  destruct st as [l g [[[[|v]|] o]|]]; reflexivity.
Qed.

Lemma save_config_eq config st :
  save_config config st = (Ret tt, with_config config st).
Proof.
  unfold save_config, try_except, mbind, M_bind, bind, CONFIG_DIR_mkdir,
    write_config_file, with_config.
  destruct st as [l g [d|]]; reflexivity.
Qed.

(** C10.  Loading the configuration, saving the loaded record unchanged
    and loading again gives the record of the first load, from every state
    of the store; the save does not fail.  The first load gives the stored
    document when the file parses, and the empty record, not an error, when
    the file is absent or malformed. *)
Theorem config_round_trip st :
  ∃ record st1 st2 st3,
    load_config st = (Ret record, st1) ∧
    save_config record st1 = (Ret tt, st2) ∧
    load_config st2 = (Ret record, st3) ∧
    match store st ≫= config_file with
    | Some (Doc v) => record = v
    | Some Malformed | None => record = JObj ∅
    end.
Proof.
  exists (stored_record (store st)), (ensure_dir st),
    (with_config (stored_record (store st)) (ensure_dir st)),
    (with_config (stored_record (store st)) (ensure_dir st)).
  rewrite !load_config_eq, save_config_eq.
  repeat split. unfold stored_record.
  destruct (store st ≫= config_file) as [[|v]|]; reflexivity.
Qed.

(** ** git *)

Lemma git_unset_cases env key st :
  (∃ msg, git_unset env key st =
            (Raise (OSError msg),
             record_event (EvRun ["git"; "config"; "--global"; "--unset"; key]) st)) ∨
  (∃ done,
     git_unset env key st =
       (Ret done,
        set_git (delete key (git_global st))
          (record_event (EvRun ["git"; "config"; "--global"; "--unset"; key]) st))).
Proof.
  unfold git_unset, subprocess_run, run_tool. cbn [String.eqb Ascii.eqb Bool.eqb].
  destruct (git_spawn env (log st)) as [msg|]; [left; eauto|right].
  unfold git_exec. cbn.
  destruct (git_global st !! key) eqn:Hk; cbn; eexists.
  - reflexivity.
  - rewrite delete_id by done. by destruct st.
Qed.

(** ** Clearing *)

Lemma clear_config_cases env st :
  (∃ msg st', clear_config env st = (Raise (RuntimeError msg), st')) ∨
  clear_config env st = (Ret tt, cleared st).
Proof.
  unfold clear_config, try_except, mbind, M_bind, bind.
  destruct (git_unset_cases env "user.signingkey" st) as [[m ->]| [d1 ->]]; [left; eauto|].
  match goal with |- context [git_unset env "commit.gpgsign" ?s] =>
    destruct (git_unset_cases env "commit.gpgsign" s) as [[m ->]| [d2 ->]]; [left; eauto|] end.
  match goal with |- context [git_unset env "tag.gpgsign" ?s] =>
    destruct (git_unset_cases env "tag.gpgsign" s) as [[m ->]| [d3 ->]]; [left; eauto|] end.
  right. unfold update_key_config.
  destruct st as [l g [[[c|] [|]]|]]; cbn; rewrite save_config_eq;
    unfold cleared, with_config, set_store, set_git, record_event; cbn;
    rewrite <- !app_assoc; reflexivity.
Qed.

Lemma clear_config_ok env st st' :
  clear_config env st = (Ret tt, st') → st' = cleared st.
Proof.
  destruct (clear_config_cases env st) as [(msg & st1 & ->)| ->]; congruence.
Qed.

Lemma unset_gone (g : gmap string string) :
  delete "tag.gpgsign" (delete "commit.gpgsign" (delete "user.signingkey" g))
    !! "user.signingkey" = None.
Proof. rewrite !lookup_delete_ne by done. apply lookup_delete_eq. Qed.

(** C1, as amended.  After [clear_config] has returned, [load_config]
    yields the record that [clear_config] has written back through
    [update_key_config], which is not empty: [gpg_key_id] is [''],
    [git_configured] and [github_key_added] are [False].  The global
    [user.signingkey] of git is unset, and getting it prints nothing. *)
Theorem clear_leaves_unconfigured_record env st st' :
  clear_config env st = (Ret tt, st') →
  (∃ record,
     load_config st' = (Ret (JObj record), st') ∧
     record !! "gpg_key_id" = Some (JStr "") ∧
     record !! "git_configured" = Some (JBool false) ∧
     record !! "github_key_added" = Some (JBool false)) ∧
  git_global st' !! "user.signingkey" = None ∧
  git_exec ["config"; "--global"; "--get"; "user.signingkey"] st' = (Exited 1 "" "", st').
Proof.
  intros ->%clear_config_ok.
  assert (Hgone : git_global (cleared st) !! "user.signingkey" = None)
    by apply unset_gone.
  split; [|split; [exact Hgone|]].
  - exists unconfigured. rewrite load_config_eq. by repeat split.
  - unfold git_exec. cbn [parse_git String.eqb Ascii.eqb Bool.eqb andb].
    by rewrite Hgone.
Qed.

(** ** Frame rules *)
Section Frame.

Context {R : State -> State -> Prop} `{!PreOrder R}.

Lemma keeps_ret {A} (a : A) : keeps R (mret a).
Proof. intros st. reflexivity. Qed.

Lemma keeps_raise {A} (e : exn) : keeps R (raise e : M A).
Proof. intros st. reflexivity. Qed.

Lemma keeps_lift {A} (o : outcome A) : keeps R (lift o).
Proof. intros st. reflexivity. Qed.

Lemma keeps_bind {A B} (m : M A) (f : A -> M B) :
  keeps R m → (∀ a, keeps R (f a)) → keeps R (bind m f).
Proof.
  intros Hm Hf st. unfold bind. specialize (Hm st).
  destruct (m st) as [[a|e] st1]; cbn in *; [|done].
  etrans; [exact Hm|apply Hf].
Qed.

Lemma keeps_try {A} (body : M A) (handler : exn -> option (M A)) :
  keeps R body → (∀ e h, handler e = Some h → keeps R h) →
  keeps R (try_except body handler).
Proof.
  intros Hb Hh st. unfold try_except. specialize (Hb st).
  destruct (body st) as [[a|e] st1]; cbn in *; [done|].
  destruct (handler e) as [h|] eqn:He; [|done].
  etrans; [exact Hb|by eapply Hh].
Qed.

End Frame.

Global Instance untouched_preorder : PreOrder untouched.
Proof.
  split.
  - by intros st.
  - intros a b c [H1 H2] [H3 H4]. split; congruence.
Qed.

Lemma untouched_record_event ev st : untouched st (record_event ev st).
Proof. by split. Qed.

Lemma keeps_gpg env args check :
  keeps untouched (subprocess_run env ("gpg" :: args) check).
Proof.
  intros st. unfold subprocess_run, run_tool. cbn [String.eqb Ascii.eqb Bool.eqb].
  destruct (gpg_tool env (log st) args) as [rc out err|msg]; cbn;
    [destruct (check && negb (rc =? 0)%Z)|]; apply untouched_record_event.
Qed.

Lemma keeps_git_get env key : keeps untouched (git_get env key).
Proof.
  intros st. unfold git_get, subprocess_run, run_tool.
  cbn [String.eqb Ascii.eqb Bool.eqb].
  destruct (git_spawn env (log st)) as [msg|]; cbn; [apply untouched_record_event|].
  unfold git_exec. cbn [parse_git String.eqb Ascii.eqb Bool.eqb andb].
  destruct (git_global _ !! key); cbn; apply untouched_record_event.
Qed.

Lemma keeps_input env : keeps untouched (input env).
Proof.
  intros st. unfold input. destruct (stdin_line env (log st)); apply untouched_record_event.
Qed.

Lemma keeps_input_with_alarm env : keeps untouched (input_with_alarm env).
Proof.
  intros st. unfold input_with_alarm.
  destruct (alarm_fires env (log st)); [apply untouched_record_event|apply keeps_input].
Qed.

Lemma keeps_requests_send env req : keeps untouched (requests_send env req).
Proof.
  intros st. unfold requests_send.
  destruct (http env (log st) req); apply untouched_record_event.
Qed.

Lemma keeps_sleep n : keeps untouched (sleep n).
Proof. intros st. apply untouched_record_event. Qed.

Create HintDb frame.
#[export] Hint Resolve keeps_gpg keeps_git_get keeps_input keeps_input_with_alarm
  keeps_requests_send keeps_sleep : frame.

(** Walks through a computation built from [bind], [try_except] and case
    distinctions, closing the leaves with the rules in [frame]. *)
Ltac frame_step :=
  match goal with
  | |- keeps _ (bind _ _) => apply keeps_bind; [|intros ?]
  | |- keeps _ (mbind _ _) => apply keeps_bind; [|intros ?]
  | |- keeps _ (try_except _ _) => apply keeps_try; [|intros ? ? ?]
  | |- keeps _ (mret _) => apply keeps_ret
  | |- keeps _ (raise _) => apply keeps_raise
  | |- keeps _ (lift _) => apply keeps_lift
  | |- keeps _ (requests_get _ _ _) => apply keeps_requests_send
  | |- keeps _ (requests_post _ _ _ _) => apply keeps_requests_send
  | |- keeps _ (let 'pair _ _ := ?p in _) => destruct p
  | |- keeps _ (if ?b then _ else _) => destruct b
  | |- keeps _ (match ?x with _ => _ end) => destruct x
  | H : Some _ = Some _ |- _ => injection H as <-
  | H : None = Some _ |- _ => discriminate H
  | H : (if ?b then _ else _) = Some _ |- _ => destruct b
  | H : match ?e with _ => _ end = Some _ |- _ => destruct e
  | |- keeps _ _ => solve [eauto with frame]
  end.

Ltac frame := repeat frame_step.

Lemma keeps_check_gpg_installed env : keeps untouched (check_gpg_installed env).
Proof. unfold check_gpg_installed. frame. Qed.

Lemma keeps_get_gpg_key_id env : keeps untouched (get_gpg_key_id env).
Proof. unfold get_gpg_key_id. frame. Qed.

Lemma keeps_get_gpg_key_details env key_id :
  keeps untouched (get_gpg_key_details env key_id).
Proof. unfold get_gpg_key_details. frame. Qed.

Lemma keeps_verify_github_key env key_id :
  keeps untouched (verify_github_key env key_id).
Proof. unfold verify_github_key. frame. Qed.

#[export] Hint Resolve keeps_check_gpg_installed keeps_get_gpg_key_id
  keeps_get_gpg_key_details keeps_verify_github_key : frame.

Lemma keeps_report_keys env keys : keeps untouched (report_keys env keys).
Proof. induction keys as [|key rest IH]; cbn [report_keys]; frame. Qed.

#[export] Hint Resolve keeps_report_keys : frame.

Lemma keeps_list_gpg_keys env : keeps untouched (list_gpg_keys env).
Proof. unfold list_gpg_keys. frame. Qed.

#[export] Hint Resolve keeps_list_gpg_keys : frame.

Lemma keeps_validate_token env headers : keeps untouched (validate_token env headers).
Proof. unfold validate_token. frame. Qed.

Lemma keeps_upload_and_verify env headers public_key fingerprint :
  keeps untouched (upload_and_verify env headers public_key fingerprint).
Proof. unfold upload_and_verify. frame. Qed.

#[export] Hint Resolve keeps_validate_token keeps_upload_and_verify : frame.

Lemma keeps_connect_to_github env key_id :
  keeps untouched (connect_to_github env key_id).
Proof. unfold connect_to_github. frame. Qed.

#[export] Hint Resolve keeps_connect_to_github : frame.

Lemma keeps_main_connect_github env key_id_arg :
  keeps untouched (main_connect_github env key_id_arg).
Proof. unfold main_connect_github. frame. Qed.

Lemma keeps_find_github_username env : keeps untouched (find_github_username env).
Proof. unfold find_github_username. frame. Qed.

Lemma keeps_export_for_github env key_id : keeps untouched (export_for_github env key_id).
Proof. unfold export_for_github. frame. Qed.

#[export] Hint Resolve keeps_find_github_username keeps_export_for_github : frame.

Lemma keeps_connect_github_prepare env : keeps untouched (connect_github_prepare env).
Proof. unfold connect_github_prepare. frame. Qed.

(** ** Listing keys *)

Lemma list_gpg_keys_returns_none env st keys st' :
  list_gpg_keys env st = (Ret keys, st') → keys = None.
Proof.
  unfold list_gpg_keys, try_except, mbind, M_bind, bind, lift, raise, mret, M_ret.
  destruct (subprocess_run env _ true st) as [[result|e] st1].
  - destruct (list_keys_loop _ _) as [parsed|e].
    + destruct (append_current _ _) as [|key rest].
      * cbn. congruence.
      * destruct (report_keys env (key :: rest) st1) as [[[]|e] st2]; cbn; [congruence|].
        destruct (is_CalledProcessError e); cbn; congruence.
    + destruct (is_CalledProcessError e); cbn; congruence.
  - destruct (is_CalledProcessError e); cbn; congruence.
Qed.

Lemma git_config_eq env st :
  git_config env st = (Ret false, (list_gpg_keys env st).2).
Proof.
  unfold git_config, try_except, bind.
  destruct (list_gpg_keys env st) as [[keys|e] st1] eqn:Hlist; cbn; [|done].
  by apply list_gpg_keys_returns_none in Hlist as ->.
Qed.

Lemma git_config_never_configures env st :
  ∃ st', git_config env st = (Ret false, st') ∧
         store st' = store st ∧ git_global st' = git_global st.
Proof.
  eexists. split; [apply git_config_eq|]. apply keeps_list_gpg_keys.
Qed.

(** ** Status *)

Lemma check_gpg_installed_cases env st :
  let st1 := record_event (EvRun ["gpg"; "--version"]) st in
  check_gpg_installed env st = (Ret true, st1) ∨
  check_gpg_installed env st = (Ret false, st1) ∨
  ∃ msg, check_gpg_installed env st = (Raise (OSError msg), st1).
Proof.
  unfold check_gpg_installed, try_except, mbind, M_bind, bind, subprocess_run, run_tool.
  cbn [String.eqb Ascii.eqb Bool.eqb].
  destruct (gpg_tool env (log st) ["--version"]) as [rc out err|msg]; cbn; [|eauto].
  destruct (rc =? 0)%Z; cbn; auto.
Qed.

Lemma check_gpg_status_returns env st :
  ∃ snapshot st', check_gpg_status env st = (Ret snapshot, st').
Proof.
  unfold check_gpg_status, try_except.
  match goal with |- context [match ?b st with _ => _ end] =>
    destruct (b st) as [[snapshot|e] st'] end; cbn; eauto.
Qed.

(** C5.  If the probe of [check_gpg_status] does not find [gpg] installed
    ([check_gpg_installed] returns [False] or raises), the snapshot returned
    says so and has [key_configured], [git_configured] and
    [github_configured] false or absent, and the run consists of that one
    call of [gpg --version]: no call of git, no request to GitHub. *)
Theorem status_short_circuit env st r st1 :
  check_gpg_installed env st = (r, st1) →
  r ≠ Ret true →
  ∃ status,
    check_gpg_status env st = (Ret status, st1) ∧
    status !! "gpg_installed" = Some (JBool false) ∧
    flag_off status "key_configured" ∧
    flag_off status "git_configured" ∧
    flag_off status "github_configured" ∧
    log st1 = (log st ++ [EvRun ["gpg"; "--version"]])%list.
Proof.
  intros Hprobe Hr.
  unfold check_gpg_status, status_until_github, try_except, bind.
  destruct (check_gpg_installed_cases env st) as [H|[H|[msg H]]];
    rewrite H in Hprobe; simplify_eq; rewrite H; cbn.
  - eexists. split; [reflexivity|]. split; [done|]. repeat split; by left.
  - eexists. split; [reflexivity|]. split; [done|]. repeat split; by right.
Qed.


(** ** The confirmation prompt *)

Lemma confirm_declined env p st :
  alarm_fires env (log st) = true ∨
  (alarm_fires env (log st) = false ∧
   PyStr.lower <$> stdin_line env (log st) = Some "n") →
  confirm_and_connect env p st = (Ret false, record_event EvInput st).
Proof.
  unfold confirm_and_connect, try_except, bind, input_with_alarm, input.
  intros [->|[-> Hline]]; [reflexivity|].
  destruct (stdin_line env (log st)) as [line|]; [|discriminate].
  cbn in Hline. injection Hline as ->. reflexivity.
Qed.

(** C9.  If [connect_github] reaches the confirmation prompt and the
    30-second alarm goes off before an answer, the function returns [False]
    without raising, and the configuration store is as it was when
    [connect_github] started: no configuration is written.  The answer [n]
    is the other way into the statement, with the same result and the same
    final state: the timeout is handled exactly as a "no". *)
Theorem confirmation_timeout_is_skip env st p st1 :
  connect_github_prepare env st = (Ret (Some p), st1) →
  alarm_fires env (log st1) = true ∨
  (alarm_fires env (log st1) = false ∧
   PyStr.lower <$> stdin_line env (log st1) = Some "n") →
  connect_github env st = (Ret false, record_event EvInput st1) ∧
  store (record_event EvInput st1) = store st.
Proof.
  intros Hprep Hdecl. split.
  - unfold connect_github, try_except, bind. rewrite Hprep.
    by rewrite (confirm_declined env p st1 Hdecl).
  - pose proof (keeps_connect_github_prepare env st) as [Hstore _].
    rewrite Hprep in Hstore. exact Hstore.
Qed.

(** ** Parsing *)

Lemma split_go_nonempty sep skip cur s : PyStr.split_go sep skip cur s ≠ [].
Proof.
  revert skip cur. induction s as [|c s IH]; intros skip cur; [done|].
  cbn [PyStr.split_go]. destruct skip; [|apply IH].
  destruct (String.prefix sep (String c s)); [done|apply IH].
Qed.

Lemma prefix_app p s : String.prefix p s = true → ∃ rest, s = p +:+ rest.
Proof.
  revert s. induction p as [|c p IH]; intros s H; [by exists s|].
  destruct s as [|d s]; [done|]. cbn in H.
  destruct (ascii_dec c d) as [->|]; [|done].
  destruct (IH s H) as [rest ->]. by exists rest.
Qed.

Lemma fingerprint_line_has_value line :
  PyStr.startswith "      Key fingerprint = " line = true →
  ∃ piece, index (PyStr.split "=" line) 1 = Ret piece.
Proof.
  intros [rest ->]%prefix_app. unfold PyStr.split. cbv [String.append]. cbn.
  destruct (PyStr.split_go "=" 0 " " rest) as [|piece more] eqn:E.
  - by apply split_go_nonempty in E.
  - by exists piece.
Qed.

Lemma scan_key_fingerprint_returns lines :
  ∃ fingerprint, scan_key_fingerprint lines = Ret fingerprint.
Proof.
  induction lines as [|line rest IH]; cbn; [eauto|].
  destruct (PyStr.startswith _ line) eqn:E; [|exact IH].
  destruct (fingerprint_line_has_value line E) as [piece ->]. cbn. eauto.
Qed.

(** ** Verification against GitHub *)

Lemma verify_github_key_cases env key_id st :
  (∃ d st', verify_github_key env key_id st = (Ret d, st') ∧ verification_dict d) ∨
  (∃ msg st' hist args,
     verify_github_key env key_id st = (Raise (OSError msg), st') ∧
     gpg_tool env hist args = LaunchError msg).
Proof.
  unfold verify_github_key, try_except, bind, subprocess_run, run_tool, lift.
  cbn [String.eqb Ascii.eqb Bool.eqb].
  destruct (gpg_tool env (log st) _) as [rc out err|msg] eqn:E1; cbn;
    [|right; eauto 10].
  destruct (rc =? 0)%Z; cbn; [|left; do 2 eexists; split; [done|by exists "", ""]].
  match goal with |- context [gpg_tool env ?h ?a] =>
    destruct (gpg_tool env h a) as [rc2 out2 err2|msg] eqn:E2 end; cbn;
    [|right; eauto 10].
  destruct (rc2 =? 0)%Z; cbn; [|left; do 2 eexists; split; [done|by exists "", ""]].
  match goal with |- context [scan_key_fingerprint ?l] =>
    destruct (scan_key_fingerprint_returns l) as [fp ->] end.
  left. do 2 eexists; split; [done|by exists out, fp].
Qed.

Lemma verification_dict_truthy d : verification_dict d → truthy (JObj d) = true.
Proof.
  intros (pk & fp & ->). cbn. rewrite bool_decide_eq_false_2; [done|].
  apply insert_non_empty.
Qed.

Lemma join_empty_str s : join_empty (JStr s) = Ret s.
Proof.
  unfold join_empty. cbn. induction s as [|c s IH]; cbn; [done|].
  by rewrite IH.
Qed.

Lemma github_probe_after_verify env key_id status st d st' :
  verify_github_key env key_id st = (Ret d, st') →
  verification_dict d →
  ∃ public_key,
    github_probe env key_id status st =
      (Ret (<["github_configured" := JBool true]>
            (<["public_key" := JStr public_key]> status)), st').
Proof.
  intros Hv Hd. unfold github_probe, bind. rewrite Hv.
  rewrite (verification_dict_truthy d Hd).
  destruct Hd as (pk & fp & ->). unfold lift, getitem.
  rewrite lookup_insert_eq, join_empty_str. eauto.
Qed.

(** C3, as amended.  From every state and for every key id,
    [verify_github_key] either returns a dictionary with exactly the keys
    [public_key], [fingerprint] and [github_configured], the last one
    [False], or raises the [OSError] of a [gpg] that could not be started.
    When [check_gpg_status] has found a secret key and the verification
    returns, the GitHub check sets [github_configured] to [True] although
    the dictionary holds [False]; the snapshot returned has it [True] when
    the stored configuration is a JSON object. *)
Theorem github_configured_is_dict_truthiness env st :
  (∀ key_id,
     (∃ d st', verify_github_key env key_id st = (Ret d, st') ∧ verification_dict d) ∨
     (∃ msg st' hist args,
        verify_github_key env key_id st = (Raise (OSError msg), st') ∧
        gpg_tool env hist args = LaunchError msg)) ∧
  (∀ key_id status st1 d st2,
     status_until_github env st = (Ret (inr (key_id, status)), st1) →
     verify_github_key env key_id st1 = (Ret d, st2) →
     d !! "github_configured" = Some (JBool false) ∧
     (∃ status',
        status_github_check env key_id status st1 = (Ret status', st2) ∧
        status' !! "github_configured" = Some (JBool true)) ∧
     (∃ snapshot st3,
        check_gpg_status env st = (Ret snapshot, st3) ∧
        ((∃ config, stored_record (store st2) = JObj config) →
         snapshot !! "github_configured" = Some (JBool true)))).
Proof.
  split; [intros key_id; apply verify_github_key_cases|].
  intros key_id status st1 d st2 Hreach Hv.
  assert (Hd : verification_dict d).
  { destruct (verify_github_key_cases env key_id st1)
      as [(d' & st' & E & Hd)|(msg & st' & hist & args & E & _)]; congruence. }
  destruct (github_probe_after_verify env key_id status st1 d st2 Hv Hd) as [pk Hprobe].
  split; [|split].
  - destruct Hd as (pk' & fp & ->). by simplify_map_eq.
  - eexists. unfold status_github_check, try_except. rewrite Hprobe.
    split; [reflexivity|]. by simplify_map_eq.
  - unfold check_gpg_status, try_except, bind. rewrite Hreach.
    unfold status_github_check, try_except. rewrite Hprobe.
    unfold status_load_cached, bind. rewrite load_config_eq. unfold lift.
    destruct (stored_record (store st2)) as [| | | | |config]; cbn;
      do 2 eexists; (split; [reflexivity|]); intros [config' ?]; try discriminate.
    by simplify_map_eq.
Qed.

(** ** Listing without keys *)



(** ** What a computation adds to the log *)
Section AddsOnly.

Variable P : Event → Prop.

Global Instance adds_only_preorder : PreOrder (adds_only P).
Proof.
  split.
  - intros st. exists []. by rewrite app_nil_r.
  - intros a b c (e1 & H1 & F1) (e2 & H2 & F2). exists (e1 ++ e2)%list.
    split; [by rewrite H2, H1, app_assoc|by apply Forall_app].
Qed.

Lemma adds_only_record ev st : P ev → adds_only P st (record_event ev st).
Proof. intros H. exists [ev]. split; [done|by constructor]. Qed.

Lemma adds_only_same_log st st' : log st' = log st → adds_only P st st'.
Proof. intros H. exists []. by rewrite app_nil_r. Qed.

Lemma run_tool_log env argv st :
  log (run_tool env argv st).2 = (log st ++ [EvRun argv])%list.
Proof.
  unfold run_tool. destruct argv as [|prog args]; [done|].
  destruct (String.eqb prog "gpg"); [done|].
  destruct (String.eqb prog "git"); [|done].
  destruct (git_spawn env (log st)); [done|].
  unfold git_exec. destruct (parse_git args); cbn; [| |done..];
    by destruct (git_global _ !! key).
Qed.

Lemma keeps_adds_subprocess_run env argv check :
  P (EvRun argv) → keeps (adds_only P) (subprocess_run env argv check).
Proof.
  intros H st. exists [EvRun argv]. split; [|by constructor].
  unfold subprocess_run. pose proof (run_tool_log env argv st) as Hlog.
  destruct (run_tool env argv st) as [[rc out err|msg] st1]; [|done].
  by destruct (check && negb (rc =? 0)%Z).
Qed.

Lemma keeps_adds_load_config : keeps (adds_only P) load_config.
Proof.
  intros st. rewrite load_config_eq. apply adds_only_same_log.
  unfold ensure_dir. by destruct (store st).
Qed.

Lemma keeps_adds_save_config config : keeps (adds_only P) (save_config config).
Proof. intros st. rewrite save_config_eq. by apply adds_only_same_log. Qed.

End AddsOnly.




Lemma clear_after_deletion_cases env st :
  (∃ e st', clear_after_deletion env st = (Raise e, st')) ∨
  (clear_after_deletion env st = (Ret tt, forgotten st) ∧
   ∃ mid, clear_config env mid = (Ret tt, forgotten st)).
Proof.
  unfold clear_after_deletion, mbind, M_bind, bind.
  destruct (git_unset_cases env "user.signingkey" st) as [[m ->]| [d1 ->]]; [left; eauto|].
  match goal with |- context [git_unset env "user.email" ?s] =>
    destruct (git_unset_cases env "user.email" s) as [[m ->]| [d2 ->]]; [left; eauto|] end.
  match goal with |- context [git_unset env "user.name" ?s] =>
    destruct (git_unset_cases env "user.name" s) as [[m ->]| [d3 ->]]; [left; eauto|] end.
  match goal with |- context [clear_config env ?s] =>
    destruct (clear_config_cases env s) as [(msg & st' & ->)|Hclear]; [left; eauto|];
    assert (Hsame : cleared s = forgotten st)
  end.
  { unfold forgotten. do 2 f_equal. unfold set_git, record_event. cbn.
    by rewrite <- !app_assoc. }
  right. rewrite Hclear, Hsame. split; [done|]. rewrite <- Hsame. eauto.
Qed.


Lemma subprocess_run_gpg env args st :
  subprocess_run env ("gpg" :: args) true st =
    match gpg_tool env (log st) args with
    | LaunchError msg => (Raise (OSError msg), record_event (EvRun ("gpg" :: args)) st)
    | Exited rc out err =>
        if (rc =? 0)%Z
        then (Ret {| returncode := rc; stdout := out; stderr := err |},
              record_event (EvRun ("gpg" :: args)) st)
        else (Raise (CalledProcessError ("gpg" :: args) rc err),
              record_event (EvRun ("gpg" :: args)) st)
    end.
Proof.
  unfold subprocess_run, run_tool. cbn [String.eqb Ascii.eqb Bool.eqb].
  destruct (gpg_tool env (log st) args) as [rc out err|msg]; [|done].
  by destruct (rc =? 0)%Z.
Qed.


Lemma truthy_opt_some fp :
  truthy_opt fp = true → ∃ f, fp = Some f ∧ PyStr.nonempty f = true.
Proof. destruct fp as [f|]; [eauto|done]. Qed.


Lemma deletion_steps_success env fp st st' :
  (subprocess_run env (delete_command fp) true;;
   clear_after_deletion env;; mret true) st = (Ret true, st') →
  st' = forgotten (record_event (EvRun (delete_command fp)) st) ∧
  ∃ mid, clear_config env mid = (Ret tt, st').
Proof.
  unfold mbind, M_bind, bind. unfold delete_command at 1. rewrite subprocess_run_gpg.
  fold (delete_command fp).
  destruct (gpg_tool env (log st) _) as [rc out err|msg];
    [destruct (rc =? 0)%Z|]; try discriminate.
  destruct (clear_after_deletion_cases env (record_event (EvRun (delete_command fp)) st))
    as [(e & st'' & ->)|[-> Hmid]]; [discriminate|]. by intros [= <-].
Qed.

Section Deletion.

Variables (env : Env) (key_id : string) (st : State).

Let resolve := gpg_tool env (log st) ["--list-keys"; "--with-colons"; key_id].
Let st1 := record_event (EvRun (listing_command key_id)) st.

Lemma delete_resolution_failure rc out err :
  resolve = Exited rc out err → rc ≠ 0%Z →
  delete_gpg_key env key_id st =
    (Raise (RuntimeError ("Failed to delete GPG key: " +:+ err)), st1).
Proof.
  intros Hres Hrc%Z.eqb_neq. unfold delete_gpg_key, try_except, bind.
  rewrite subprocess_run_gpg. fold resolve. by rewrite Hres, Hrc.
Qed.

Lemma delete_fingerprint_not_found out err fp :
  resolve = Exited 0 out err →
  first_fpr_field (PyStr.split newline out) = Ret fp →
  truthy_opt fp = false →
  delete_gpg_key env key_id st =
    (Raise (RuntimeError
              ("Failed to delete GPG key: Could not find fingerprint for key " +:+ key_id)),
     st1).
Proof.
  intros Hres Hfpr Hfp. unfold delete_gpg_key, try_except, bind, lift.
  rewrite subprocess_run_gpg. fold resolve. rewrite Hres. cbn [Z.eqb stdout].
  by rewrite Hfpr, Hfp.
Qed.

Lemma delete_resolved out err fp :
  resolve = Exited 0 out err →
  first_fpr_field (PyStr.split newline out) = Ret (Some fp) →
  PyStr.nonempty fp = true →
  delete_gpg_key env key_id st =
    match (subprocess_run env (delete_command fp) true;;
           clear_after_deletion env;; mret true) st1 with
    | (Ret done, st') => (Ret done, st')
    | (Raise e, st') => (Raise (deletion_error e), st')
    end.
Proof.
  intros Hres Hfpr Hfp. unfold delete_gpg_key, try_except, bind, lift.
  rewrite subprocess_run_gpg. fold resolve. rewrite Hres. cbn [Z.eqb stdout].
  rewrite Hfpr. cbn [truthy_opt]. rewrite Hfp. cbn [negb default id].
  change (record_event (EvRun ["gpg"; "--list-keys"; "--with-colons"; key_id]) st)
    with st1.
  by destruct ((subprocess_run env (delete_command fp) true;; _) st1) as [[?|?] ?].
Qed.


(** Whatever [delete_gpg_key] does, it returns [True] only through the
    deletion by fingerprint. *)
Lemma delete_success st' :
  delete_gpg_key env key_id st = (Ret true, st') →
  ∃ out err fp,
    resolve = Exited 0 out err ∧
    first_fpr_field (PyStr.split newline out) = Ret (Some fp) ∧
    PyStr.nonempty fp = true ∧
    st' = forgotten (record_event (EvRun (delete_command fp)) st1) ∧
    ∃ mid, clear_config env mid = (Ret tt, st').
Proof.
  destruct resolve as [rc out err|msg] eqn:Hres.
  2:{ unfold delete_gpg_key, try_except, bind. rewrite subprocess_run_gpg.
      fold resolve. by rewrite Hres. }
  destruct (decide (rc = 0%Z)) as [->|Hrc];
    [|by rewrite (delete_resolution_failure rc out err Hres Hrc)].
  destruct (first_fpr_field (PyStr.split newline out)) as [fp|e] eqn:Hfpr.
  2:{ unfold delete_gpg_key, try_except, bind, lift. rewrite subprocess_run_gpg.
      fold resolve. rewrite Hres. cbn [Z.eqb stdout]. by rewrite Hfpr. }
  destruct (truthy_opt fp) eqn:Hfp;
    [|by rewrite (delete_fingerprint_not_found out err fp Hres Hfpr Hfp)].
  destruct (truthy_opt_some fp Hfp) as (f & -> & Hf).
  rewrite (delete_resolved out err f Hres Hfpr Hf).
  destruct ((subprocess_run env (delete_command f) true;; _) st1)
    as [[done|e] st''] eqn:Hrun; [|discriminate].
  intros [= -> ->]. apply deletion_steps_success in Hrun as [-> Hmid]. eauto 10.
Qed.


End Deletion.


(** ** The claims in the concrete worlds *)

(** C1 as stated fails: with Jane's key configured, [clear_config]
    returns and the following [load_config] does not yield the empty
    record. *)
Lemma clear_then_load_is_not_empty :
  ∃ st', clear_config jane_env configured_state = (Ret tt, st') ∧
         (load_config st').1 ≠ Ret (JObj ∅).
Proof.
  exists (cleared configured_state). split; [vm_compute; reflexivity|].
  rewrite load_config_eq. cbn [fst]. intros H.
  apply (f_equal (fun o => match o with
                           | Ret (JObj m) => m !! "gpg_key_id"
                           | _ => None
                           end)) in H.
  discriminate H.
Qed.

(** The amended C1 at Jane's configured state. *)
Lemma clear_leaves_unconfigured_record_witness :
  clear_config jane_env configured_state = (Ret tt, cleared configured_state) ∧
  (∃ record,
     load_config (cleared configured_state)
       = (Ret (JObj record), cleared configured_state) ∧
     record !! "github_key_added" = Some (JBool false)) ∧
  git_global (cleared configured_state) !! "user.signingkey" = None.
Proof.
  assert (H : clear_config jane_env configured_state = (Ret tt, cleared configured_state))
    by (vm_compute; reflexivity).
  split; [exact H|].
  destruct (clear_leaves_unconfigured_record jane_env configured_state _ H)
    as ((record & Hload & _ & _ & Hadded) & Hkey & _).
  split; [by exists record|exact Hkey].
Defined.

(** C2, at the failing input.  The command line runs [connect_to_github].
    With a token GitHub accepts, the key is posted, the post is answered
    [201], [connect_to_github] returns [True] and the program exits with 0,
    yet the configuration store is as it was before, here absent: a
    following [load_config] yields the empty record, without
    [github_key_added] and without [last_config_update]. *)
Theorem cli_connect_github_persists_nothing :
  main_connect_github upload_env (Some jane_key) fresh_state = (Ret 0%Z, cli_final_state) ∧
  log cli_final_state !! 6%nat = Some (EvHttp upload_request) ∧
  (∀ hist, ∃ r, http upload_env hist upload_request = Responded r ∧
                status_code r = 201%Z) ∧
  (connect_to_github upload_env jane_key
     (record_event (EvRun ["gpg"; "--version"]) fresh_state)).1 = Ret true ∧
  store cli_final_state = store fresh_state ∧
  load_config cli_final_state = (Ret (JObj ∅), ensure_dir cli_final_state).
Proof.
  split; [vm_compute; reflexivity|].
  split; [vm_compute; reflexivity|].
  split; [intros hist; eexists; split; reflexivity|].
  split; [vm_compute; reflexivity|].
  split; [reflexivity|]. by rewrite load_config_eq.
Qed.

Lemma main_connect_github_keeps_store env key_id_arg st :
  store (main_connect_github env key_id_arg st).2 = store st.
Proof. apply keeps_main_connect_github. Qed.

Example connect_github_records_upload :
  (connect_github upload_env fresh_state).1 = Ret true ∧
  stored_record (store (connect_github upload_env fresh_state).2) =
    JObj (<["github_key_added" := JBool true]>
         (<["github_configured" := JBool true]>
         (<["last_config_update" := JStr "2025-06-18T12:00:00.000000"]> ∅))).
Proof. split; vm_compute; reflexivity. Qed.


(** C5 where [gpg] is not installed. *)
Lemma status_short_circuit_witness :
  check_gpg_installed no_gpg_env configured_state
    = (Raise (OSError "[Errno 2] No such file or directory: 'gpg'"),
       record_event (EvRun ["gpg"; "--version"]) configured_state) ∧
  ∃ status,
    check_gpg_status no_gpg_env configured_state
      = (Ret status, record_event (EvRun ["gpg"; "--version"]) configured_state) ∧
    flag_off status "key_configured" ∧
    flag_off status "git_configured" ∧
    flag_off status "github_configured".
Proof.
  assert (H : check_gpg_installed no_gpg_env configured_state
              = (Raise (OSError "[Errno 2] No such file or directory: 'gpg'"),
                 record_event (EvRun ["gpg"; "--version"]) configured_state))
    by reflexivity.
  split; [exact H|].
  destruct (status_short_circuit no_gpg_env configured_state _ _ H)
    as (status & Hs & _ & Hk & Hg & Hh & _); [discriminate|].
  exists status. auto.
Defined.


(** C9 where the user leaves the prompt unanswered. *)
Lemma confirmation_timeout_is_skip_witness :
  connect_github_prepare timeout_env configured_state
    = (Ret (Some timeout_prepared), timeout_prompt_state) ∧
  alarm_fires timeout_env (log timeout_prompt_state) = true ∧
  connect_github timeout_env configured_state
    = (Ret false, record_event EvInput timeout_prompt_state) ∧
  store (record_event EvInput timeout_prompt_state) = store configured_state.
Proof.
  assert (H1 : connect_github_prepare timeout_env configured_state
               = (Ret (Some timeout_prepared), timeout_prompt_state))
    by (vm_compute; reflexivity).
  split; [exact H1|]. split; [reflexivity|].
  exact (confirmation_timeout_is_skip _ _ _ _ H1 (or_introl eq_refl)).
Defined.

(** C3 as stated fails: without [gpg], [verify_github_key] raises; and
    when the export cannot be started, [check_gpg_status], which has found
    Jane's secret key, reports [github_configured] false. *)
Lemma verify_github_key_can_raise :
  verify_github_key no_gpg_env jane_key fresh_state
    = (Raise (OSError "[Errno 2] No such file or directory: 'gpg'"),
       record_event (EvRun ["gpg"; "--armor"; "--export"; jane_key]) fresh_state) ∧
  verify_github_key broken_export_env jane_key state_before_github
    = (Raise (OSError "[Errno 11] Resource temporarily unavailable"),
       state_after_broken_export) ∧
  status_until_github broken_export_env configured_state
    = (Ret (inr (jane_key, broken_status)), state_before_github) ∧
  check_gpg_status broken_export_env configured_state
    = (Ret broken_snapshot, broken_final_state) ∧
  broken_snapshot !! "key_configured" = Some (JBool true) ∧
  broken_snapshot !! "github_configured" = Some (JBool false).
Proof. repeat split; vm_compute; reflexivity. Qed.

(** The amended C3 in Jane's working environment. *)
Lemma github_configured_is_dict_truthiness_witness :
  status_until_github jane_env configured_state
    = (Ret (inr (jane_key, jane_status)), state_before_github) ∧
  verify_github_key jane_env jane_key state_before_github
    = (Ret jane_verification, state_after_verification) ∧
  jane_verification !! "github_configured" = Some (JBool false) ∧
  ∃ snapshot st3,
    check_gpg_status jane_env configured_state = (Ret snapshot, st3) ∧
    snapshot !! "github_configured" = Some (JBool true).
Proof.
  assert (H1 : status_until_github jane_env configured_state
               = (Ret (inr (jane_key, jane_status)), state_before_github))
    by (vm_compute; reflexivity).
  assert (H2 : verify_github_key jane_env jane_key state_before_github
               = (Ret jane_verification, state_after_verification))
    by (vm_compute; reflexivity).
  split; [exact H1|]. split; [exact H2|].
  destruct (github_configured_is_dict_truthiness jane_env configured_state) as [_ H].
  destruct (H _ _ _ _ _ H1 H2) as (Hd & _ & snapshot & st3 & Hrun & Hflag).
  split; [exact Hd|]. exists snapshot, st3. split; [exact Hrun|].
  apply Hflag. exists jane_config. vm_compute. reflexivity.
Defined.




(** * Further properties *)

(** ** Configuring git *)

Lemma git_set_cases env key value st :
  String.eqb key "--unset" = false → String.eqb key "--get" = false →
  (∃ msg, subprocess_run env ["git"; "config"; "--global"; key; value] true st =
            (Raise (OSError msg), record_event (set_event key value) st)) ∨
  (∃ done,
     subprocess_run env ["git"; "config"; "--global"; key; value] true st =
       (Ret done, set_git (<[key := value]> (git_global st))
                    (record_event (set_event key value) st))).
Proof.
  intros Hu Hg.
  unfold subprocess_run, run_tool. cbn [String.eqb Ascii.eqb Bool.eqb].
  destruct (git_spawn env (log st)) as [msg|]; [left; eauto|right].
  unfold git_exec, parse_git. cbn [String.eqb Ascii.eqb Bool.eqb andb].
  rewrite Hu, Hg. cbn. eauto.
Qed.

Lemma configure_git_cases env key_id st :
  (∃ msg st', configure_git env key_id st = (Raise (OSError msg), st')) ∨
  configure_git env key_id st = (Ret true, signing_with key_id st).
Proof.
  unfold configure_git, try_except, mbind, M_bind, bind.
  destruct (git_set_cases env "user.signingkey" key_id st) as [[m ->]|[d1 ->]];
    [done|done|left; cbn; eauto|].
  match goal with |- context [subprocess_run env _ true ?s] =>
    destruct (git_set_cases env "commit.gpgsign" "true" s) as [[m ->]|[d2 ->]];
      [done|done|left; cbn; eauto|] end.
  right. cbn. unfold signing_with, set_git, record_event. cbn.
  by rewrite <- app_assoc.
Qed.

Lemma configure_git_ok env key_id st st' :
  configure_git env key_id st = (Ret true, st') → st' = signing_with key_id st.
Proof.
  destruct (configure_git_cases env key_id st) as [(msg & st1 & ->)| ->]; congruence.
Qed.

(** ** Stripping *)

Lemma rev_app_append s t acc :
  String.rev_app (s +:+ t) acc = String.rev_app t (String.rev_app s acc).
Proof. revert acc. induction s as [|c s IH]; intros acc; cbn; [done|apply IH]. Qed.

Lemma rstrip_by_snoc p s c :
  p c = true → PyStr.rstrip_by p (s +:+ String c "") = PyStr.rstrip_by p s.
Proof.
  intros Hc. unfold PyStr.rstrip_by, String.rev. rewrite rev_app_append. cbn.
  by rewrite Hc.
Qed.

Lemma lstrip_by_snoc p s c :
  p c = true →
  PyStr.lstrip_by p (s +:+ String c "") = PyStr.lstrip_by p s ∨
  PyStr.lstrip_by p (s +:+ String c "") = PyStr.lstrip_by p s +:+ String c "".
Proof.
  intros Hc. induction s as [|d s IH]; cbv [String.append]; fold String.append.
  - cbn. rewrite Hc. by left.
  - cbn [PyStr.lstrip_by]. destruct (p d); [exact IH|by right].
Qed.

(** A line break at the end does not survive [strip]. *)
Lemma strip_newline s : PyStr.strip (s +:+ newline) = PyStr.strip s.
Proof.
  unfold PyStr.strip, PyStr.strip_by, newline.
  destruct (lstrip_by_snoc PyStr.is_space s "010" eq_refl) as [->| ->]; [done|].
  by apply rstrip_by_snoc.
Qed.




(** ** Clearing, again *)

(** X2.  [clear_config] undoes [configure_git]: when both return, git's
    global configuration is the one before [configure_git] without
    [user.signingkey], [commit.gpgsign] and [tag.gpgsign], so a signing key
    that was set before [configure_git] is not brought back; the store
    holds what [clear_config] alone would have left. *)
Theorem clear_config_undoes_configure_git env key_id st st1 st2 :
  configure_git env key_id st = (Ret true, st1) →
  clear_config env st1 = (Ret tt, st2) →
  git_global st2
    = delete "tag.gpgsign" (delete "commit.gpgsign"
        (delete "user.signingkey" (git_global st))) ∧
  store st2 = store (cleared st).
Proof.
  intros ->%configure_git_ok ->%clear_config_ok. cbn. split; [|done].
  rewrite (delete_insert_ne _ "user.signingkey" "commit.gpgsign") by done.
  by rewrite !delete_insert_eq.
Qed.

(** X2 at a concrete input. *)
Lemma clear_config_undoes_configure_git_witness :
  configure_git jane_env jane_key configured_state = (Ret true, jane_resigned_state) ∧
  clear_config jane_env jane_resigned_state = (Ret tt, jane_cleared_state) ∧
  git_global jane_cleared_state
    = delete "tag.gpgsign" (delete "commit.gpgsign"
        (delete "user.signingkey" (git_global configured_state))) ∧
  store jane_cleared_state = store (cleared configured_state).
Proof.
  assert (H1 : configure_git jane_env jane_key configured_state
               = (Ret true, jane_resigned_state)) by (vm_compute; reflexivity).
  assert (H2 : clear_config jane_env jane_resigned_state = (Ret tt, jane_cleared_state))
    by (vm_compute; reflexivity).
  split; [exact H1|]. split; [exact H2|].
  exact (clear_config_undoes_configure_git _ _ _ _ _ H1 H2).
Defined.

(** X3.  [clear_config] twice is [clear_config] once, as far as git's
    configuration and the store go: the second run finds the settings unset
    (git's exit status 5 is not checked), removes and writes back the same
    record. *)
Theorem clear_config_idempotent env st st1 st2 :
  clear_config env st = (Ret tt, st1) →
  clear_config env st1 = (Ret tt, st2) →
  git_global st2 = git_global st1 ∧ store st2 = store st1.
Proof.
  intros ->%clear_config_ok ->%clear_config_ok. cbn. split; [|done].
  rewrite (delete_id _ "user.signingkey") by apply unset_gone.
  rewrite (delete_id _ "commit.gpgsign")
    by (rewrite lookup_delete_ne by done; apply lookup_delete_eq).
  apply delete_id, lookup_delete_eq.
Qed.

(** X3 at a concrete input. *)
Lemma clear_config_idempotent_witness :
  clear_config jane_env configured_state = (Ret tt, cleared configured_state) ∧
  clear_config jane_env (cleared configured_state)
    = (Ret tt, cleared (cleared configured_state)) ∧
  git_global (cleared (cleared configured_state)) = git_global (cleared configured_state) ∧
  store (cleared (cleared configured_state)) = store (cleared configured_state).
Proof.
  assert (H1 : clear_config jane_env configured_state = (Ret tt, cleared configured_state))
    by (vm_compute; reflexivity).
  assert (H2 : clear_config jane_env (cleared configured_state)
               = (Ret tt, cleared (cleared configured_state)))
    by (vm_compute; reflexivity).
  split; [exact H1|]. split; [exact H2|].
  exact (clear_config_idempotent _ _ _ _ H1 H2).
Defined.



(** ** Deleting, again *)

Lemma deletion_error_prefix e :
  ∃ msg, deletion_error e = RuntimeError ("Failed to delete GPG key: " +:+ msg).
Proof. destruct e; cbn [deletion_error]; eauto. Qed.

Lemma delete_gpg_key_result env key_id st b st' :
  delete_gpg_key env key_id st = (Ret b, st') → b = true.
Proof.
  unfold delete_gpg_key, try_except, mbind, M_bind, bind, lift, raise, mret, M_ret.
  destruct (subprocess_run env _ true st) as [[key_info|e] st1]; [|done].
  destruct (first_fpr_field _) as [fp|e]; [|done].
  destruct (negb (truthy_opt fp)); [done|].
  destruct (subprocess_run env _ true st1) as [[r2|e] st2]; [|done].
  destruct (clear_after_deletion env st2) as [[[]|e] st3]; [|done].
  congruence.
Qed.

Lemma delete_gpg_key_error env key_id st e st' :
  delete_gpg_key env key_id st = (Raise e, st') →
  ∃ msg, e = RuntimeError ("Failed to delete GPG key: " +:+ msg).
Proof.
  unfold delete_gpg_key, try_except, raise.
  match goal with |- context [match ?body st with _ => _ end] =>
    destruct (body st) as [[b|e0] st0] end; [done|].
  intros [= <- <-]. apply deletion_error_prefix.
Qed.

(** X5.  [delete_gpg_key] never returns [False]: it returns [True] or
    raises a [RuntimeError] whose message starts with "Failed to delete GPG
    key: ".  When it returns [True], besides the signing settings git's
    global [user.email] and [user.name] are unset as well, and every other
    setting of git is as before. *)
Theorem delete_gpg_key_true_or_runtime_error env key_id st :
  (∃ st',
     delete_gpg_key env key_id st = (Ret true, st') ∧
     git_global st' !! "user.email" = None ∧
     git_global st' !! "user.name" = None ∧
     ∀ key, key ∉ ["user.signingkey"; "commit.gpgsign"; "tag.gpgsign";
                   "user.email"; "user.name"] →
            git_global st' !! key = git_global st !! key) ∨
  (∃ msg st',
     delete_gpg_key env key_id st
       = (Raise (RuntimeError ("Failed to delete GPG key: " +:+ msg)), st')).
Proof.
  destruct (delete_gpg_key env key_id st) as [[b|e] st'] eqn:Hrun.
  - left. pose proof (delete_gpg_key_result _ _ _ _ _ Hrun) as ->.
    exists st'. split; [done|].
    apply delete_success in Hrun as (out & err & fp & _ & _ & _ & -> & _).
    cbn. split; [|split].
    + rewrite !lookup_delete_ne by done. apply lookup_delete_eq.
    + rewrite !lookup_delete_ne by done. apply lookup_delete_eq.
    + intros key Hkey.
      rewrite !not_elem_of_cons in Hkey. destruct Hkey as (H1 & H2 & H3 & H4 & H5 & _).
      by rewrite !lookup_delete_ne by done.
  - right. apply delete_gpg_key_error in Hrun as [msg ->]. eauto.
Qed.

(** ** The long listing *)

Lemma first_secret_key_id_cons line rest :
  first_secret_key_id (line :: rest) =
    match sec_line_id line with
    | Some key_id => Some key_id
    | None => first_secret_key_id rest
    end.
Proof.
  cbn [first_secret_key_id]. unfold sec_line_id.
  destruct (PyStr.startswith "sec" line); [|done].
  by destruct (PyStr.split_ws line) as [|first [|second others]].
Qed.

(** What [key_details_step] does on a line, by the id the line carries. *)
Lemma key_details_step_other key_id details line :
  sec_line_id line ≠ Some key_id →
  key_details_step key_id (details, false) line = Ret (details, false).
Proof.
  unfold key_details_step, sec_line_id.
  destruct (PyStr.startswith "sec" line); [|done].
  destruct (PyStr.split_ws line) as [|first [|second others]]; [done|done|].
  intros Hid. cbn [length]. rewrite bool_decide_eq_true_2 by lia.
  cbn [index lookup list_lookup outcome_bind].
  destruct (String.eqb_spec key_id
             (last_piece (PyStr.split "/" (PyStr.strip_chars "[]" second)))) as [->|_];
    [by destruct Hid|done].
Qed.

Lemma key_details_loop_unlisted key_id details lines :
  key_id ∉ omap sec_line_id lines →
  key_details_loop key_id (details, false) lines = Ret (details, false).
Proof.
  induction lines as [|line rest IH]; [done|].
  cbn [omap list_omap key_details_loop]. intros Hnot.
  rewrite key_details_step_other.
  - cbn [outcome_bind]. apply IH. destruct (sec_line_id line); [|done].
    by apply not_elem_of_cons in Hnot as [_ ?].
  - intros Hid. rewrite Hid in Hnot. apply Hnot, elem_of_cons. by left.
Qed.

Lemma get_gpg_key_details_unlisted env key_id st rc out err :
  gpg_tool env (log st) (tail long_listing_command) = Exited rc out err →
  key_id ∉ listed_secret_ids out →
  get_gpg_key_details env key_id st = (Ret ∅, record_event (EvRun long_listing_command) st).
Proof.
  intros Htool Hnot. unfold get_gpg_key_details, try_except, bind, lift.
  rewrite subprocess_run_gpg. cbn [tail long_listing_command] in Htool. rewrite Htool.
  destruct (rc =? 0)%Z; [|done]. cbn [stdout].
  by rewrite (key_details_loop_unlisted key_id ∅ _ Hnot).
Qed.

(** X6.  For a key id that is not the id of a [sec] line of the long
    listing, [get_gpg_key_details] returns the empty dictionary, and
    [connect_to_github] returns [False] after that one call of gpg: the key
    is not exported, no token is asked for and no request is sent. *)
Theorem connect_to_github_unlisted_key env key_id st rc out err :
  gpg_tool env (log st) (tail long_listing_command) = Exited rc out err →
  key_id ∉ listed_secret_ids out →
  get_gpg_key_details env key_id st
    = (Ret ∅, record_event (EvRun long_listing_command) st) ∧
  connect_to_github env key_id st
    = (Ret false, record_event (EvRun long_listing_command) st).
Proof.
  intros Htool Hnot.
  pose proof (get_gpg_key_details_unlisted env key_id st rc out err Htool Hnot) as Hd.
  split; [exact Hd|].
  unfold connect_to_github, try_except, bind. by rewrite Hd.
Qed.

(** X6 at a concrete input. *)
Lemma connect_to_github_unlisted_key_witness :
  gpg_tool jane_env (log fresh_state) (tail long_listing_command)
    = Exited 0 jane_long_listing "" ∧
  listed_secret_ids jane_long_listing = [jane_key] ∧
  connect_to_github jane_env "1111111111111111" fresh_state
    = (Ret false, record_event (EvRun long_listing_command) fresh_state).
Proof.
  assert (Hids : listed_secret_ids jane_long_listing = [jane_key])
    by (vm_compute; reflexivity).
  split; [reflexivity|]. split; [exact Hids|].
  apply (connect_to_github_unlisted_key jane_env "1111111111111111" fresh_state
           0 jane_long_listing "").
  - reflexivity.
  - rewrite Hids. by intros [=]%list_elem_of_singleton.
Defined.

(** Once the key has been found its id stays in the details, whatever
    lines follow. *)
Lemma key_details_step_found key_id details line details' found' :
  details !! "primary_key" = Some (JStr key_id) →
  key_details_step key_id (details, true) line = Ret (details', found') →
  details' !! "primary_key" = Some (JStr key_id) ∧ found' = true.
Proof.
  intros Hkey. unfold key_details_step.
  destruct (PyStr.startswith "sec" line).
  { destruct (bool_decide (1 < length (PyStr.split_ws line))); [|by intros [= <- <-]].
    destruct (index (PyStr.split_ws line) 1) as [second|e]; [|done].
    cbn [outcome_bind].
    destruct (String.eqb_spec key_id
               (last_piece (PyStr.split "/" (PyStr.strip_chars "[]" second)))) as [Heq|_];
      [|by intros [= <- <-]].
    destruct (index (PyStr.split_ws line) 2) as [size|e]; [|done].
    destruct (index (PyStr.split_ws line) 3) as [created|e]; [|done].
    cbn [outcome_bind]. intros [= <- <-]. rewrite <- Heq. by simplify_map_eq. }
  cbn [andb].
  destruct (PyStr.startswith "uid" line).
  { destruct (index (PyStr.split "uid" line) 1) as [after|e]; [|done].
    cbn [outcome_bind]. intros [= <- <-]. by simplify_map_eq. }
  destruct (PyStr.startswith "ssb" line); [|by intros [= <- <-]].
  destruct (bool_decide (2 < length (PyStr.split_ws line))); [|by intros [= <- <-]].
  destruct (index (PyStr.split_ws line) 1) as [second|e]; [|done].
  destruct (index (PyStr.split_ws line) 2) as [size|e]; [|done].
  cbn [outcome_bind].
  destruct (bool_decide (3 < length (PyStr.split_ws line))); [|intros [= <- <-]; by simplify_map_eq].
  destruct (index (PyStr.split_ws line) 3) as [created|e]; [|done].
  cbn [outcome_bind]. intros [= <- <-]. by simplify_map_eq.
Qed.

Lemma key_details_loop_found key_id details lines details' found' :
  details !! "primary_key" = Some (JStr key_id) →
  key_details_loop key_id (details, true) lines = Ret (details', found') →
  details' !! "primary_key" = Some (JStr key_id) ∧ found' = true.
Proof.
  revert details. induction lines as [|line rest IH]; intros details Hkey.
  { cbn. by intros [= <- <-]. }
  cbn [key_details_loop].
  destruct (key_details_step key_id (details, true) line) as [[d f]|e] eqn:Hstep; [|done].
  apply (key_details_step_found _ _ _ _ _ Hkey) in Hstep as [Hd ->].
  cbn [outcome_bind]. by apply IH.
Qed.

(** The step on the [sec] line that carries the key id. *)
Lemma key_details_step_match key_id details found line details' found' :
  sec_line_id line = Some key_id →
  key_details_step key_id (details, found) line = Ret (details', found') →
  details' !! "primary_key" = Some (JStr key_id) ∧ found' = true.
Proof.
  unfold key_details_step, sec_line_id.
  destruct (PyStr.startswith "sec" line); [|done].
  destruct (PyStr.split_ws line) as [|first [|second others]]; [done|done|].
  intros [= Hid]. cbn [length]. rewrite bool_decide_eq_true_2 by lia.
  cbn [index lookup list_lookup outcome_bind]. rewrite Hid, String.eqb_refl.
  destruct (index (first :: second :: others) 2) as [size|e]; [|done].
  destruct (index (first :: second :: others) 3) as [created|e]; [|done].
  cbn [outcome_bind]. intros [= <- <-]. by simplify_map_eq.
Qed.

(** X7.  [get_gpg_key_id] and [get_gpg_key_details] read the same listing
    the same way: for the id the loop of [get_gpg_key_id] finds, the loop of
    [get_gpg_key_details], when it ends without an exception, has found the
    key and recorded that id as [primary_key]. *)
Theorem key_details_of_first_secret_key lines key_id details found :
  first_secret_key_id lines = Some key_id →
  key_details_loop key_id (∅, false) lines = Ret (details, found) →
  details !! "primary_key" = Some (JStr key_id) ∧ found = true.
Proof.
  generalize (∅ : gmap string json) as start.
  induction lines as [|line rest IH]; intros start; [done|].
  rewrite first_secret_key_id_cons. cbn [key_details_loop].
  destruct (sec_line_id line) as [id|] eqn:Hid.
  - intros [= ->].
    destruct (key_details_step key_id (start, false) line) as [[d f]|e] eqn:Hstep; [|done].
    apply (key_details_step_match _ _ _ _ _ _ Hid) in Hstep as [Hd ->].
    cbn [outcome_bind]. by apply key_details_loop_found.
  - intros Hfirst. rewrite key_details_step_other by (rewrite Hid; done).
    cbn [outcome_bind]. by apply IH.
Qed.

(** X7 at a concrete input. *)
Lemma key_details_of_first_secret_key_witness :
  first_secret_key_id (PyStr.split newline jane_long_listing) = Some jane_key ∧
  key_details_loop jane_key (∅, false) (PyStr.split newline jane_long_listing)
    = Ret (jane_details_found, true) ∧
  jane_details_found !! "primary_key" = Some (JStr jane_key).
Proof.
  assert (H1 : first_secret_key_id (PyStr.split newline jane_long_listing) = Some jane_key)
    by (vm_compute; reflexivity).
  assert (H2 : key_details_loop jane_key (∅, false) (PyStr.split newline jane_long_listing)
               = Ret (jane_details_found, true))
    by (vm_compute; reflexivity).
  split; [exact H1|]. split; [exact H2|].
  exact (proj1 (key_details_of_first_secret_key _ _ _ _ H1 H2)).
Defined.

(** ** The stored record *)



(** ** Status, again *)

Global Instance reads_only_preorder : PreOrder reads_only.
Proof.
  split.
  - intros st. split; [done|by left].
  - intros a b c [Hg1 Hs1] [Hg2 Hs2]. split; [congruence|].
    destruct Hs1 as [Hs1|[Hn1 Hs1]], Hs2 as [Hs2|[Hn2 Hs2]].
    + left. congruence.
    + right. split; congruence.
    + right. split; congruence.
    + congruence.
Qed.

Lemma untouched_reads_only st st' : untouched st st' → reads_only st st'.
Proof. intros [Hs Hg]. split; [done|by left]. Qed.

Lemma keeps_untouched_reads_only {A} (m : M A) :
  keeps untouched m → keeps reads_only m.
Proof. intros H st. apply untouched_reads_only, H. Qed.

Lemma keeps_reads_load_config : keeps reads_only load_config.
Proof.
  intros st. rewrite load_config_eq. cbn. unfold ensure_dir.
  destruct (store st) eqn:Hs; [reflexivity|].
  split; [done|]. right. by split.
Qed.

Lemma keeps_status_until_github env : keeps untouched (status_until_github env).
Proof.
  unfold status_until_github. frame. unfold status_git_check. frame.
Qed.

Lemma keeps_status_github_check env key_id status :
  keeps untouched (status_github_check env key_id status).
Proof. unfold status_github_check, github_probe. frame. Qed.

Lemma keeps_reads_status_load_cached status : keeps reads_only (status_load_cached status).
Proof.
  unfold status_load_cached.
  apply keeps_bind; [apply keeps_reads_load_config|intros config]. frame.
Qed.

Lemma keeps_reads_check_gpg_status env : keeps reads_only (check_gpg_status env).
Proof.
  unfold check_gpg_status.
  apply keeps_try; [|intros e h [= <-]; apply keeps_ret].
  apply keeps_bind.
  { apply keeps_untouched_reads_only, keeps_status_until_github. }
  intros [status|[key_id status]]; [apply keeps_ret|].
  apply keeps_bind.
  { apply keeps_untouched_reads_only, keeps_status_github_check. }
  intros status'. apply keeps_reads_status_load_cached.
Qed.

(** X9.  [check_gpg_status] only reads: from every state it returns a
    snapshot without raising, git's configuration is afterwards what it was,
    and so is the configuration directory, except that a missing directory
    has been created, empty; what [load_config] reads is the same before and
    after. *)
Theorem check_gpg_status_reads_only env st :
  ∃ snapshot st',
    check_gpg_status env st = (Ret snapshot, st') ∧
    reads_only st st' ∧
    stored_record (store st') = stored_record (store st).
Proof.
  destruct (check_gpg_status_returns env st) as (snapshot & st' & Hrun).
  exists snapshot, st'. split; [exact Hrun|].
  pose proof (keeps_reads_check_gpg_status env st) as Hkeep.
  rewrite Hrun in Hkeep. cbn in Hkeep. split; [exact Hkeep|].
  destruct Hkeep as [_ [->|[Hnone ->]]]; [done|]. by rewrite Hnone.
Qed.

Lemma check_gpg_installed_true env st out err :
  gpg_tool env (log st) ["--version"] = Exited 0 out err →
  check_gpg_installed env st = (Ret true, record_event (EvRun ["gpg"; "--version"]) st).
Proof.
  intros Htool. unfold check_gpg_installed, try_except, mbind, M_bind, bind.
  rewrite subprocess_run_gpg, Htool. reflexivity.
Qed.

Lemma get_gpg_key_id_exited env st rc out err :
  gpg_tool env (log st) (tail long_listing_command) = Exited rc out err →
  get_gpg_key_id env st
    = (Ret (if (rc =? 0)%Z then first_secret_key_id (PyStr.split newline out) else None),
       record_event (EvRun long_listing_command) st).
Proof.
  intros Htool. unfold get_gpg_key_id, try_except, bind.
  cbn [tail long_listing_command] in Htool. rewrite subprocess_run_gpg, Htool.
  by destruct (rc =? 0)%Z.
Qed.

(** X10.  With gpg installed and no usable secret key (the listing exits
    with an error, has no [sec] line with an id, or the id is empty),
    [check_gpg_status] returns the snapshot that has [gpg_installed] and
    nothing else: [key_configured], [git_configured], [github_configured]
    and [key_details] are absent rather than false, and the run is the two
    calls of gpg, without git, GitHub or the configuration file. *)
Theorem check_gpg_status_without_key env st out0 err0 rc out err :
  let st1 := record_event (EvRun ["gpg"; "--version"]) st in
  gpg_tool env (log st) ["--version"] = Exited 0 out0 err0 →
  gpg_tool env (log st1) (tail long_listing_command) = Exited rc out err →
  rc ≠ 0%Z ∨ truthy_opt (first_secret_key_id (PyStr.split newline out)) = false →
  check_gpg_status env st
    = (Ret (<["gpg_installed" := JBool true]> ∅),
       record_event (EvRun long_listing_command) st1).
Proof.
  intros st1 Hversion Hlist Hnone.
  unfold check_gpg_status, status_until_github, try_except, bind.
  rewrite (check_gpg_installed_true env st out0 err0 Hversion). fold st1.
  rewrite (get_gpg_key_id_exited env st1 rc out err Hlist).
  destruct (Z.eqb_spec rc 0) as [Hrc|Hrc]; [|done].
  destruct Hnone as [Hnone|Hnone]; [done|].
  destruct (first_secret_key_id _) as [key_id|]; [|done].
  cbn [truthy_opt] in Hnone. by rewrite Hnone.
Qed.

(** X10 at a concrete input. *)
Lemma check_gpg_status_without_key_witness :
  gpg_tool no_keys_env (log configured_state) ["--version"]
    = Exited 0 "gpg (GnuPG) 2.4.4" "" ∧
  check_gpg_status no_keys_env configured_state
    = (Ret (<["gpg_installed" := JBool true]> ∅),
       record_event (EvRun long_listing_command)
         (record_event (EvRun ["gpg"; "--version"]) configured_state)).
Proof.
  split; [reflexivity|].
  apply (check_gpg_status_without_key no_keys_env configured_state
           "gpg (GnuPG) 2.4.4" "" 0 "" ""); [reflexivity|reflexivity|].
  right. reflexivity.
Defined.

(** ** [connect_github] *)

Lemma keeps_quiet_subprocess_run env argv check :
  keeps (adds_only not_http) (subprocess_run env argv check).
Proof. by apply keeps_adds_subprocess_run. Qed.

Lemma keeps_quiet_git_get env key : keeps (adds_only not_http) (git_get env key).
Proof. apply keeps_quiet_subprocess_run. Qed.

Lemma keeps_quiet_input env : keeps (adds_only not_http) (input env).
Proof.
  intros st. unfold input. destruct (stdin_line env (log st)); by apply adds_only_record.
Qed.

Lemma keeps_quiet_sleep n : keeps (adds_only not_http) (sleep n).
Proof. intros st. by apply adds_only_record. Qed.

#[export] Hint Resolve keeps_quiet_subprocess_run keeps_quiet_git_get keeps_quiet_input
  keeps_quiet_sleep : frame.

Lemma keeps_quiet_connect_github_prepare env :
  keeps (adds_only not_http) (connect_github_prepare env).
Proof.
  unfold connect_github_prepare, get_gpg_key_id, find_github_username, export_for_github.
  frame.
Qed.

Lemma quiet_prepare env st : quiet st (connect_github_prepare env st).2.
Proof.
  split; [apply keeps_connect_github_prepare|apply keeps_quiet_connect_github_prepare].
Qed.

Lemma quiet_input st st1 : quiet st st1 → quiet st (record_event EvInput st1).
Proof.
  intros [Hu Ha]. split.
  - etrans; [exact Hu|apply untouched_record_event].
  - etrans; [exact Ha|by apply adds_only_record].
Qed.

(** X11.  [connect_github] sends nothing to GitHub without consent: either
    the run has left git's configuration and the store as they were and has
    made no HTTP request, or the confirmation prompt was reached, the alarm
    did not go off and the line read there was [y] or [Y]. *)
Theorem connect_github_requests_need_consent env st :
  (untouched st (connect_github env st).2 ∧
   adds_only not_http st (connect_github env st).2) ∨
  (∃ p st1 line,
     connect_github_prepare env st = (Ret (Some p), st1) ∧
     alarm_fires env (log st1) = false ∧
     stdin_line env (log st1) = Some line ∧
     PyStr.lower line = "y").
Proof.
  pose proof (quiet_prepare env st) as Hq.
  unfold connect_github, try_except, bind, raise.
  destruct (connect_github_prepare env st) as [[[p|]|e] st1]; cbn in Hq;
    [|by left..].
  unfold confirm_and_connect, try_except, bind, input_with_alarm, input.
  destruct (alarm_fires env (log st1)) eqn:Halarm.
  { left. cbn. by apply quiet_input. }
  destruct (stdin_line env (log st1)) as [line|] eqn:Hline.
  2:{ left. cbn. by apply quiet_input. }
  destruct (String.eqb_spec (PyStr.lower line) "y") as [Hy|Hy].
  { right. eauto 10. }
  left. destruct (String.eqb (PyStr.lower line) "n"); cbn; by apply quiet_input.
Qed.

Lemma record_github_key_cases env st :
  match stored_record (store st) with
  | JObj record =>
      record_github_key env st
        = (Ret tt, with_config (JObj (github_recorded (now_iso env (log st)) record))
                     (ensure_dir st))
  | _ => ∃ e, record_github_key env st = (Raise e, ensure_dir st)
  end.
Proof.
  unfold record_github_key, bind, lift, isoformat_now. rewrite load_config_eq.
  destruct (stored_record (store st)) as [| | | | |record]; cbn; eauto.
  rewrite save_config_eq. do 3 f_equal. unfold ensure_dir. by destruct (store st).
Qed.





Lemma record_github_key_reads env st :
  match (record_github_key env;; mret true) st with
  | (Ret true, _) => True
  | (_, st') => reads_only st st'
  end.
Proof.
  unfold mbind, M_bind, bind.
  pose proof (record_github_key_cases env st) as Hcases.
  destruct (stored_record (store st)) as [| | | | |record];
    [destruct Hcases as [e ->]; unfold ensure_dir; destruct (store st) eqn:Hs;
       (split; [done|]); [by left|right; by split]..|].
  by rewrite Hcases.
Qed.

Lemma reads_only_after st0 st st' :
  untouched st0 st → reads_only st st' → reads_only st0 st'.
Proof. intros [Hs Hg] [Hg' Hs']. split; [congruence|]. by rewrite <- Hs. Qed.

Lemma verify_or_add_reads env p st :
  match verify_or_add env p st with
  | (Ret true, _) => True
  | (_, st') => reads_only st st'
  end.
Proof.
  assert (Hrec : ∀ st1, untouched st st1 →
            match (record_github_key env;; mret true) st1 with
            | (Ret true, _) => True
            | (_, st') => reads_only st st'
            end).
  { intros st1 Hu. pose proof (record_github_key_reads env st1) as H.
    destruct ((record_github_key env;; mret true) st1) as [[[|]|e] st2]; [done|..];
      by eapply reads_only_after. }
  unfold verify_or_add, bind.
  match goal with |- context [requests_get env ?u ?h st] =>
    pose proof (keeps_requests_send env
                  {| req_method := GET; req_url := u; req_headers := h; req_json := None |} st)
      as H1;
    change (requests_send env _ st) with (requests_get env u h st) in H1;
    destruct (requests_get env u h st) as [[response|e] st1] end; cbn in H1;
    [|by apply untouched_reads_only].
  assert (Hadd : ∀ st2, untouched st st2 →
            match (let* add_key_response :=
               requests_post env gpg_keys_url (prep_headers p)
                 (JObj (<["armored_public_key" := JStr (prep_public_key p)]>
                       (<["title" := JStr ("GPG Key " +:+ PyStr.take 8 (prep_key_id_hex p)
                                            +:+ " - " +:+ prep_username p)]> ∅))) in
             if (status_code add_key_response =? 201)%Z
             then record_github_key env;; mret true
             else
               let* body := lift (response_json add_key_response) in
               let* error_msg := lift (py_get body "message" (JStr "Unknown error")) in
               lift (py_contains "read:gpg_key" error_msg);;
               mret false) st2 with
            | (Ret true, _) => True
            | (_, st') => reads_only st st'
            end).
  { intros st2 Hu2. unfold bind, mbind, M_bind, bind.
    match goal with |- context [requests_post env ?u ?h ?d st2] =>
      pose proof (keeps_requests_send env
                    {| req_method := POST; req_url := u; req_headers := h;
                       req_json := Some d |} st2) as H2;
      change (requests_send env _ st2) with (requests_post env u h d st2) in H2;
      destruct (requests_post env u h d st2) as [[response2|e] st3] end; cbn in H2.
    2:{ apply untouched_reads_only. by etrans. }
    assert (Hu3 : untouched st st3) by (etrans; eassumption).
    destruct (status_code response2 =? 201)%Z; [by apply Hrec|].
    unfold lift.
    destruct (response_json response2) as [body|e]; [|by apply untouched_reads_only].
    destruct (py_get body "message" (JStr "Unknown error")) as [msg|e];
      [|by apply untouched_reads_only].
    destruct (py_contains "read:gpg_key" msg) as [c|e]; by apply untouched_reads_only. }
  destruct (status_code response =? 200)%Z; [|by apply Hadd].
  unfold lift.
  destruct (response_json response) as [existing|e]; [|by apply untouched_reads_only].
  destruct (py_iter existing) as [items|e]; [|by apply untouched_reads_only].
  destruct (find_key_id items (prep_key_id_hex p)) as [[|]|e];
    [by apply Hrec|by apply Hadd|by apply untouched_reads_only].
Qed.

(** X13.  [connect_github] writes only on success: whenever it does not
    return [True] (it returns [False] or raises), git's configuration is
    what it was and the configuration file has not been written; at most the
    missing configuration directory has been created. *)
Theorem connect_github_failure_writes_nothing env st r st' :
  connect_github env st = (r, st') →
  r ≠ Ret true →
  reads_only st st'.
Proof.
  pose proof (keeps_connect_github_prepare env st) as Hprep.
  unfold connect_github, try_except, bind, raise.
  destruct (connect_github_prepare env st) as [[[p|]|e] st1]; cbn in Hprep.
  2,3: intros [= <- <-] _; by apply untouched_reads_only.
  unfold confirm_and_connect, try_except, bind.
  pose proof (keeps_input_with_alarm env st1) as Hin.
  destruct (input_with_alarm env st1) as [[line|e] st2]; cbn in Hin.
  2:{ assert (untouched st st2) by (by etrans).
      destruct (is_TimeoutError e); intros [= <- <-] _; by apply untouched_reads_only. }
  assert (Hu : untouched st st2) by (etrans; eassumption).
  destruct (String.eqb (PyStr.lower line) "y").
  2:{ destruct (String.eqb (PyStr.lower line) "n"); intros [= <- <-] _;
        by apply untouched_reads_only. }
  pose proof (verify_or_add_reads env p st2) as Hv.
  destruct (verify_or_add env p st2) as [[[|]|e] st3].
  - by intros [= <- <-] Hr.
  - intros [= <- <-] _. by eapply reads_only_after.
  - destruct (is_TimeoutError e); intros [= <- <-] _; by eapply reads_only_after.
Qed.

(** X13 at a concrete input. *)
Lemma connect_github_failure_writes_nothing_witness :
  connect_github timeout_env configured_state
    = (Ret false, record_event EvInput timeout_prompt_state) ∧
  reads_only configured_state (record_event EvInput timeout_prompt_state).
Proof.
  assert (H : connect_github timeout_env configured_state
              = (Ret false, record_event EvInput timeout_prompt_state))
    by (vm_compute; reflexivity).
  split; [exact H|].
  by apply (connect_github_failure_writes_nothing _ _ _ _ H).
Defined.

(** ** [connect_to_github] *)



Lemma get_gpg_key_details_log env key_id st :
  log (get_gpg_key_details env key_id st).2
    = (log st ++ [EvRun ["gpg"; "--list-secret-keys"; "--keyid-format=long"]])%list.
Proof.
  unfold get_gpg_key_details, try_except, bind, lift. rewrite subprocess_run_gpg.
  destruct (gpg_tool env (log st) _) as [rc o e|msg]; [|done].
  destruct (rc =? 0)%Z; [|done]. cbn [stdout].
  destruct (key_details_loop _ _ _) as [r|e']; [done|].
  by destruct (is_CalledProcessError e').
Qed.



Lemma validate_token_rejected env headers st :
  token_rejected (http env (log st) (listing_request headers)) →
  validate_token env headers st
    = (Ret (inl false), record_event (EvHttp (listing_request headers)) st).
Proof.
  unfold token_rejected, validate_token, try_except, bind, requests_get, requests_send.
  fold (listing_request headers).
  destruct (http env (log st) (listing_request headers)) as [r|msg]; [|done].
  intros [->| ->]; reflexivity.
Qed.

(** X15.  When GitHub turns the token down (the request for the list of keys
    fails, or is answered 401 or 403), [connect_to_github] returns [False]
    and the key is not posted: that one request is the last thing it
    does. *)
Theorem connect_to_github_token_rejected env key_id st :
  (∀ hist headers, token_rejected (http env hist (listing_request headers))) →
  ∃ st',
    connect_to_github env key_id st = (Ret false, st') ∧
    adds_only not_post st st'.
Proof.
  intros Hrej. unfold connect_to_github, try_except, bind, lift.
  pose proof (get_gpg_key_details_log env key_id st) as Hlog1.
  assert (Hrun : ∀ argv, not_post (EvRun argv)) by done.
  destruct (get_gpg_key_details env key_id st) as [[details|e] st1]; cbn in Hlog1.
  2:{ eexists. split; [reflexivity|]. exists [EvRun long_listing_command].
      split; [done|by repeat constructor]. }
  assert (H1 : adds_only not_post st st1).
  { exists [EvRun long_listing_command]. split; [done|by repeat constructor]. }
  destruct (negb (truthy (JObj details))); [eauto|].
  pose proof (keeps_adds_subprocess_run not_post env
                ["gpg"; "--armor"; "--export"; key_id] true (Hrun _) st1) as H2.
  destruct (subprocess_run env _ true st1) as [[result|e] st2]; cbn in H2.
  2:{ eexists. split; [reflexivity|]. by etrans. }
  pose proof (keeps_adds_subprocess_run not_post env
                ["gpg"; "--fingerprint"; key_id] true (Hrun _) st2) as H3.
  destruct (subprocess_run env _ true st2) as [[fingerprint_result|e] st3]; cbn in H3.
  2:{ eexists. split; [reflexivity|]. etrans; [|exact H3]. by etrans. }
  assert (H13 : adds_only not_post st st3) by (etrans; [|exact H3]; by etrans).
  destruct (scan_key_fingerprint _) as [fingerprint|e]; [|eauto].
  assert (H4 : adds_only not_post st3 (input env st3).2).
  { unfold input. destruct (stdin_line env (log st3)); by apply adds_only_record. }
  destruct (input env st3) as [[pat|e] st4]; cbn in H4.
  2:{ eexists. split; [reflexivity|]. by etrans. }
  rewrite validate_token_rejected by apply Hrej.
  eexists. split; [reflexivity|].
  etrans; [exact H13|]. etrans; [exact H4|]. by apply adds_only_record.
Qed.

(** X15 at a concrete input. *)
Lemma connect_to_github_token_rejected_witness :
  (∀ hist headers, token_rejected (http jane_env hist (listing_request headers))) ∧
  ∃ st',
    connect_to_github jane_env jane_key fresh_state = (Ret false, st') ∧
    adds_only not_post fresh_state st'.
Proof.
  assert (H : ∀ hist headers, token_rejected (http jane_env hist (listing_request headers)))
    by (intros hist headers; exact I).
  split; [exact H|].
  exact (connect_to_github_token_rejected jane_env jane_key fresh_state H).
Defined.

(** ** [create_gpg_key] *)

Lemma adopt_key_returns env key_id email st result st' :
  adopt_key env key_id email st = (Ret result, st') →
  result = Some key_id ∧
  git_global st' = <["commit.gpgsign" := "true"]>
                     (<["user.signingkey" := key_id]> (git_global st)) ∧
  ∃ record updated created,
    stored_record (store st) = JObj record ∧
    stored_record (store st')
      = JObj (created_record key_id email updated created record).
Proof.
  unfold adopt_key, bind, lift, isoformat_now.
  destruct (configure_git_cases env key_id st) as [(msg & st1 & ->)| ->]; [done|].
  rewrite load_config_eq.
  change (store (signing_with key_id st)) with (store st).
  destruct (stored_record (store st)) as [| | | | |record] eqn:Hrec; try done.
  cbn [py_setitem]. unfold mbind, M_bind, bind. rewrite save_config_eq.
  intros [= <- <-]. split; [done|]. split.
  - cbn. unfold ensure_dir, signing_with. cbn. by destruct (store st).
  - by exists record, (now_iso env (log (ensure_dir (signing_with key_id st)))),
      (now_iso env (log (ensure_dir (signing_with key_id st)))).
Qed.

Lemma generate_and_list_cases env temp_name st :
  let st1 := record_event (EvRun (generate_command temp_name)) st in
  let st2 := record_event (EvRun secret_listing_command) st1 in
  match gpg_tool env (log st) (tail (generate_command temp_name)) with
  | LaunchError msg => generate_and_list env temp_name st = (Raise (OSError msg), st1)
  | Exited rc out err =>
      if (rc =? 0)%Z then
        match gpg_tool env (log st1) (tail secret_listing_command) with
        | LaunchError msg => generate_and_list env temp_name st = (Raise (OSError msg), st2)
        | Exited rc' out' err' =>
            if (rc' =? 0)%Z then
              generate_and_list env temp_name st
                = (Ret {| returncode := rc'; stdout := out'; stderr := err' |}, st2)
            else
              generate_and_list env temp_name st
                = (Raise (CalledProcessError secret_listing_command rc' err'), st2)
        end
      else
        generate_and_list env temp_name st
          = (Raise (CalledProcessError (generate_command temp_name) rc err), st1)
  end.
Proof.
  cbn zeta. unfold generate_and_list, mbind, M_bind, bind.
  unfold generate_command, secret_listing_command. rewrite subprocess_run_gpg.
  cbn [tail].
  destruct (gpg_tool env (log st) _) as [rc out err|msg]; [|done].
  destruct (rc =? 0)%Z; [|done].
  rewrite subprocess_run_gpg.
  destruct (gpg_tool env _ _) as [rc' out' err'|msg]; [|done].
  by destruct (rc' =? 0)%Z.
Qed.

(** X16.  [create_gpg_key] returns a key id only when all of this has
    happened: gpg has listed the secret keys and the id is column 5 of the
    first [sec] line that has one; git signs with that id; and the stored
    record, an object before, is that object with [gpg_key_id],
    [git_configured], [git_email] and the two time stamps updated, every
    other field kept.  Of the four arguments only the e-mail address reaches
    the record. *)
Theorem create_gpg_key_returns_configured_key env temp_name name email comment expire
    st key_id st' :
  create_gpg_key env temp_name name email comment expire st
    = (Returned (KeyId (Some key_id)), st') →
  (∃ hist out err,
     gpg_tool env hist (tail secret_listing_command) = Exited 0 out err ∧
     newest_key_id (PyStr.splitlines out) = Some key_id) ∧
  git_global st' = <["commit.gpgsign" := "true"]>
                     (<["user.signingkey" := key_id]> (git_global st)) ∧
  ∃ record updated created,
    stored_record (store st) = JObj record ∧
    stored_record (store st')
      = JObj (created_record key_id email updated created record).
Proof.
  unfold create_gpg_key.
  pose proof (generate_and_list_cases env temp_name st) as Hgen. cbn zeta in Hgen.
  destruct (gpg_tool env (log st) _) as [rc out0 err0|msg]; [|by rewrite Hgen].
  destruct (rc =? 0)%Z; [|by rewrite Hgen].
  destruct (gpg_tool env _ (tail secret_listing_command)) as [rc' out err|msg] eqn:Hlist;
    [|by rewrite Hgen].
  destruct (Z.eqb_spec rc' 0) as [->|_]; [|by rewrite Hgen].
  rewrite Hgen. unfold create_from_listing. cbn [stdout].
  destruct (newest_key_id (PyStr.splitlines out)) as [found|] eqn:Hfound; [|done].
  cbn [truthy_opt default id]. destruct (PyStr.nonempty found); [|done].
  cbn [negb].
  match goal with |- context [adopt_key env found email ?s] =>
    destruct (adopt_key env found email s) as [[result|e] st2] eqn:Hadopt end.
  - intros [= -> ->].
    apply adopt_key_returns in Hadopt as ([= ->] & Hgit & Hrec).
    split; [eauto|]. split; [exact Hgit|exact Hrec].
  - destruct (is_CalledProcessError e); [done|].
    by destruct (list_after_failure env _ st2) as [[keys|e'] st3].
Qed.

(** X16 at a concrete input. *)
Lemma create_gpg_key_returns_configured_key_witness :
  create_gpg_key creating_env batch_file "Jane Doe" "jane@example.com" "" "1y" fresh_state
    = (Returned (KeyId (Some jane_key)), jane_created_state) ∧
  git_global jane_created_state
    = <["commit.gpgsign" := "true"]> (<["user.signingkey" := jane_key]> ∅) ∧
  ∃ record updated created,
    stored_record (store fresh_state) = JObj record ∧
    stored_record (store jane_created_state)
      = JObj (created_record jane_key "jane@example.com" updated created record).
Proof.
  assert (H : create_gpg_key creating_env batch_file "Jane Doe" "jane@example.com" "" "1y"
                fresh_state = (Returned (KeyId (Some jane_key)), jane_created_state))
    by (vm_compute; reflexivity).
  split; [exact H|].
  exact (proj2 (create_gpg_key_returns_configured_key _ _ _ _ _ _ _ _ _ H)).
Defined.

(** X17.  When gpg exits with an error on the batch generation,
    [create_gpg_key] returns [None] after that one call: the keys are not
    listed, git is not configured and nothing is stored. *)
Theorem create_gpg_key_generation_fails env temp_name name email comment expire st
    rc out err :
  gpg_tool env (log st) (tail (generate_command temp_name)) = Exited rc out err →
  rc ≠ 0%Z →
  create_gpg_key env temp_name name email comment expire st
    = (Returned (KeyId None), record_event (EvRun (generate_command temp_name)) st).
Proof.
  intros Htool Hrc%Z.eqb_neq. unfold create_gpg_key.
  pose proof (generate_and_list_cases env temp_name st) as Hgen. cbn zeta in Hgen.
  rewrite Htool, Hrc in Hgen. by rewrite Hgen.
Qed.

(** X17 at a concrete input. *)
Lemma create_gpg_key_generation_fails_witness :
  gpg_tool jane_env (log fresh_state) (tail (generate_command batch_file))
    = Exited 2 "" "gpg: invalid option" ∧
  create_gpg_key jane_env batch_file "Jane Doe" "jane@example.com" "" "1y" fresh_state
    = (Returned (KeyId None), record_event (EvRun (generate_command batch_file)) fresh_state).
Proof.
  split; [reflexivity|].
  by apply (create_gpg_key_generation_fails jane_env batch_file "Jane Doe"
              "jane@example.com" "" "1y" fresh_state 2 "" "gpg: invalid option").
Defined.

(** X18.  When gpg cannot be started, for the generation or for the listing
    that follows it, the exception is not a [CalledProcessError] and reaches
    the second handler of [create_gpg_key], which reads the local [result]
    before it has been assigned: the call ends with that failure, not with
    a return value, and nothing has been configured or stored. *)
Theorem create_gpg_key_handler_without_result env temp_name name email comment expire st :
  let st1 := record_event (EvRun (generate_command temp_name)) st in
  (∃ msg, gpg_tool env (log st) (tail (generate_command temp_name)) = LaunchError msg) ∨
  (∃ out err msg,
     gpg_tool env (log st) (tail (generate_command temp_name)) = Exited 0 out err ∧
     gpg_tool env (log st1) (tail secret_listing_command) = LaunchError msg) →
  ∃ st',
    create_gpg_key env temp_name name email comment expire st = (RaisedUnbound, st') ∧
    untouched st st'.
Proof.
  intros st1 Hcase. unfold create_gpg_key.
  pose proof (generate_and_list_cases env temp_name st) as Hgen. cbn zeta in Hgen.
  destruct Hcase as [[msg Htool]|(out & err & msg & Htool & Hlist)].
  - rewrite Htool in Hgen. rewrite Hgen. eexists. split; [reflexivity|done].
  - rewrite Htool in Hgen. cbn [Z.eqb] in Hgen. fold st1 in Hgen.
    rewrite Hlist in Hgen. rewrite Hgen. eexists. split; [reflexivity|done].
Qed.

(** X18 at a concrete input. *)
Lemma create_gpg_key_handler_without_result_witness :
  gpg_tool no_gpg_env (log fresh_state) (tail (generate_command batch_file))
    = LaunchError "[Errno 2] No such file or directory: 'gpg'" ∧
  ∃ st',
    create_gpg_key no_gpg_env batch_file "Jane Doe" "jane@example.com" "" "1y" fresh_state
      = (RaisedUnbound, st') ∧
    untouched fresh_state st'.
Proof.
  split; [reflexivity|].
  apply (create_gpg_key_handler_without_result no_gpg_env batch_file "Jane Doe"
           "jane@example.com" "" "1y" fresh_state).
  left. by eexists.
Defined.

(** ** The command line *)

Lemma status_git_check_details env key_id status st status' st' :
  status_git_check env key_id status st = (Ret status', st') →
  status' !! "key_details" = status !! "key_details".
Proof.
  unfold status_git_check, try_except, bind.
  destruct (git_get env "user.signingkey" st) as [[result|e] st1].
  - destruct (String.eqb _ key_id); intros [= <- _]; by simplify_map_eq.
  - destruct (is_CalledProcessError e); [|done]. by intros [= <- _].
Qed.

Lemma status_until_github_details env st reached st' :
  status_until_github env st = (Ret reached, st') →
  match reached with
  | inl status => status !! "key_details" = None
  | inr (_, status) => ∃ details, status !! "key_details" = Some (JObj details)
  end.
Proof.
  unfold status_until_github, bind.
  destruct (check_gpg_installed env st) as [[[|]|e] st1]; [| |done].
  2:{ by intros [= <- _]. }
  destruct (get_gpg_key_id env st1) as [[[key_id|]|e] st2]; [| |done].
  2:{ by intros [= <- _]. }
  destruct (PyStr.nonempty key_id); [|by intros [= <- _]].
  destruct (get_gpg_key_details env key_id st2) as [[details|e] st3]; [|done].
  destruct (status_git_check env key_id _ st3) as [[status|e] st4] eqn:Hgit; [|done].
  intros [= <- _]. apply status_git_check_details in Hgit. rewrite Hgit.
  exists details. by simplify_map_eq.
Qed.

Lemma status_github_check_details env key_id status st status' st' :
  status_github_check env key_id status st = (Ret status', st') →
  status' !! "key_details" = status !! "key_details".
Proof.
  unfold status_github_check, github_probe, try_except, bind, lift.
  destruct (verify_github_key env key_id st) as [[details|e] st1].
  - destruct (getitem details "public_key") as [public_key|e].
    + destruct (join_empty public_key) as [joined|e]; intros [= <- _]; by simplify_map_eq.
    + intros [= <- _]. by simplify_map_eq.
  - intros [= <- _]. by simplify_map_eq.
Qed.

Lemma status_load_cached_details status st status' st' :
  status_load_cached status st = (Ret status', st') →
  status' !! "key_details" = status !! "key_details".
Proof.
  unfold status_load_cached, bind, lift. rewrite load_config_eq.
  destruct (py_get _ "github_key_added" _) as [added|e]; [|done].
  destruct (py_get _ "last_config_update" _) as [updated|e]; [|done].
  intros [= <- _]. by simplify_map_eq.
Qed.

Lemma check_gpg_status_details env st snapshot st' :
  check_gpg_status env st = (Ret snapshot, st') → details_dict snapshot.
Proof.
  unfold check_gpg_status, try_except, bind, details_dict.
  destruct (status_until_github env st) as [[[status|[key_id status]]|e] st1] eqn:Hreach.
  - apply status_until_github_details in Hreach. intros [= <- _].
    rewrite Hreach. by eexists.
  - apply status_until_github_details in Hreach as [details Hd].
    destruct (status_github_check env key_id status st1) as [[status2|e] st2] eqn:Hgh.
    + apply status_github_check_details in Hgh.
      destruct (status_load_cached status2 st2) as [[status3|e] st3] eqn:Hload.
      * apply status_load_cached_details in Hload. intros [= <- _].
        rewrite Hload, Hgh, Hd. by eexists.
      * intros [= <- _]. by eexists.
    + intros [= <- _]. by eexists.
  - intros [= <- _]. by eexists.
Qed.

(** X19.  Whatever the command, when the probe for gpg does not succeed
    ([gpg --version] exits with an error or cannot be started) [main] exits
    with status 1 after that one call; only [--verbose-help] is served before
    the probe. *)
Theorem main_without_gpg env temp_name args st r st1 :
  arg_verbose_help args = false →
  check_gpg_installed env st = (r, st1) →
  r ≠ Ret true →
  main env temp_name args st = (Ret 1%Z, record_event (EvRun ["gpg"; "--version"]) st).
Proof.
  intros Hhelp Hprobe Hr. unfold main. rewrite Hhelp. unfold try_except, bind.
  destruct (check_gpg_installed_cases env st) as [H|[H|[msg H]]];
    rewrite H in Hprobe; simplify_eq; by rewrite H.
Qed.

(** X19 at a concrete input. *)
Lemma main_without_gpg_witness :
  check_gpg_installed no_gpg_env configured_state
    = (Raise (OSError "[Errno 2] No such file or directory: 'gpg'"),
       record_event (EvRun ["gpg"; "--version"]) configured_state) ∧
  main no_gpg_env batch_file (delete_args (Some jane_key)) configured_state
    = (Ret 1%Z, record_event (EvRun ["gpg"; "--version"]) configured_state).
Proof.
  assert (H : check_gpg_installed no_gpg_env configured_state
              = (Raise (OSError "[Errno 2] No such file or directory: 'gpg'"),
                 record_event (EvRun ["gpg"; "--version"]) configured_state))
    by reflexivity.
  split; [exact H|].
  by apply (main_without_gpg no_gpg_env batch_file (delete_args (Some jane_key))
              configured_state _ _ eq_refl H).
Defined.

(** X20.  With [--delete-key -k K] and gpg installed, the exit status of
    [main] tells whether the key was deleted: 0 exactly when
    [delete_gpg_key] returned [True], 1 when it raised.  As it never returns
    [False], the branch of [main] for that answer is never taken. *)
Theorem main_delete_key_exit_status env temp_name args st out err key_id :
  let st1 := record_event (EvRun ["gpg"; "--version"]) st in
  arg_verbose_help args = false →
  arg_create_key args = false →
  arg_list_keys args = false →
  arg_delete_key args = true →
  arg_key_id args = Some key_id →
  PyStr.nonempty key_id = true →
  gpg_tool env (log st) ["--version"] = Exited 0 out err →
  ∃ code,
    main env temp_name args st = (Ret code, (delete_gpg_key env key_id st1).2) ∧
    (code = 0%Z ∧ (delete_gpg_key env key_id st1).1 = Ret true ∨
     code = 1%Z ∧ ∃ msg, (delete_gpg_key env key_id st1).1
                          = Raise (RuntimeError ("Failed to delete GPG key: " +:+ msg))).
Proof.
  intros st1 Hhelp Hcreate Hlist Hdelete Hkey Hne Hversion.
  unfold main. rewrite Hhelp, Hcreate, Hlist, Hdelete, Hkey. cbn [truthy_opt default id].
  rewrite Hne. cbn [negb]. unfold try_except, bind, mbind, M_bind, bind.
  rewrite (check_gpg_installed_true env st out err Hversion). fold st1. cbn [negb].
  destruct (delete_gpg_key env key_id st1) as [[b|e] st2] eqn:Hrun.
  - apply delete_gpg_key_result in Hrun as ->. exists 0%Z. split; [done|]. by left.
  - apply delete_gpg_key_error in Hrun as [msg ->]. exists 1%Z. split; [done|].
    right. eauto.
Qed.

(** X20 at a concrete input. *)
Lemma main_delete_key_exit_status_witness :
  gpg_tool jane_env (log configured_state) ["--version"] = Exited 0 "gpg (GnuPG) 2.4.4" "" ∧
  ∃ code,
    main jane_env batch_file (delete_args (Some jane_key)) configured_state
      = (Ret code, (delete_gpg_key jane_env jane_key
                      (record_event (EvRun ["gpg"; "--version"]) configured_state)).2) ∧
    (code = 0%Z ∧
       (delete_gpg_key jane_env jane_key
          (record_event (EvRun ["gpg"; "--version"]) configured_state)).1 = Ret true ∨
     code = 1%Z ∧
       ∃ msg, (delete_gpg_key jane_env jane_key
                 (record_event (EvRun ["gpg"; "--version"]) configured_state)).1
              = Raise (RuntimeError ("Failed to delete GPG key: " +:+ msg))).
Proof.
  split; [reflexivity|].
  apply (main_delete_key_exit_status jane_env batch_file (delete_args (Some jane_key))
           configured_state "gpg (GnuPG) 2.4.4" "" jane_key); reflexivity.
Defined.

Lemma status_lookups_succeed env st :
  ∃ snapshot st' details,
    check_gpg_status env st = (Ret snapshot, st') ∧
    reads_only st st' ∧
    stored_record (store st') = stored_record (store st) ∧
    py_get (JObj snapshot) "key_details" (JObj ∅) = Ret (JObj details).
Proof.
  destruct (check_gpg_status_returns env st) as (snapshot & st' & Hrun).
  pose proof (keeps_reads_check_gpg_status env st) as Hkeep.
  rewrite Hrun in Hkeep. cbn in Hkeep.
  destruct (check_gpg_status_details env st snapshot st' Hrun) as [details Hd].
  exists snapshot, st', details. split; [done|]. split; [done|]. split.
  - destruct Hkeep as [_ [->|[Hnone ->]]]; [done|]. by rewrite Hnone.
  - cbn. by rewrite Hd.
Qed.

(** X21.  With [--git-config -k K], gpg installed and [configure_git]
    returning [True], [main] exits with 0 and git signs with [K] as it was
    typed: the id is not compared with the keys gpg has.  The status shown
    afterwards is only read: the stored record is what it was, so the
    configuration file does not learn of the new signing key. *)
Theorem main_git_config_with_key env temp_name args st out err key_id st2 :
  let st1 := record_event (EvRun ["gpg"; "--version"]) st in
  arg_verbose_help args = false →
  arg_create_key args = false →
  arg_list_keys args = false →
  arg_delete_key args = false →
  arg_git_config args = true →
  arg_key_id args = Some key_id →
  PyStr.nonempty key_id = true →
  gpg_tool env (log st) ["--version"] = Exited 0 out err →
  configure_git env key_id st1 = (Ret true, st2) →
  ∃ st',
    main env temp_name args st = (Ret 0%Z, st') ∧
    git_global st' = <["commit.gpgsign" := "true"]>
                       (<["user.signingkey" := key_id]> (git_global st)) ∧
    stored_record (store st') = stored_record (store st).
Proof.
  intros st1 Hhelp Hcreate Hlist Hdelete Hgit Hkey Hne Hversion Hconf.
  unfold main, main_git_config, choose_key_id.
  rewrite Hhelp, Hcreate, Hlist, Hdelete, Hgit, Hkey. cbn [truthy_opt default id].
  rewrite Hne. cbn [negb]. unfold try_except, bind, mbind, M_bind, bind, lift.
  rewrite (check_gpg_installed_true env st out err Hversion). fold st1. cbn [negb].
  cbn [mret M_ret]. rewrite Hconf.
  destruct (status_lookups_succeed env st2)
    as (snapshot & st' & details & -> & [Hg _] & Hrec & Hget).
  apply configure_git_ok in Hconf as ->.
  exists st'. split; [|split; [by rewrite Hg|by rewrite Hrec]].
  destruct (truthy (JObj snapshot)); [|done]. by rewrite Hget.
Qed.

(** X21 at a concrete input. *)
Lemma main_git_config_with_key_witness :
  gpg_tool jane_env (log fresh_state) ["--version"] = Exited 0 "gpg (GnuPG) 2.4.4" "" ∧
  (∃ st2, configure_git jane_env "0000000000000000"
            (record_event (EvRun ["gpg"; "--version"]) fresh_state) = (Ret true, st2)) ∧
  listed_secret_ids jane_long_listing = [jane_key] ∧
  ∃ st',
    main jane_env batch_file (git_config_args (Some "0000000000000000")) fresh_state
      = (Ret 0%Z, st') ∧
    git_global st' = <["commit.gpgsign" := "true"]>
                       (<["user.signingkey" := "0000000000000000"]> ∅) ∧
    stored_record (store st') = stored_record (store fresh_state).
Proof.
  split; [reflexivity|]. split; [by eexists|]. split; [vm_compute; reflexivity|].
  apply (main_git_config_with_key jane_env batch_file
           (git_config_args (Some "0000000000000000")) fresh_state
           "gpg (GnuPG) 2.4.4" "" "0000000000000000"
           (signing_with "0000000000000000"
              (record_event (EvRun ["gpg"; "--version"]) fresh_state)));
    reflexivity.
Defined.

(** X22.  With [--status-check] and gpg installed, [main] exits with 0
    whatever the status is, also when [check_gpg_status] reports an error,
    and the run has written nothing: git's configuration is the same and the
    configuration directory is the same or newly created and empty. *)
Theorem main_status_check_exits_zero env temp_name args st out err :
  arg_verbose_help args = false →
  arg_create_key args = false →
  arg_list_keys args = false →
  arg_delete_key args = false →
  arg_git_config args = false →
  arg_status_check args = true →
  gpg_tool env (log st) ["--version"] = Exited 0 out err →
  ∃ st',
    main env temp_name args st = (Ret 0%Z, st') ∧
    reads_only st st'.
Proof.
  intros Hhelp Hcreate Hlist Hdelete Hgit Hstatus Hversion.
  unfold main, main_status_check.
  rewrite Hhelp, Hcreate, Hlist, Hdelete, Hgit, Hstatus.
  unfold try_except, bind, lift.
  rewrite (check_gpg_installed_true env st out err Hversion). cbn [negb].
  destruct (status_lookups_succeed env (record_event (EvRun ["gpg"; "--version"]) st))
    as (snapshot & st' & details & -> & Hread & _ & ->).
  exists st'. split; [done|].
  etrans; [|exact Hread]. by apply untouched_reads_only, untouched_record_event.
Qed.

(** X22 at a concrete input. *)
Lemma main_status_check_exits_zero_witness :
  gpg_tool broken_export_env (log configured_state) ["--version"]
    = Exited 0 "gpg (GnuPG) 2.4.4" "" ∧
  ∃ st',
    main broken_export_env batch_file status_check_args configured_state = (Ret 0%Z, st') ∧
    reads_only configured_state st'.
Proof.
  split; [reflexivity|].
  apply (main_status_check_exits_zero broken_export_env batch_file status_check_args
           configured_state "gpg (GnuPG) 2.4.4" ""); reflexivity.
Defined.

(** X23.  With [--create-key] and the four options given, when gpg exits
    with an error on the generation, [main] asks nothing, reports the
    failure and still exits with status 0: the run is the probe and the
    failed generation, and nothing is configured or stored. *)
Theorem main_create_key_failure_exits_zero env temp_name args st out err
    name email comment expire rc out2 err2 :
  let st1 := record_event (EvRun ["gpg"; "--version"]) st in
  arg_verbose_help args = false →
  arg_create_key args = true →
  arg_name args = Some name ∧ PyStr.nonempty name = true →
  arg_email args = Some email ∧ PyStr.nonempty email = true →
  arg_comment args = Some comment ∧ PyStr.nonempty comment = true →
  arg_expire args = Some expire ∧ PyStr.nonempty expire = true →
  gpg_tool env (log st) ["--version"] = Exited 0 out err →
  gpg_tool env (log st1) (tail (generate_command temp_name)) = Exited rc out2 err2 →
  rc ≠ 0%Z →
  main env temp_name args st
    = (Ret 0%Z, record_event (EvRun (generate_command temp_name)) st1).
Proof.
  intros st1 Hhelp Hcreate [Hn Hn'] [He He'] [Hc Hc'] [Hx Hx'] Hversion Hgen Hrc%Z.eqb_neq.
  unfold main, main_create_key, or_input.
  rewrite Hhelp, Hcreate, Hn, He, Hc, Hx. cbn [truthy_opt default id].
  rewrite Hn', He', Hc', Hx'. unfold try_except, bind.
  rewrite (check_gpg_installed_true env st out err Hversion). fold st1. cbn [negb].
  cbn [mret M_ret]. unfold create_gpg_key.
  pose proof (generate_and_list_cases env temp_name st1) as Hcases. cbn zeta in Hcases.
  rewrite Hgen, Hrc in Hcases. by rewrite Hcases.
Qed.

(** X23 at a concrete input. *)
Lemma main_create_key_failure_exits_zero_witness :
  gpg_tool jane_env (log fresh_state) ["--version"] = Exited 0 "gpg (GnuPG) 2.4.4" "" ∧
  gpg_tool jane_env (log (record_event (EvRun ["gpg"; "--version"]) fresh_state))
    (tail (generate_command batch_file)) = Exited 2 "" "gpg: invalid option" ∧
  main jane_env batch_file
    (create_args (Some "Jane Doe") (Some "jane@example.com") (Some "work") (Some "1y"))
    fresh_state
    = (Ret 0%Z, record_event (EvRun (generate_command batch_file))
                  (record_event (EvRun ["gpg"; "--version"]) fresh_state)).
Proof.
  split; [reflexivity|]. split; [reflexivity|].
  by apply (main_create_key_failure_exits_zero jane_env batch_file
              (create_args (Some "Jane Doe") (Some "jane@example.com") (Some "work")
                 (Some "1y"))
              fresh_state "gpg (GnuPG) 2.4.4" "" "Jane Doe" "jane@example.com" "work" "1y"
              2 "" "gpg: invalid option").
Defined.

(** ** What is written, and when *)

(** X24.  [connect_to_github], the function the command line calls for
    [--connect-github], never raises and never writes: whatever gpg, the
    user and GitHub answer, it returns a boolean, and git's configuration
    and the configuration store are as before.  A successful upload is not
    recorded. *)
Theorem connect_to_github_writes_nothing env key_id st :
  ∃ answer st',
    connect_to_github env key_id st = (Ret answer, st') ∧
    untouched st st'.
Proof.
  pose proof (keeps_connect_to_github env key_id st) as Hkeep.
  unfold connect_to_github, try_except in *.
  match goal with |- context [match ?body st with _ => _ end] =>
    destruct (body st) as [[answer|e] st'] end; cbn in *; eauto.
Qed.

Global Instance same_store_preorder : PreOrder same_store.
Proof. split; [by intros st|]. intros a b c H1 H2. unfold same_store in *. congruence. Qed.

Lemma keeps_store_subprocess_run env argv check :
  keeps same_store (subprocess_run env argv check).
Proof.
  intros st. unfold subprocess_run, run_tool, same_store.
  destruct argv as [|prog args]; [done|].
  destruct (String.eqb prog "gpg").
  { destruct (gpg_tool env (log st) args) as [rc out err|msg]; [|done].
    by destruct (check && negb (rc =? 0)%Z). }
  destruct (String.eqb prog "git"); [|done].
  destruct (git_spawn env (log st)); [done|].
  unfold git_exec.
  destruct (parse_git args) as [key|key|key value|]; cbn;
    try destruct (git_global st !! key); cbn;
    by destruct (check && _).
Qed.

Lemma keeps_store_git_get env key : keeps same_store (git_get env key).
Proof. apply keeps_store_subprocess_run. Qed.

Lemma keeps_store_input env : keeps same_store (input env).
Proof. intros st. unfold input. by destruct (stdin_line env (log st)). Qed.

Lemma keeps_store_configure_git env key_id : keeps same_store (configure_git env key_id).
Proof.
  unfold configure_git.
  apply keeps_try; [|intros e h He; destruct (is_CalledProcessError e); simplify_eq;
                      apply keeps_ret].
  repeat (apply keeps_bind; [apply keeps_store_subprocess_run|intros _]).
  apply keeps_ret.
Qed.

#[export] Hint Resolve keeps_store_subprocess_run keeps_store_git_get keeps_store_input
  keeps_store_configure_git : frame.

Lemma keeps_store_mark_signing_key env git_key seen todo :
  keeps same_store (mark_signing_key env git_key seen todo).
Proof.
  revert seen. induction todo as [|key rest IH]; intros seen; cbn [mark_signing_key]; frame.
Qed.

#[export] Hint Resolve keeps_store_mark_signing_key : frame.

Lemma keeps_store_list_after_failure env result :
  keeps same_store (list_after_failure env result).
Proof.
  unfold list_after_failure, mark_configured, offer_configuration. frame.
Qed.

Lemma same_store_read st st' : same_store st st' → store_read st st'.
Proof. intros H. by left. Qed.

Lemma store_read_after st0 st st' :
  same_store st0 st → store_read st st' → store_read st0 st'.
Proof. unfold same_store, store_read. intros H. by rewrite H. Qed.

Lemma store_read_then st0 st st' :
  store_read st0 st → same_store st st' → store_read st0 st'.
Proof. unfold same_store, store_read. intros H ->. exact H. Qed.

Lemma store_read_ensure_dir st : store_read st (ensure_dir st).
Proof.
  unfold store_read, ensure_dir. destruct (store st) eqn:Hs; [by left|]. right. by split.
Qed.

Lemma adopt_key_store env key_id email st :
  match adopt_key env key_id email st with
  | (Ret (Some _), _) => True
  | (_, st') => store_read st st'
  end.
Proof.
  unfold adopt_key, bind, lift, isoformat_now.
  pose proof (keeps_store_configure_git env key_id st) as Hconf.
  destruct (configure_git env key_id st) as [[[|]|e] st1]; cbn in Hconf;
    [|by apply same_store_read..].
  rewrite load_config_eq.
  assert (Hdir : store_read st (ensure_dir st1))
    by (eapply store_read_after; [exact Hconf|apply store_read_ensure_dir]).
  destruct (stored_record (store st1)) as [| | | | |record]; try exact Hdir.
  cbn [py_setitem]. unfold mbind, M_bind, bind. by rewrite save_config_eq.
Qed.

Lemma keeps_store_generate_and_list env temp_name :
  keeps same_store (generate_and_list env temp_name).
Proof. unfold generate_and_list. frame. Qed.

(** X25.  [create_gpg_key] writes the configuration file only when it
    returns a key id.  Whenever it ends otherwise (with [None], with the
    list its second handler builds, or with an exception), the
    configuration directory holds what it held, or was missing and has been
    created empty. *)
Theorem create_gpg_key_stores_only_on_success env temp_name name email comment expire
    st r st' :
  create_gpg_key env temp_name name email comment expire st = (r, st') →
  (∀ key_id, r ≠ Returned (KeyId (Some key_id))) →
  store_read st st'.
Proof.
  unfold create_gpg_key. intros Hrun Hr.
  pose proof (keeps_store_generate_and_list env temp_name st) as Hgen.
  destruct (generate_and_list env temp_name st) as [[result|e] st1]; cbn in Hgen.
  2:{ destruct (is_CalledProcessError e); simplify_eq; by apply same_store_read. }
  unfold create_from_listing in Hrun.
  destruct (negb (truthy_opt (newest_key_id (PyStr.splitlines (stdout result))))).
  { cbn in Hrun. simplify_eq. by apply same_store_read. }
  pose proof (adopt_key_store env
                (default "" (newest_key_id (PyStr.splitlines (stdout result)))) email st1)
    as Hadopt.
  destruct (adopt_key env _ email st1) as [[[key_id|]|e] st2].
  - simplify_eq. by destruct (Hr key_id).
  - simplify_eq. by eapply store_read_after.
  - destruct (is_CalledProcessError e); [simplify_eq; by eapply store_read_after|].
    pose proof (keeps_store_list_after_failure env result st2) as Hlist.
    destruct (list_after_failure env result st2) as [[keys|e'] st3]; cbn in Hlist;
      simplify_eq; (eapply store_read_then; [|exact Hlist]); by eapply store_read_after.
Qed.

(** X25 at a concrete input. *)
Lemma create_gpg_key_stores_only_on_success_witness :
  create_gpg_key no_git_creating_env batch_file "Jane Doe" "jane@example.com" "" "1y"
    configured_state
    = (Raised (OSError "[Errno 2] No such file or directory: 'git'"), no_git_created_state) ∧
  store_read configured_state no_git_created_state.
Proof.
  assert (H : create_gpg_key no_git_creating_env batch_file "Jane Doe" "jane@example.com"
                "" "1y" configured_state
              = (Raised (OSError "[Errno 2] No such file or directory: 'git'"),
                 no_git_created_state))
    by (vm_compute; reflexivity).
  split; [exact H|].
  by apply (create_gpg_key_stores_only_on_success _ _ _ _ _ _ _ _ _ H).
Defined.

(** ** The GitHub user name *)

Lemma git_get_value env key st :
  git_spawn env (log st) = None →
  git_get env key st =
    match git_global st !! key with
    | Some value =>
        (Ret {| returncode := 0; stdout := value +:+ newline; stderr := "" |},
         record_event (get_event key) st)
    | None =>
        (Raise (CalledProcessError ["git"; "config"; "--get"; key] 1 ""),
         record_event (get_event key) st)
    end.
Proof.
  intros Hspawn. unfold git_get, subprocess_run, run_tool.
  cbn [String.eqb Ascii.eqb Bool.eqb]. rewrite Hspawn.
  unfold git_exec. cbn [parse_git String.eqb Ascii.eqb Bool.eqb andb].
  cbn. by destruct (git_global st !! key).
Qed.

Lemma git_get_stripped env key st (fallback : string) :
  git_spawn env (log st) = None →
  PyStr.strip fallback = fallback →
  (git_global st !! key = None → fallback = "") →
  try_except
    (let* result := git_get env key in mret (PyStr.strip (stdout result)))
    (fun e => if is_CalledProcessError e then Some (mret fallback) else None) st
  = (Ret (git_value st key), record_event (get_event key) st).
Proof.
  intros Hspawn Hstrip Hnone. unfold try_except, bind, git_value.
  rewrite (git_get_value env key st Hspawn).
  destruct (git_global st !! key) as [value|];
    cbn [mret M_ret stdout is_CalledProcessError default].
  - by rewrite strip_newline.
  - rewrite Hnone by done. reflexivity.
Qed.

(** X26.  Where [connect_github] takes the GitHub user name from, when git
    can be started: git's [github.user] if it is set and not blank;
    otherwise git's [user.name], the committer's display name, if that is
    set and not blank; only otherwise the user is asked, and a blank answer
    ends [connect_github] with [False]. *)
Theorem find_github_username_precedence env st :
  let user := git_value st "github.user" in
  let name := git_value st "user.name" in
  let st1 := record_event (get_event "github.user") st in
  let st2 := record_event (get_event "user.name") st1 in
  (∀ hist, git_spawn env hist = None) →
  find_github_username env st =
    if PyStr.nonempty user then (Ret (Some user), st1)
    else if PyStr.nonempty name then (Ret (Some name), st2)
    else match stdin_line env (log st2) with
         | Some line =>
             (Ret (if PyStr.nonempty (PyStr.strip line) then Some (PyStr.strip line)
                   else None),
              record_event EvInput st2)
         | None => (Raise EOFError, record_event EvInput st2)
         end.
Proof.
  intros user name st1 st2 Hspawn. unfold find_github_username.
  unfold bind at 1. rewrite (git_get_stripped env "github.user" st "") by done.
  fold user st1. destruct (PyStr.nonempty user) eqn:Huser.
  { cbn [negb]. unfold bind. cbn [mret M_ret]. by rewrite Huser. }
  cbn [negb]. unfold bind at 1.
  assert (Hblank : user = "").
  { destruct user; [done|discriminate]. }
  rewrite (git_get_stripped env "user.name" st1 user); [| done | by rewrite Hblank | done].
  change (git_value st1 "user.name") with name. fold st2.
  destruct (PyStr.nonempty name) eqn:Hname; [done|].
  cbn [negb]. unfold bind, input.
  destruct (stdin_line env (log st2)) as [line|]; [|done].
  by destruct (PyStr.nonempty (PyStr.strip line)).
Qed.

(** X26 at a concrete input. *)
Lemma find_github_username_precedence_witness :
  (∀ hist, git_spawn upload_env hist = None) ∧
  git_value configured_state "github.user" = "" ∧
  find_github_username upload_env configured_state
    = (Ret (Some "Jane Doe"),
       record_event (get_event "user.name")
         (record_event (get_event "github.user") configured_state)).
Proof.
  assert (H : ∀ hist, git_spawn upload_env hist = None) by done.
  split; [exact H|]. split; [vm_compute; reflexivity|].
  exact (find_github_username_precedence upload_env configured_state H).
Defined.

(** ** Log rotation *)

Lemma rotate_backup_spec i (b : gmap Z string) j :
  b !! (i + 1)%Z = None →
  Logger.rotate_backup i b !! j =
    if decide (j = i) then None
    else if decide (j = (i + 1)%Z) then b !! i
    else b !! j.
Proof.
  intros Hfree. unfold Logger.rotate_backup.
  destruct (b !! i) as [content|] eqn:Hi.
  - destruct (decide (j = i)) as [->|Hji].
    + rewrite lookup_insert_ne by lia. apply lookup_delete_eq.
    + destruct (decide (j = (i + 1)%Z)) as [->|Hj1].
      * apply lookup_insert_eq.
      * rewrite lookup_insert_ne by done. by rewrite lookup_delete_ne.
  - destruct (decide (j = i)) as [->|Hji]; [done|].
    destruct (decide (j = (i + 1)%Z)) as [->|Hj1]; done.
Qed.

Lemma rotate_backups_spec n (b : gmap Z string) j :
  b !! (Z.of_nat n + 1)%Z = None →
  Logger.rotate_backups n b !! j =
    if decide (2 ≤ j ≤ Z.of_nat n + 1)%Z then b !! (j - 1)%Z
    else if decide (j = 1%Z) then (if decide (n = 0%nat) then b !! 1%Z else None)
    else b !! j.
Proof.
  revert b. induction n as [|k IH]; intros b Hfree.
  { cbn [Logger.rotate_backups]. destruct (decide (2 ≤ j ≤ _)%Z); [lia|].
    by destruct (decide (j = 1%Z)) as [->|]. }
  cbn [Logger.rotate_backups].
  assert (Hfree1 : Logger.rotate_backup (Z.of_nat (S k)) b !! (Z.of_nat k + 1)%Z = None).
  { rewrite rotate_backup_spec by exact Hfree.
    destruct (decide (_ = Z.of_nat (S k))); [done|lia]. }
  rewrite (IH _ Hfree1).
  destruct (decide (2 ≤ j ≤ Z.of_nat k + 1)%Z).
  - rewrite rotate_backup_spec by exact Hfree.
    destruct (decide (2 ≤ j ≤ Z.of_nat (S k) + 1)%Z); [|lia].
    destruct (decide ((j - 1)%Z = Z.of_nat (S k))); [lia|].
    destruct (decide ((j - 1)%Z = (Z.of_nat (S k) + 1)%Z)); [lia|done].
  - destruct (decide (j = 1%Z)) as [->|Hj1].
    + destruct (decide (2 ≤ 1 ≤ _)%Z); [lia|].
      destruct (decide (S k = 0%nat)); [lia|].
      destruct (decide (k = 0%nat)) as [->|]; [|done].
      rewrite rotate_backup_spec by exact Hfree. by destruct (decide (1%Z = Z.of_nat 1)).
    + rewrite rotate_backup_spec by exact Hfree.
      destruct (decide (j = Z.of_nat (S k))); [lia|].
      destruct (decide (j = (Z.of_nat (S k) + 1)%Z)) as [->|].
      * destruct (decide (2 ≤ _ ≤ _)%Z); [|lia]. f_equal. lia.
      * destruct (decide (2 ≤ j ≤ Z.of_nat (S k) + 1)%Z); [lia|done].
Qed.

(** X27.  Rotation shifts the backups by one.  With a log file present and
    [max_backups] at least 1, after [_rotate_logs] the log file is gone and
    is backup 1, what was backup [i] is backup [i + 1] for [i] from 1 below
    [max_backups], and files with other numbers are not touched: nothing
    but the previous backup [max_backups] is lost. *)
Theorem rotate_logs_shifts_backups (self : Logger.ScriptLogger) content :
  Logger.log_file self = true →
  Logger.current (Logger.files self) = Some content →
  (1 ≤ Logger.max_backups self)%Z →
  let before := Logger.backups (Logger.files self) in
  let after := Logger.backups (Logger.files (Logger._rotate_logs self)) in
  Logger.current (Logger.files (Logger._rotate_logs self)) = None ∧
  after !! 1%Z = Some content ∧
  (∀ i, (1 ≤ i < Logger.max_backups self)%Z → after !! (i + 1)%Z = before !! i) ∧
  (∀ i, (i < 1 ∨ Logger.max_backups self < i)%Z → after !! i = before !! i).
Proof.
  intros Hfile Hcur Hmax before after. unfold after, Logger._rotate_logs.
  rewrite Hfile, Hcur. cbn [Logger.files Logger.current Logger.backups].
  fold before.
  assert (Hfree : delete (Logger.max_backups self) before
                    !! (Z.of_nat (Z.to_nat (Logger.max_backups self - 1)) + 1)%Z = None).
  { replace (Z.of_nat (Z.to_nat (Logger.max_backups self - 1)) + 1)%Z
      with (Logger.max_backups self) by lia. apply lookup_delete_eq. }
  split; [done|]. split; [apply lookup_insert_eq|]. split.
  - intros i Hi. rewrite lookup_insert_ne by lia.
    rewrite rotate_backups_spec by exact Hfree.
    destruct (decide (2 ≤ i + 1 ≤ _)%Z); [|lia].
    replace (i + 1 - 1)%Z with i by lia. rewrite lookup_delete_ne by lia. done.
  - intros i Hi. rewrite lookup_insert_ne by lia.
    rewrite rotate_backups_spec by exact Hfree.
    destruct (decide (2 ≤ i ≤ _)%Z); [lia|].
    destruct (decide (i = 1%Z)); [lia|]. rewrite lookup_delete_ne by lia. done.
Qed.

(** X27 at a concrete input. *)
Lemma rotate_logs_shifts_backups_witness :
  Logger.current (Logger.files (Logger._rotate_logs sample_logger)) = None ∧
  Logger.backups (Logger.files (Logger._rotate_logs sample_logger)) !! 1%Z = Some "entry" ∧
  Logger.backups (Logger.files (Logger._rotate_logs sample_logger)) !! 2%Z = Some "a" ∧
  Logger.backups (Logger.files (Logger._rotate_logs sample_logger)) !! 3%Z = Some "b" ∧
  Logger.backups (Logger.files (Logger._rotate_logs sample_logger)) !! 7%Z = Some "kept".
Proof.
  destruct (rotate_logs_shifts_backups sample_logger "entry" eq_refl eq_refl)
    as (H0 & H1 & H2 & H3); [done|].
  split; [exact H0|]. split; [exact H1|]. split; [exact (H2 1%Z ltac:(done))|].
  split; [exact (H2 2%Z ltac:(done))|]. apply (H3 7%Z). by right.
Defined.

(** X28.  After [_setup_logging] with a log file and a size limit that is
    not negative, the log file exists, is open for appending and is no
    longer than [max_log_size].  A log found there is rotated exactly when it
    is longer than the limit: otherwise it stays the log file and the backups
    are as before, and when rotated it is backup 1 and the log file starts
    empty. *)
Theorem setup_logging_bounds_log (self : Logger.ScriptLogger) :
  Logger.log_file self = true →
  (0 ≤ Logger.max_log_size self)%Z →
  let after := Logger._setup_logging self in
  ∃ content,
    Logger.current (Logger.files after) = Some content ∧
    (Logger.size content ≤ Logger.max_log_size self)%Z ∧
    Logger._log_handle after
      = Some {| Logger.stream := Logger.FileStream; Logger.closed := false |} ∧
    match Logger.current (Logger.files self) with
    | Some old =>
        if (Logger.max_log_size self <? Logger.size old)%Z
        then content = "" ∧ Logger.backups (Logger.files after) !! 1%Z = Some old
        else content = old ∧
             Logger.backups (Logger.files after) = Logger.backups (Logger.files self)
    | None =>
        content = "" ∧
        Logger.backups (Logger.files after) = Logger.backups (Logger.files self)
    end.
Proof.
  intros Hfile Hmax. cbn zeta. unfold Logger._setup_logging. rewrite Hfile. cbn [negb].
  destruct (Logger.current (Logger.files self)) as [old|] eqn:Hcur.
  - destruct (Z.ltb_spec (Logger.max_log_size self) (Logger.size old)) as [Hbig|Hsmall].
    + unfold Logger._rotate_logs. rewrite Hfile, Hcur.
      cbn [Logger.files Logger.current Logger.backups Logger._log_handle default].
      exists "". split; [done|]. split; [exact Hmax|]. split; [done|].
      split; [done|]. apply lookup_insert_eq.
    + cbn [Logger.files Logger.current Logger.backups Logger._log_handle].
      rewrite Hcur. exists old. cbn [default]. done.
  - cbn [Logger.files Logger.current Logger.backups Logger._log_handle].
    rewrite Hcur. exists "". cbn [default]. done.
Qed.

(** X28 at a concrete input. *)
Lemma setup_logging_bounds_log_witness :
  (Logger.max_log_size sample_logger <? Logger.size "entry")%Z = true ∧
  ∃ content,
    Logger.current (Logger.files (Logger._setup_logging sample_logger)) = Some content ∧
    (Logger.size content ≤ Logger.max_log_size sample_logger)%Z.
Proof.
  split; [reflexivity|].
  destruct (setup_logging_bounds_log sample_logger eq_refl) as (content & H1 & H2 & _);
    [done|].
  exists content. by split.
Defined.
